(** * MDS shard writer and WebVid prefetch scheduler

    A shallow embedding of
    - [streaming/base/format/mds/writer.py] (class [MDSWriter]) and
    - [streaming/multimodal/webvid.py] (classes [StreamingOutsideGIWebVid]
      and [StreamingOutsideDTWebVid]),
    together with the properties of the shard layout, of the per-sample
    encoding, and of the background download loop. *)

From Stdlib Require Import ZArith List Lia Ascii String.
From coqutil Require Import Byte Word.LittleEndianList.
From stdpp Require Import gmap strings list sorting.

Local Open Scope Z_scope.

(** ** Python values, exceptions and results *)

Abbreviation bytes := (list byte).

(** [len(x)] of a Python sequence, as a Python integer. *)
Definition len {A} (l : list A) : Z := Z.of_nat (length l).

(** The Python values that occur in samples. *)
Inductive pyval :=
| PyInt (z : Z)
| PyStr (s : string)
| PyBytes (b : bytes)
| PyList (l : list Z).

(** A sample is a [Dict[str, Any]]. *)
Abbreviation sample_dict := (gmap string pyval).

(** The exceptions raised by the modelled code.  The constructor says which
    Python class is raised and at which place. *)
Inductive exn :=
| TypeError_unsupported_encoding (name encoding : string)
    (* writer.py, line 65: [raise TypeError(...)] *)
| KeyError_missing (key : string)
    (* [d[key]] on a dict without [key] *)
| KeyError_unexpected_data_size (encoding : string)
    (* writer.py, line 98: [raise KeyError('Unexpected data size; ...')] *)
| TypeError_not_a_path (key : string)
    (* [os.path.join] applied to a value that is not a [str] *)
| IndexError_out_of_bounds (index : Z)
    (* indexing an array outside of its bounds *)
| FileNotFoundError (path : string)
    (* [open(path, 'rb')] on a missing file *)
| Raised_by_collaborator (what : string).
    (* an exception coming out of code that is not modelled here *)

Inductive result (A : Type) :=
| Ok (a : A)
| Raise (e : exn).
Arguments Ok {A} a.
Arguments Raise {A} e.

Definition bind {A B} (r : result A) (k : A -> result B) : result B :=
  match r with
  | Ok a => k a
  | Raise e => Raise e
  end.

Notation "'let*' x := r 'in' k" := (bind r (fun x => k))
  (at level 10, x pattern, r at level 100, k at level 200, only parsing).

(** The answer of a collaborator whose code is not modelled: [None] stands
    for an exception of its own, whatever it is. *)
Definition collaborator {A} (what : string) (o : option A) : result A :=
  match o with
  | Some a => Ok a
  | None => Raise (Raised_by_collaborator what)
  end.

(** ** The NumPy operations used by the writer *)

Module np.

(** [np.uint32(z)] and [a.astype(np.uint32)]: reduction modulo [2^32]. *)
Definition uint32 (z : Z) : Z := z mod 2 ^ 32.

(** A value of an [int64] array: two's complement on 64 bits. *)
Definition int64 (z : Z) : Z := (z + 2 ^ 63) mod 2 ^ 64 - 2 ^ 63.

(** [a.cumsum()] on an [int64] array. *)
Fixpoint cumsum_from (acc : Z) (a : list Z) : list Z :=
  match a with
  | [] => []
  | x :: a' => let acc' := int64 (acc + x) in acc' :: cumsum_from acc' a'
  end.

Definition cumsum (a : list Z) : list Z := cumsum_from 0 a.

(** [a.tobytes()] for a [uint32] array: four little-endian bytes per
    element. *)
Definition tobytes (a : list Z) : bytes := concat (map (le_split 4) a).

(** [a += k] for a [uint32] array [a] and a Python integer [k]: the sum is
    taken in [uint32], element by element. *)
Definition iadd (a : list Z) (k : Z) : list Z := map (fun x => uint32 (x + k)) a.

End np.

(** ** [MDSWriter] *)

Module MDSWriter.

(** The keyword arguments of [MDSWriter.__init__] besides [columns]. *)
Record args := {
  local : option string;
  remote : option string;
  keep_local : bool;
  compression : option string;
  hashes : option (list string);
  size_limit : option Z
}.

Definition extra_bytes_per_sample : Z := 4.

Section Writer.

(** The registry of column encodings,
    [streaming.base.format.mds.encodings], is not part of the sources
    at hand: it is a parameter. [get_mds_encoded_size] answers [None]
    for an encoding of variable size; [mds_encode] answers [None] when
    it raises. *)
Variable is_mds_encoding : string -> bool.
Variable get_mds_encoded_size : string -> option Z.
Variable mds_encode : string -> pyval -> option bytes.

(** The base class [JointWriter] is a parameter too: what its
    [__init__] sets up ([None] when it raises), and the UTF-8 bytes
    of [json.dumps(self.get_config(), sort_keys=True)], which depend on
    the base configuration and on the three column lists. *)
Variable base : Type.
Variable JointWriter_init : args -> Z -> option base.
Variable dumps_config :
  base -> list string -> list string -> list (option Z) -> bytes.

Record t := {
  super : base;
  columns : gmap string string;
  column_names : list string;
  column_encodings : list string;
  column_sizes : list (option Z);
  config_data : bytes;
  extra_bytes_per_shard : Z;
  new_samples : list bytes
}.

(** [sorted(columns)]: the names in increasing order. *)
Definition sorted (columns : gmap string string) : list string :=
  merge_sort String.leb (map fst (map_to_list columns)).

(** The loop of [__init__] (lines 62 to 70), over the names that are
    left, with the three lists built so far. *)
Fixpoint init_columns (columns : gmap string string) (names : list string)
    (acc : list string * list string * list (option Z))
    : result (list string * list string * list (option Z)) :=
  match names with
  | [] => Ok acc
  | name :: names' =>
      match columns !! name with
      | None => Raise (KeyError_missing name)
      | Some encoding =>
          if negb (is_mds_encoding encoding)
          then Raise (TypeError_unsupported_encoding name encoding)
          else
            let size := get_mds_encoded_size encoding in
            let '(ns, es, ss) := acc in
            init_columns columns names'
              (ns ++ [name], es ++ [encoding], ss ++ [size])
      end
  end.

(** [MDSWriter.__init__]. The last statement, [_reset_cache()] of the
    base class, leaves the buffer of samples empty. *)
Definition __init__ (columns : gmap string string) (a : args) : result t :=
  let* b := collaborator "JointWriter.__init__"
             (JointWriter_init a extra_bytes_per_sample) in
  let* cols := init_columns columns (sorted columns) ([], [], []) in
  let '(ns, es, ss) := cols in
  let config_data := dumps_config b ns es ss in
  Ok {| super := b;
        columns := columns;
        column_names := ns;
        column_encodings := es;
        column_sizes := ss;
        config_data := config_data;
        extra_bytes_per_shard := 4 + 4 + len config_data;
        new_samples := [] |}.

(** The loop of [encode_sample] (lines 89 to 100) over the zipped
    columns that are left. *)
Fixpoint encode_columns (cols : list (string * string * option Z))
    (sample : sample_dict) (sizes : list Z) (data : list bytes)
    : result (list Z * list bytes) :=
  match cols with
  | [] => Ok (sizes, data)
  | (key, encoding, size) :: cols' =>
      match sample !! key with
      | None => Raise (KeyError_missing key)
      | Some value =>
          let* datum := collaborator "mds_encode" (mds_encode encoding value) in
          match size with
          | None =>
              let size := len datum in
              encode_columns cols' sample (sizes ++ [size]) (data ++ [datum])
          | Some size =>
              if negb (size =? len datum)
              then Raise (KeyError_unexpected_data_size encoding)
              else encode_columns cols' sample sizes (data ++ [datum])
          end
      end
  end.

Definition zip_columns (self : t) : list (string * string * option Z) :=
  zip (zip (column_names self) (column_encodings self)) (column_sizes self).

(** [MDSWriter.encode_sample]. *)
Definition encode_sample (self : t) (sample : sample_dict) : result bytes :=
  let* r := encode_columns (zip_columns self) sample [] [] in
  let '(sizes, data) := r in
  let head := np.tobytes (map np.uint32 sizes) in
  let body := concat data in
  Ok (head ++ body).

(** The array [offsets] of [encode_joint_shard] after line 128. *)
Definition joint_shard_offsets (self : t) : list Z :=
  let num_samples := np.uint32 (len (new_samples self)) in
  let sizes := map len (new_samples self) in
  let offsets := map np.uint32 (np.cumsum (0 :: sizes)) in
  np.iadd offsets
    (len (np.tobytes [num_samples]) + len (np.tobytes offsets)
     + len (config_data self)).

(** [MDSWriter.encode_joint_shard]. *)
Definition encode_joint_shard (self : t) : bytes :=
  let num_samples := np.uint32 (len (new_samples self)) in
  let offsets := joint_shard_offsets self in
  let sample_data := concat (new_samples self) in
  np.tobytes [num_samples] ++ np.tobytes offsets
    ++ config_data self ++ sample_data.

End Writer.

End MDSWriter.

Arguments MDSWriter.t base : clear implicits.
Arguments MDSWriter.super {base} _.
Arguments MDSWriter.columns {base} _.
Arguments MDSWriter.column_names {base} _.
Arguments MDSWriter.column_encodings {base} _.
Arguments MDSWriter.column_sizes {base} _.
Arguments MDSWriter.config_data {base} _.
Arguments MDSWriter.extra_bytes_per_shard {base} _.
Arguments MDSWriter.new_samples {base} _.
Arguments MDSWriter.zip_columns {base} self.
Arguments MDSWriter.encode_sample mds_encode {base} self sample.
Arguments MDSWriter.joint_shard_offsets {base} self.
Arguments MDSWriter.encode_joint_shard {base} self.

(** ** The world of the dataset classes: local files and a trace of calls *)

(** The calls to collaborators that the methods of [webvid.py] make, in the
    order in which they are made. *)
Inductive event :=
| Sleep
    (* [sleep(TICK)] *)
| FindSample (sample_id : Z)
    (* [self.index.find_sample(sample_id)] *)
| DownloadOrSkipShard (shard_id : Z) (flag : bool)
    (* [self._download_or_skip_shard(lock, shard_states, shard_id, flag)] *)
| BaseGetItem (idx : Z)
    (* [super().__getitem__(idx)] *)
| PathExists (path : string)
    (* [os.path.exists(path)] *)
| Download (remote local : string) (timeout : Z)
    (* [download(remote, local, timeout)] *)
| ReadFile (path : string).
    (* [open(path, 'rb')] and [fp.read()] *)

Record world := {
  files : gmap string bytes;
  log : list event
}.

(** Computations that read and write the world and may raise. *)
Definition io (A : Type) : Type := world -> result A * world.

Definition ret {A} (a : A) : io A := fun w => (Ok a, w).

Definition raise {A} (e : exn) : io A := fun w => (Raise e, w).

Definition io_bind {A B} (m : io A) (k : A -> io B) : io B :=
  fun w =>
    match m w with
    | (Ok a, w') => k a w'
    | (Raise e, w') => (Raise e, w')
    end.

Notation "'let!' x := m 'in' k" := (io_bind m (fun x => k))
  (at level 10, x pattern, m at level 100, k at level 200, only parsing).

Definition emit (e : event) : io unit :=
  fun w => (Ok tt, {| files := files w; log := log w ++ [e] |}).

Definition lift {A} (r : result A) : io A := fun w => (r, w).

(** ** [os.path] *)

Module os_path.

(** [s.startswith('/')] and [s.endswith('/')]. *)
Definition startswith_sep (s : string) : bool := String.prefix "/" s.

Fixpoint endswith_sep (s : string) : bool :=
  match s with
  | EmptyString => false
  | String c EmptyString => Ascii.eqb c "/"%char
  | String _ s' => endswith_sep s'
  end.

(** [os.path.join(a, b)] of [posixpath]. *)
Definition join (a b : string) : string :=
  if startswith_sep b then b
  else if String.eqb a EmptyString || endswith_sep a then (a ++ b)%string
  else (a ++ "/" ++ b)%string.

(** [os.path.exists(path)]. The paths of the world are regular files:
    directories are not part of [files]. *)
Definition exists_ (path : string) : io bool :=
  fun w =>
    (Ok (bool_decide (is_Some (files w !! path))),
     {| files := files w; log := log w ++ [PathExists path] |}).

End os_path.

(** [with open(path, 'rb') as fp: content = fp.read()]. The world holds
    regular files that can be read, so that [open] raises for a missing
    file only. *)
Definition read_file (path : string) : io bytes :=
  let! _ := emit (ReadFile path) in
  fun w =>
    match files w !! path with
    | Some content => (Ok content, w)
    | None => (Raise (FileNotFoundError path), w)
    end.

(** ** The partition state and the dataset classes of [webvid.py] *)

(** The fields of [_PartitionState] that [_download_thread] uses. *)
Record PartitionState := {
  sample_ids : list Z;
  total : Z;
  download_index : Z;
  yield_index : Z;
  is_stopped : bool
}.

(** [state.download_index += 1]. *)
Definition advance_download_index (state : PartitionState) : PartitionState :=
  {| sample_ids := sample_ids state;
     total := total state;
     download_index := download_index state + 1;
     yield_index := yield_index state;
     is_stopped := is_stopped state |}.

(** [a[i]] for an array [a] and a Python integer [i]; a negative [i] counts
    from the end. *)
Definition array_getitem (a : list Z) (i : Z) : result Z :=
  let j := if i <? 0 then i + len a else i in
  if (0 <=? j) && (j <? len a)
  then match a !! Z.to_nat j with
       | Some x => Ok x
       | None => Raise (IndexError_out_of_bounds i)
       end
  else Raise (IndexError_out_of_bounds i).

(** The attributes of a dataset object that the methods below read.
    [download_timeout] is a number of seconds that is only handed to
    [download]. *)
Record dataset := {
  predownload : option Z;
  download_timeout : Z;
  extra_local : option string;
  extra_remote : option string
}.

(** The test [self.extra_local and self.extra_remote]: both are set and not
    empty. It answers the two roots when it holds. *)
Definition extra_roots (self : dataset) : option (string * string) :=
  match extra_local self, extra_remote self with
  | Some l, Some r =>
      if negb (String.eqb l EmptyString) && negb (String.eqb r EmptyString)
      then Some (l, r) else None
  | _, _ => None
  end.

(** [obj['content_path']], used as a path. *)
Definition content_path (obj : sample_dict) : io string :=
  match obj !! "content_path"%string with
  | Some (PyStr rel_path) => ret rel_path
  | Some _ => raise (TypeError_not_a_path "content_path")
  | None => raise (KeyError_missing "content_path")
  end.

(** What the loop of [_download_thread] does before its body: leave the
    loop, wait and test again, or go on with the slot. *)
Inductive guard := Break | Wait | Proceed.

Inductive control := LeaveLoop | Continue.

Section Collaborators.

(** Collaborators that are not part of the sources at hand.
    - [base_sample] is what [StreamingDataset.__getitem__] returns for an
      index, [None] when it raises.
    - [remote_content] is what the object store holds under a remote
      path. *)
Variable base_sample : Z -> option sample_dict.
Variable remote_content : string -> option bytes.

(** Modelled from the spec: the transfer primitive
    [download(remote, local, timeout)] of [streaming.base.storage], whose
    code is missing. After a transfer the local path holds the remote
    content; a transfer that fails for good raises. What a failed transfer
    leaves behind is not specified: it is taken to leave the files as they
    were. *)
Definition download (remote local : string) (timeout : Z) : io unit :=
  let! _ := emit (Download remote local timeout) in
  fun w =>
    match remote_content remote with
    | Some content =>
        (Ok tt, {| files := <[local := content]> (files w); log := log w |})
    | None => (Raise (Raised_by_collaborator "download"), w)
    end.

(** Modelled from the spec: base retrieval, [StreamingDataset.__getitem__],
    whose code is missing. It is recorded as a call and answers the decoded
    sample; it leaves the side-asset files alone. The calls that base
    retrieval makes on its own, the blocking shard acquisition among them,
    are not recorded here: they are written out in
    [fallible.super_getitem]. *)
Definition super_getitem (idx : Z) : io sample_dict :=
  let! _ := emit (BaseGetItem idx) in
  lift (collaborator "StreamingDataset.__getitem__" (base_sample idx)).

(** Modelled from the spec: the shard acquisition of the Shard Cache,
    [ensure_local(shard_id, blocking)], which the source calls as
    [self._download_or_skip_shard(lock, shard_states, shard_id, flag)] and
    whose code is missing. The call is recorded with its flag and is taken
    to return; [fallible._download_or_skip_shard] is the same call when it
    may raise. *)
Definition _download_or_skip_shard (shard_id : Z) (flag : bool) : io unit :=
  emit (DownloadOrSkipShard shard_id flag).

End Collaborators.

Module StreamingOutsideGIWebVid.

Section Methods.

Variable base_sample : Z -> option sample_dict.
Variable remote_content : string -> option bytes.

(** [StreamingOutsideGIWebVid.__getitem__] (lines 117 to 140). *)
Definition __getitem__ (self : dataset) (idx : Z) : io sample_dict :=
  let! obj := super_getitem base_sample idx in
  match extra_roots self with
  | Some (extra_local, extra_remote) =>
      let! rel_path := content_path obj in
      let local := os_path.join extra_local rel_path in
      let remote := os_path.join extra_remote rel_path in
      let! present := os_path.exists_ local in
      let! _ := (if negb present
                 then download remote_content remote local (download_timeout self)
                 else ret tt) in
      let! content := read_file local in
      ret (<["content"%string := PyBytes content]> obj)
  | None => ret obj
  end.

End Methods.

End StreamingOutsideGIWebVid.

Module StreamingOutsideDTWebVid.

Section Methods.

(** [find_sample] is [self.index.find_sample], which is not part of the
    sources at hand either: the shard of a sample and its place in it. *)
Variable find_sample : Z -> Z * Z.
Variable base_sample : Z -> option sample_dict.
Variable remote_content : string -> option bytes.

(** [StreamingOutsideDTWebVid.__getitem__] (lines 200 to 223). *)
Definition __getitem__ (self : dataset) (idx : Z) : io sample_dict :=
  let! obj := super_getitem base_sample idx in
  match extra_roots self with
  | Some (extra_local, extra_remote) =>
      let! rel_path := content_path obj in
      let local := os_path.join extra_local rel_path in
      let remote := os_path.join extra_remote rel_path in
      let! present := os_path.exists_ local in
      let! _ := (if negb present
                 then download remote_content remote local (download_timeout self)
                 else ret tt) in
      let! content := read_file local in
      ret (<["content"%string := PyBytes content]> obj)
  | None => ret obj
  end.

(** Lines 243 to 256 of [_download_thread]: the tests at the top of the
    loop. *)
Definition loop_guard (self : dataset) (state : PartitionState) : guard :=
  if is_stopped state then Break
  else if download_index state =? total state then Break
  else
    match predownload self with
    | Some w =>
        let samples_ahead := download_index state - yield_index state in
        if w <=? samples_ahead then Wait else Proceed
    | None => Proceed
    end.

(** Lines 264 to 275 of [_download_thread]: the shard of the sample and its
    extra data. *)
Definition predownload_sample (self : dataset) (sample_id : Z) : io unit :=
  let! _ := emit (FindSample sample_id) in
  let '(shard_id, _) := find_sample sample_id in
  let! _ := _download_or_skip_shard shard_id false in
  let! obj := super_getitem base_sample sample_id in
  match extra_roots self with
  | Some (extra_local, extra_remote) =>
      let! rel_path := content_path obj in
      let local := os_path.join extra_local rel_path in
      let remote := os_path.join extra_remote rel_path in
      let! present := os_path.exists_ local in
      if negb present
      then download remote_content remote local (download_timeout self)
      else ret tt
  | None => ret tt
  end.

(** Lines 258 to 277 of [_download_thread]: the body of the loop once the
    tests at the top are passed. *)
Definition loop_body (self : dataset) (state : PartitionState)
    : io PartitionState :=
  let! sample_id := lift (array_getitem (sample_ids state) (download_index state)) in
  if sample_id =? -1
  then ret (advance_download_index state)
  else
    let! _ := predownload_sample self sample_id in
    ret (advance_download_index state).

(** One turn of the loop [while True] of [_download_thread]. *)
Definition loop_iteration (self : dataset) (state : PartitionState)
    : io (control * PartitionState) :=
  match loop_guard self state with
  | Break => ret (LeaveLoop, state)
  | Wait => let! _ := emit Sleep in ret (Continue, state)
  | Proceed =>
      let! state' := loop_body self state in
      ret (Continue, state')
  end.

(** [StreamingOutsideDTWebVid._download_thread] run alone, for at most
    [fuel] turns of its loop; [None] when the fuel is used up before the
    loop is left. The lock and the table of [self._get_shard_states()]
    (line 237) are only handed to [_download_or_skip_shard]. *)
Fixpoint _download_thread (fuel : nat) (self : dataset) (state : PartitionState)
    : io (option PartitionState) :=
  match fuel with
  | O => ret None
  | S fuel' =>
      let! r := loop_iteration self state in
      match r with
      | (LeaveLoop, state') => ret (Some state')
      | (Continue, state') => _download_thread fuel' self state'
      end
  end.

End Methods.

End StreamingOutsideDTWebVid.

Import StreamingOutsideDTWebVid.

Section DownloadThread.

Variable find_sample : Z -> Z * Z.
Variable base_sample : Z -> option sample_dict.
Variable remote_content : string -> option bytes.

(** *** The download thread next to the consumer

    The thread is at the top of its loop, or past the tests and about to
    run the body, or it has left the loop, or an exception ended it. The
    partition state and the files are shared with the rest of the
    process. *)
Inductive pc := AtLoopTop | InBody | Exited | Died (e : exn).

Record machine := {
  at_pc : pc;
  shared : PartitionState;
  env : world
}.

Definition running (m : machine) : bool :=
  match at_pc m with
  | AtLoopTop | InBody => true
  | Exited | Died _ => false
  end.

(** One step of the thread. *)
Definition thread_step (self : dataset) (m : machine) : machine :=
  match at_pc m with
  | AtLoopTop =>
      match loop_guard self (shared m) with
      | Break => {| at_pc := Exited; shared := shared m; env := env m |}
      | Wait =>
          {| at_pc := AtLoopTop; shared := shared m;
             env := snd (emit Sleep (env m)) |}
      | Proceed => {| at_pc := InBody; shared := shared m; env := env m |}
      end
  | InBody =>
      match loop_body find_sample base_sample remote_content self
              (shared m) (env m) with
      | (Ok state', w') => {| at_pc := AtLoopTop; shared := state'; env := w' |}
      | (Raise e, w') => {| at_pc := Died e; shared := shared m; env := w' |}
      end
  | Exited | Died _ => m
  end.

(** What the rest of the process may do between two steps of the thread:
    the consumer moves [yield_index] forward, a new epoch sets the stop
    flag, and files come and go. Nothing else writes [download_index], the
    assigned sample ids or [total], and the trace of the thread is its
    own. *)
Record others_step (m m' : machine) : Prop := {
  others_pc : at_pc m' = at_pc m;
  others_sample_ids : sample_ids (shared m') = sample_ids (shared m);
  others_total : total (shared m') = total (shared m);
  others_download_index : download_index (shared m') = download_index (shared m);
  others_yield_index : yield_index (shared m) <= yield_index (shared m');
  others_is_stopped : is_stopped (shared m) = true -> is_stopped (shared m') = true;
  others_log : log (env m') = log (env m)
}.

(** A run of the whole, with the number of steps the thread takes in it. *)
Inductive run (self : dataset) : nat -> machine -> machine -> Prop :=
| run_refl m : run self 0 m m
| run_thread n m m' :
    running m = true -> run self n (thread_step self m) m' -> run self (S n) m m'
| run_others n m1 m2 m' :
    others_step m1 m2 -> run self n m2 m' -> run self n m1 m'.

End DownloadThread.

(** ** What the specification says of the writer, as predicates on the code *)

(** The sum of an array of integers. *)
Definition sumZ (a : list Z) : Z := foldr Z.add 0 a.

(** The position of the first sample in the file of a joint shard. *)
Definition data_start {base} (self : MDSWriter.t base) : Z :=
  4 + 4 * (len (MDSWriter.new_samples self) + 1) + len (MDSWriter.config_data self).

(** The layout of a joint shard, as the specification has it for every
    buffer of samples: the count [n] and the [n + 1] offsets are [uint32] values, the
    file is the count, the offsets, the metadata and the samples, the first
    offset is the position after the metadata, two offsets in a row are
    apart by the length of the sample between them, and the last offset is
    the length of the file. *)
Definition offset_table_correct {base} (self : MDSWriter.t base)
    (offsets : list Z) : Prop :=
  let n := len (MDSWriter.new_samples self) in
  let file := MDSWriter.encode_joint_shard self in
  len offsets = n + 1
  /\ Forall (fun o => 0 <= o < 2 ^ 32) (n :: offsets)
  /\ file = np.tobytes [n] ++ np.tobytes offsets
            ++ MDSWriter.config_data self
            ++ concat (MDSWriter.new_samples self)
  /\ offsets !! 0%nat = Some (4 + 4 * (n + 1) + len (MDSWriter.config_data self))
  /\ (forall (k : nat) (sample : bytes),
        MDSWriter.new_samples self !! k = Some sample ->
        exists a b, offsets !! k = Some a /\ offsets !! S k = Some b
                    /\ b - a = len sample)
  /\ offsets !! length (MDSWriter.new_samples self) = Some (len file).

(** A writer whose buffer holds one sample of [2^32] bytes. *)
Definition writer_with_a_large_sample : MDSWriter.t unit :=
  {| MDSWriter.super := tt;
     MDSWriter.columns := {[ "data"%string := "bytes"%string ]};
     MDSWriter.column_names := ["data"%string];
     MDSWriter.column_encodings := ["bytes"%string];
     MDSWriter.column_sizes := [None];
     MDSWriter.config_data := list_byte_of_string "{}";
     MDSWriter.extra_bytes_per_shard := 4 + 4 + 2;
     MDSWriter.new_samples := [repeat Byte.x00 (Z.to_nat (2 ^ 32))] |}.

(** A writer whose buffer holds two samples of 10 and 8 bytes, with 50
    bytes of metadata. *)
Definition writer_with_two_samples : MDSWriter.t unit :=
  {| MDSWriter.super := tt;
     MDSWriter.columns := {[ "data"%string := "bytes"%string ]};
     MDSWriter.column_names := ["data"%string];
     MDSWriter.column_encodings := ["bytes"%string];
     MDSWriter.column_sizes := [None];
     MDSWriter.config_data := repeat Byte.x20 50;
     MDSWriter.extra_bytes_per_shard := 4 + 4 + 50;
     MDSWriter.new_samples := [repeat Byte.x01 10; repeat Byte.x02 8] |}.

(** ** A registry of encodings and a base class to run the writer on *)

Module demo.

(** Modelled from the spec: the registry of column encodings
    ([streaming.base.format.mds.encodings], whose code is missing), with
    one encoding of a fixed size, an unsigned integer on 4 bytes, and one
    of variable size, UTF-8 text. A string of this development is the
    sequence of the UTF-8 bytes of the text. The integer encoding is
    [np.uint32(value).tobytes()], which also accepts a list of integers
    and then writes 4 bytes for each. *)
Definition is_mds_encoding (encoding : string) : bool :=
  String.eqb encoding "uint32" || String.eqb encoding "str".

Definition get_mds_encoded_size (encoding : string) : option Z :=
  if String.eqb encoding "uint32" then Some 4 else None.

Definition mds_encode (encoding : string) (value : pyval) : option bytes :=
  if String.eqb encoding "uint32" then
    match value with
    | PyInt z => Some (np.tobytes [np.uint32 z])
    | PyList l => Some (np.tobytes (map np.uint32 l))
    | _ => None
    end
  else if String.eqb encoding "str" then
    match value with
    | PyStr s => Some (list_byte_of_string s)
    | _ => None
    end
  else None.

(** A stand-in for the base class [JointWriter]: its [__init__] accepts
    every argument and its configuration is serialised to the columns'
    names. *)
Definition JointWriter_init (a : MDSWriter.args) (extra : Z) : option unit :=
  Some tt.

Definition dumps_config (b : unit) (names encodings : list string)
    (sizes : list (option Z)) : bytes :=
  list_byte_of_string (String.concat "," names).

Definition no_args : MDSWriter.args :=
  {| MDSWriter.local := Some "/tmp/out"%string;
     MDSWriter.remote := None;
     MDSWriter.keep_local := false;
     MDSWriter.compression := None;
     MDSWriter.hashes := None;
     MDSWriter.size_limit := Some (Z.shiftl 1 26) |}.

Definition new_writer :=
  MDSWriter.__init__ is_mds_encoding get_mds_encoded_size unit
    JointWriter_init dumps_config.

(** The schema [{a: uint32, b: str}] and the sample [{a: 7, b: "hi"}]. *)
Definition columns_a_b : gmap string string :=
  {[ "a"%string := "uint32"%string; "b"%string := "str"%string ]}.

Definition sample_7_hi : sample_dict :=
  {[ "a"%string := PyInt 7; "b"%string := PyStr "hi" ]}.

(** A sample whose field [a] is a list of two integers. *)
Definition sample_list_hi : sample_dict :=
  {[ "a"%string := PyList [7; 8]; "b"%string := PyStr "hi" ]}.

(** A schema with an encoding that is not registered. *)
Definition columns_a_zzz : gmap string string :=
  {[ "a"%string := "uint32"%string; "b"%string := "zzz"%string ]}.

(** The writer that [__init__] builds for the schema [{a: uint32, b: str}]. *)
Definition writer_a_b : MDSWriter.t unit :=
  {| MDSWriter.super := tt;
     MDSWriter.columns := columns_a_b;
     MDSWriter.column_names := ["a"%string; "b"%string];
     MDSWriter.column_encodings := ["uint32"%string; "str"%string];
     MDSWriter.column_sizes := [Some 4; None];
     MDSWriter.config_data := list_byte_of_string "a,b";
     MDSWriter.extra_bytes_per_shard := 4 + 4 + 3;
     MDSWriter.new_samples := [] |}.

End demo.

(** ** The per-sample encoding, as the specification has it *)

Section EncodedSample.

Variable mds_encode : string -> pyval -> option bytes.

(** [datum] is the encoding of the field of [sample] for a column, and it
    has the declared size when the column has one. *)
Definition encodes_column (sample : sample_dict)
    (col : string * string * option Z) (datum : bytes) : Prop :=
  let '(key, encoding, size) := col in
  exists value,
    sample !! key = Some value
    /\ mds_encode encoding value = Some datum
    /\ forall s, size = Some s -> s = len datum.

(** The column is of a fixed size and the encoding of its field has another
    length. *)
Definition mismatched_column (sample : sample_dict)
    (col : string * string * option Z) : Prop :=
  let '(key, encoding, size) := col in
  exists value datum s,
    sample !! key = Some value
    /\ mds_encode encoding value = Some datum
    /\ size = Some s /\ s <> len datum.

(** The lengths of the data of the columns of variable size, in the order
    of the columns. *)
Fixpoint variable_lengths (cols : list (string * string * option Z))
    (data : list bytes) : list Z :=
  match cols, data with
  | (_, _, None) :: cols', datum :: data' =>
      len datum :: variable_lengths cols' data'
  | (_, _, Some _) :: cols', _ :: data' => variable_lengths cols' data'
  | _, _ => []
  end.

(** The bytes of a sample: the table of the sizes, as [uint32], then the
    data of all the columns. *)
Definition sample_bytes (cols : list (string * string * option Z))
    (data : list bytes) : bytes :=
  np.tobytes (map np.uint32 (variable_lengths cols data)) ++ concat data.

End EncodedSample.

(** ** What the specification says of the dataset classes *)

(** An attribute is unset: [None] or the empty string. *)
Definition unset (o : option string) : Prop := o = None \/ o = Some EmptyString.

(** The calls made between two worlds: what the trace of the second has
    after the trace of the first. *)
Definition emitted (w w' : world) : list event := drop (length (log w)) (log w').

(** The number of network transfers in a trace. *)
Fixpoint count_downloads (trace : list event) : nat :=
  match trace with
  | [] => 0%nat
  | Download _ _ _ :: trace' => S (count_downloads trace')
  | _ :: trace' => count_downloads trace'
  end.

(** Fetching in a world is idempotent with respect to the local files: a
    download is only called for a local path that is missing, a fetch that
    ends well has made one transfer at most, and the same fetch right after
    it ends well with the same answer, makes no transfer and leaves the
    files as they are. *)
Definition idempotent_fetch {A} (fetch : io A) (w : world) : Prop :=
  (forall remote local timeout,
      In (Download remote local timeout) (emitted w (snd (fetch w))) ->
      files w !! local = None)
  /\ forall a w1,
       fetch w = (Ok a, w1) ->
       (count_downloads (emitted w w1) <= 1)%nat
       /\ exists w2,
            fetch w1 = (Ok a, w2)
            /\ files w2 = files w1
            /\ count_downloads (emitted w1 w2) = 0%nat.

(** The window bound of the download thread. *)
Definition within_window (w : Z) (state : PartitionState) : Prop :=
  download_index state - yield_index state <= w.

(** What the download thread keeps true of the window [w]: the bound, and
    one slot of room once the tests at the top of the loop are passed. *)
Definition window_invariant (w : Z) (m : machine) : Prop :=
  within_window w (shared m)
  /\ (at_pc m = InBody ->
      download_index (shared m) - yield_index (shared m) < w).

(** The shard acquisition is called in blocking mode somewhere in a
    trace. *)
Definition acquires_blocking (trace : list event) : Prop :=
  exists shard_id, In (DownloadOrSkipShard shard_id true) trace.

(** The steps that the thread may still take once the stop flag is set:
    the body it is in, if any, and one test at the top of the loop. *)
Definition steps_left (m : machine) : nat :=
  match at_pc m with
  | InBody => 2
  | AtLoopTop => 1
  | Exited | Died _ => 0
  end.

(** The thread has ended: it left the loop or an exception ended it. *)
Definition ended (m : machine) : Prop := running m = false.

(** A dataset and its collaborators to run the methods on: ten samples per
    shard, samples that name the video [v.mp4], and a remote store that
    holds this one video. *)
Module demo_webvid.

Definition find_sample (sample_id : Z) : Z * Z := (sample_id / 10, sample_id mod 10).

Definition base_sample (idx : Z) : option sample_dict :=
  Some {[ "content_path"%string := PyStr "v.mp4"; "caption"%string := PyStr "hi" ]}.

Definition remote_content (path : string) : option bytes :=
  if String.eqb path "s3://videos/v.mp4" then Some [Byte.x01; Byte.x02] else None.

Definition outside : dataset :=
  {| predownload := Some 2;
     download_timeout := 60;
     extra_local := Some "/tmp/videos"%string;
     extra_remote := Some "s3://videos"%string |}.

Definition inside_only : dataset :=
  {| predownload := Some 2;
     download_timeout := 60;
     extra_local := None;
     extra_remote := Some "s3://videos"%string |}.

Definition empty_world : world := {| files := ∅; log := [] |}.

(** Four slots, the second one is padding. *)
Definition fresh_state : PartitionState :=
  {| sample_ids := [10; -1; 11; 12];
     total := 4;
     download_index := 0;
     yield_index := 0;
     is_stopped := false |}.

Definition at_padding : PartitionState :=
  {| sample_ids := [10; -1; 11; 12];
     total := 4;
     download_index := 1;
     yield_index := 0;
     is_stopped := false |}.

Definition start : machine :=
  {| at_pc := AtLoopTop; shared := fresh_state; env := empty_world |}.

(** The thread is in the body of the loop when the stop flag is set. *)
Definition stopped_in_body : machine :=
  {| at_pc := InBody;
     shared := {| sample_ids := [10; -1; 11; 12];
                  total := 4;
                  download_index := 0;
                  yield_index := 0;
                  is_stopped := true |};
     env := empty_world |}.

Definition step : machine -> machine :=
  thread_step find_sample base_sample remote_content outside.

(** A first access to sample 3, with no local file yet, and the sample
    that it answers. *)
Definition first_fetch : result sample_dict * world :=
  StreamingOutsideGIWebVid.__getitem__ base_sample remote_content outside 3
    empty_world.

Definition fetched_sample : sample_dict :=
  <[ "content"%string := PyBytes [Byte.x01; Byte.x02] ]>
    {[ "content_path"%string := PyStr "v.mp4"; "caption"%string := PyStr "hi" ]}.

End demo_webvid.


(** ** The download of a sample with collaborators that may raise

    The body of the loop of [_download_thread] once more, this time with
    an index lookup and a shard acquisition that may raise, and with the
    calls that base retrieval makes on its own written out. The methods
    above take these calls to return and record base retrieval as one
    call. *)
Module fallible.

Section Methods.

(** Collaborators that are not part of the sources at hand.
    - [find_sample] is [self.index.find_sample]: the shard of a sample
      and its place in it, [None] when the lookup raises.
    - [ensure_local shard_id blocking] is what the shard acquisition
      answers for a shard and a flag, [None] when it raises (the
      [ShardUnavailable] of the specification).
    - [base_sample] is the sample that base retrieval decodes, [None]
      when the decoding raises.
    - [remote_content] is what the object store holds under a remote
      path. *)
Variable find_sample : Z -> option (Z * Z).
Variable ensure_local : Z -> bool -> option bool.
Variable base_sample : Z -> option sample_dict.
Variable remote_content : string -> option bytes.

(** [self.index.find_sample(sample_id)]. *)
Definition index_find_sample (sample_id : Z) : io (Z * Z) :=
  let! _ := emit (FindSample sample_id) in
  lift (collaborator "find_sample" (find_sample sample_id)).

(** Modelled from the spec: the shard acquisition of the Shard Cache,
    [ensure_local(shard_id, blocking)], which the source calls as
    [self._download_or_skip_shard(lock, shard_states, shard_id, flag)] and
    whose code is missing. The call is recorded with its flag; it answers
    whether the shard is present, or raises. *)
Definition _download_or_skip_shard (shard_id : Z) (flag : bool) : io bool :=
  let! _ := emit (DownloadOrSkipShard shard_id flag) in
  lift (collaborator "_download_or_skip_shard" (ensure_local shard_id flag)).

(** Modelled from the spec: base retrieval, [StreamingDataset.__getitem__],
    whose code is missing: given a sample index, locate the shard, block
    until the shard is locally available, that is call the shard
    acquisition in blocking mode, and decode the sample. *)
Definition super_getitem (idx : Z) : io sample_dict :=
  let! _ := emit (BaseGetItem idx) in
  let! found := index_find_sample idx in
  let '(shard_id, _) := found in
  let! _ := _download_or_skip_shard shard_id true in
  lift (collaborator "StreamingDataset.__getitem__" (base_sample idx)).

(** Lines 264 to 275 of [_download_thread]: the shard of the sample and its
    extra data. *)
Definition predownload_sample (self : dataset) (sample_id : Z) : io unit :=
  let! found := index_find_sample sample_id in
  let '(shard_id, _) := found in
  let! _ := _download_or_skip_shard shard_id false in
  let! obj := super_getitem sample_id in
  match extra_roots self with
  | Some (extra_local, extra_remote) =>
      let! rel_path := content_path obj in
      let local := os_path.join extra_local rel_path in
      let remote := os_path.join extra_remote rel_path in
      let! present := os_path.exists_ local in
      if negb present
      then download remote_content remote local (download_timeout self)
      else ret tt
  | None => ret tt
  end.

(** Lines 258 to 277 of [_download_thread]: the body of the loop once the
    tests at the top are passed. *)
Definition loop_body (self : dataset) (state : PartitionState)
    : io PartitionState :=
  let! sample_id := lift (array_getitem (sample_ids state) (download_index state)) in
  if sample_id =? -1
  then ret (advance_download_index state)
  else
    let! _ := predownload_sample self sample_id in
    ret (advance_download_index state).

(** One turn of the loop [while True] of [_download_thread]. *)
Definition loop_iteration (self : dataset) (state : PartitionState)
    : io (control * PartitionState) :=
  match loop_guard self state with
  | Break => ret (LeaveLoop, state)
  | Wait => let! _ := emit Sleep in ret (Continue, state)
  | Proceed =>
      let! state' := loop_body self state in
      ret (Continue, state')
  end.

End Methods.

End fallible.

(** The calls of the download of a sample up to the end of base
    retrieval: the lookup and the acquisition of line 265 and 266, then
    base retrieval with its own lookup and its blocking acquisition. *)
Definition calls_up_to_base_retrieval (sample_id shard_id : Z) : list event :=
  [FindSample sample_id; DownloadOrSkipShard shard_id false;
   BaseGetItem sample_id; FindSample sample_id;
   DownloadOrSkipShard shard_id true].

(** Collaborators that may raise, to run the download of a sample on: the
    index knows the samples from 0 on, and shard 9 cannot be had. *)
Module demo_fallible.

Definition find_sample (sample_id : Z) : option (Z * Z) :=
  if 0 <=? sample_id then Some (demo_webvid.find_sample sample_id) else None.

Definition ensure_local (shard_id : Z) (blocking : bool) : option bool :=
  if shard_id =? 9 then None else Some blocking.

(** The first slot holds a sample of shard 9. *)
Definition state_on_shard_9 : PartitionState :=
  {| sample_ids := [95; -1; 11; 12];
     total := 4;
     download_index := 0;
     yield_index := 0;
     is_stopped := false |}.

End demo_fallible.
(** ** Reading a shard file back, and the buffer of a writer *)

(** The [uint32] that a file holds at a position, in little-endian. *)
Definition read_uint32 (file : bytes) (pos : Z) : Z :=
  le_combine (take 4 (drop (Z.to_nat pos) file)).

(** [file[lo:hi]] for [0 <= lo <= hi]. *)
Definition slice (file : bytes) (lo hi : Z) : bytes :=
  take (Z.to_nat (hi - lo)) (drop (Z.to_nat lo) file).

(** A writer with the given samples in its buffer [new_samples], the
    other attributes as they are. *)
Definition with_samples {base} (self : MDSWriter.t base)
    (samples : list bytes) : MDSWriter.t base :=
  {| MDSWriter.super := MDSWriter.super self;
     MDSWriter.columns := MDSWriter.columns self;
     MDSWriter.column_names := MDSWriter.column_names self;
     MDSWriter.column_encodings := MDSWriter.column_encodings self;
     MDSWriter.column_sizes := MDSWriter.column_sizes self;
     MDSWriter.config_data := MDSWriter.config_data self;
     MDSWriter.extra_bytes_per_shard := MDSWriter.extra_bytes_per_shard self;
     MDSWriter.new_samples := samples |}.

(** The declared sizes of the columns of a fixed size. *)
Definition declared_sizes (cols : list (string * string * option Z)) : list Z :=
  flat_map (fun col => match snd col with Some s => [s] | None => [] end) cols.

(** The number of columns of variable size. *)
Definition count_variable (cols : list (string * string * option Z)) : Z :=
  len (List.filter (fun col => match snd col with None => true | Some _ => false end) cols).

(** A writer of the registry [demo] with three samples in its buffer. *)
Definition writer_with_three_samples : MDSWriter.t unit :=
  with_samples demo.writer_a_b
    [[Byte.x01; Byte.x02]; []; [Byte.x03; Byte.x04; Byte.x05]].

(** The sample [{a: 7, b: "hi"}] with one more field, and a sample without
    the field [b]. *)
Definition sample_with_more : sample_dict :=
  <[ "c"%string := PyInt 1 ]> demo.sample_7_hi.

Definition sample_only_a : sample_dict := {[ "a"%string := PyInt 7 ]}.

(** ** [StreamingInsideWebVid] *)

Module StreamingInsideWebVid.

Section Methods.

Variable base_sample : Z -> option sample_dict.

(** [StreamingInsideWebVid.__getitem__] (lines 46 to 57). *)
Definition __getitem__ (idx : Z) : io sample_dict :=
  let! obj := super_getitem base_sample idx in
  ret obj.

End Methods.

End StreamingInsideWebVid.

(** ** What is said of the dataset classes below *)

(** The partition state is well formed: [total] is the number of slots and
    the download cursor is on a slot or at the end. *)
Definition well_formed (state : PartitionState) : Prop :=
  total state = len (sample_ids state)
  /\ 0 <= download_index state <= total state.

(** The thread is within the bounds of its partition: the state is well
    formed, the thread is on a slot when it is in the body of the loop, and
    no index error ended it. *)
Definition in_bounds (m : machine) : Prop :=
  well_formed (shared m)
  /\ match at_pc m with
     | InBody => download_index (shared m) <> total (shared m)
     | Died (IndexError_out_of_bounds _) => False
     | _ => True
     end.

(** The window leaves room up to the last slot: there is no window, or the
    consumer is less than a window away from the end. *)
Definition window_allows (self : dataset) (state : PartitionState) : Prop :=
  match predownload self with
  | None => True
  | Some w => total state - yield_index state <= w
  end.

(** The partition state with the download cursor at the end. *)
Definition at_the_end (state : PartitionState) : PartitionState :=
  {| sample_ids := sample_ids state;
     total := total state;
     download_index := total state;
     yield_index := yield_index state;
     is_stopped := is_stopped state |}.

(** The sample ids that a trace looks up, in the order of the calls. *)
Fixpoint lookups (trace : list event) : list Z :=
  match trace with
  | [] => []
  | FindSample sample_id :: trace' => sample_id :: lookups trace'
  | _ :: trace' => lookups trace'
  end.

(** The transfers that a trace makes, in the order of the calls. *)
Fixpoint transfers (trace : list event) : list (string * string * Z) :=
  match trace with
  | [] => []
  | Download remote local timeout :: trace' =>
      (remote, local, timeout) :: transfers trace'
  | _ :: trace' => transfers trace'
  end.

(** The paths that a trace tests with [os.path.exists], in the order of
    the calls. *)
Fixpoint path_tests (trace : list event) : list string :=
  match trace with
  | [] => []
  | PathExists path :: trace' => path :: path_tests trace'
  | _ :: trace' => path_tests trace'
  end.

(** The slots from a position on that hold a sample id and not the
    sentinel. *)
Definition samples_from (state : PartitionState) (position : Z) : list Z :=
  List.filter (fun sample_id => negb (sample_id =? -1))
    (drop (Z.to_nat position) (sample_ids state)).

(** A dataset with no window, and one with a window of no sample. *)
Definition outside_no_window : dataset :=
  {| predownload := None;
     download_timeout := 60;
     extra_local := Some "/tmp/videos"%string;
     extra_remote := Some "s3://videos"%string |}.

Definition outside_window_0 : dataset :=
  {| predownload := Some 0;
     download_timeout := 60;
     extra_local := Some "/tmp/videos"%string;
     extra_remote := Some "s3://videos"%string |}.

(** Samples that name a video by an absolute path, and a remote store
    that holds something under this same path. *)
Definition absolute_sample (idx : Z) : option sample_dict :=
  Some {[ "content_path"%string := PyStr "/etc/v.mp4" ]}.

Definition absolute_remote (path : string) : option bytes :=
  if String.eqb path "/etc/v.mp4" then Some [Byte.x09] else None.

(** A world in which the video of the samples is there already, with a
    content that is not the remote one. *)
Definition world_with_old_video : world :=
  {| files := {[ "/tmp/videos/v.mp4"%string := [Byte.xff] ]}; log := [] |}.

(** Samples without the field [content_path]. *)
Definition sample_without_path (idx : Z) : option sample_dict :=
  Some {[ "caption"%string := PyStr "hi" ]}.

(** The world after some calls that leave the files as they are. *)
Definition after_calls (w : world) (trace : list event) : world :=
  {| files := files w; log := log w ++ trace |}.

Section Outcomes.

Variable find_sample : Z -> Z * Z.
Variable base_sample : Z -> option sample_dict.
Variable remote_content : string -> option bytes.

(** The outcomes of [__getitem__] of the two classes with videos outside
    the shards, case by case; it is proved below that these are the
    outcomes of the code. *)
Definition getitem_outcome (self : dataset) (idx : Z) (w : world)
    : result sample_dict * world :=
  match base_sample idx with
  | None =>
      (Raise (Raised_by_collaborator "StreamingDataset.__getitem__"),
       after_calls w [BaseGetItem idx])
  | Some obj =>
      match extra_roots self with
      | None => (Ok obj, after_calls w [BaseGetItem idx])
      | Some (l, r) =>
          match obj !! "content_path"%string with
          | Some (PyStr p) =>
              let local := os_path.join l p in
              let remote := os_path.join r p in
              match files w !! local with
              | Some content =>
                  (Ok (<["content"%string := PyBytes content]> obj),
                   after_calls w [BaseGetItem idx; PathExists local; ReadFile local])
              | None =>
                  match remote_content remote with
                  | Some content =>
                      (Ok (<["content"%string := PyBytes content]> obj),
                       {| files := <[local := content]> (files w);
                          log := log w
                                 ++ [BaseGetItem idx; PathExists local;
                                     Download remote local (download_timeout self);
                                     ReadFile local] |})
                  | None =>
                      (Raise (Raised_by_collaborator "download"),
                       after_calls w
                         [BaseGetItem idx; PathExists local;
                          Download remote local (download_timeout self)])
                  end
              end
          | Some _ =>
              (Raise (TypeError_not_a_path "content_path"),
               after_calls w [BaseGetItem idx])
          | None =>
              (Raise (KeyError_missing "content_path"),
               after_calls w [BaseGetItem idx])
          end
      end
  end.

(** The outcomes of the download of a sample by the thread (lines 264 to
    275), case by case. *)
Definition predownload_outcome (self : dataset) (sample_id : Z) (w : world)
    : result unit * world :=
  let first := [FindSample sample_id;
                DownloadOrSkipShard (fst (find_sample sample_id)) false;
                BaseGetItem sample_id] in
  match base_sample sample_id with
  | None =>
      (Raise (Raised_by_collaborator "StreamingDataset.__getitem__"),
       after_calls w first)
  | Some obj =>
      match extra_roots self with
      | None => (Ok tt, after_calls w first)
      | Some (l, r) =>
          match obj !! "content_path"%string with
          | Some (PyStr p) =>
              let local := os_path.join l p in
              let remote := os_path.join r p in
              match files w !! local with
              | Some content =>
                  (Ok tt, after_calls w (first ++ [PathExists local]))
              | None =>
                  match remote_content remote with
                  | Some content =>
                      (Ok tt,
                       {| files := <[local := content]> (files w);
                          log := log w
                                 ++ first
                                 ++ [PathExists local;
                                     Download remote local (download_timeout self)] |})
                  | None =>
                      (Raise (Raised_by_collaborator "download"),
                       after_calls w
                         (first ++ [PathExists local;
                                    Download remote local (download_timeout self)]))
                  end
              end
          | Some _ =>
              (Raise (TypeError_not_a_path "content_path"), after_calls w first)
          | None =>
              (Raise (KeyError_missing "content_path"), after_calls w first)
          end
      end
  end.

End Outcomes.

(** * Properties *)

(** ** Arithmetic of the arrays *)

Section Arrays.

Lemma uint32_int64_add (z b : Z) :
  np.uint32 (np.int64 z + b) = np.uint32 (z + b).
Proof.
  unfold np.uint32, np.int64.
  rewrite (Z.mod_eq (z + 2 ^ 63) (2 ^ 64)) by lia.
  replace (z + 2 ^ 63 - 2 ^ 64 * ((z + 2 ^ 63) / 2 ^ 64) - 2 ^ 63 + b)
    with (z + b + (- (2 ^ 32 * ((z + 2 ^ 63) / 2 ^ 64))) * 2 ^ 32) by lia.
  apply Z_mod_plus_full.
Qed.

Lemma uint32_int64 (z : Z) : np.uint32 (np.int64 z) = np.uint32 z.
Proof.
  rewrite <- (Z.add_0_r (np.int64 z)), uint32_int64_add. f_equal. lia.
Qed.

Lemma uint32_uint32_add (z b : Z) :
  np.uint32 (np.uint32 z + b) = np.uint32 (z + b).
Proof. unfold np.uint32. apply Zplus_mod_idemp_l. Qed.

Lemma uint32_small (z : Z) : 0 <= z < 2 ^ 32 -> np.uint32 z = z.
Proof. intros H. unfold np.uint32. apply Z.mod_small. exact H. Qed.

Lemma uint32_range (z : Z) : 0 <= np.uint32 z < 2 ^ 32.
Proof. unfold np.uint32. apply Z.mod_pos_bound. lia. Qed.

Lemma cumsum_from_uint32 (acc : Z) (a : list Z) :
  map np.uint32 (np.cumsum_from acc a)
  = map (fun k => np.uint32 (acc + sumZ (take (S k) a))) (seq 0 (length a)).
Proof.
  revert acc. induction a as [|x a IH]; intros acc; [reflexivity|].
  cbn [np.cumsum_from map length seq].
  rewrite IH, <- seq_shift, map_map. f_equal.
  - rewrite uint32_int64. change (take 1 (x :: a)) with [x].
    cbn [sumZ foldr]. f_equal. lia.
  - apply map_ext. intros k. rewrite uint32_int64_add.
    change (take (S (S k)) (x :: a)) with (x :: take (S k) a).
    cbn [sumZ foldr]. f_equal. fold (sumZ (take (S k) a)). lia.
Qed.

Lemma sumZ_lens {A} (l : list (list A)) : sumZ (map len l) = len (concat l).
Proof.
  induction l as [|x l IH]; [reflexivity|].
  cbn [map sumZ foldr concat]. fold (sumZ (map len l)). rewrite IH.
  unfold len. rewrite length_app. lia.
Qed.

Lemma len_tobytes (a : list Z) : len (np.tobytes a) = 4 * len a.
Proof.
  unfold np.tobytes, len. induction a as [|x a IH]; [reflexivity|].
  cbn [map concat]. rewrite length_app, length_le_split. cbn [length]. lia.
Qed.

Lemma len_app {A} (l1 l2 : list A) : len (l1 ++ l2) = len l1 + len l2.
Proof. unfold len. rewrite length_app. lia. Qed.

Lemma len_map {A B} (f : A -> B) (l : list A) : len (map f l) = len l.
Proof. unfold len. rewrite length_map. reflexivity. Qed.

Lemma len_nonneg {A} (l : list A) : 0 <= len l.
Proof. unfold len. lia. Qed.

End Arrays.

(** ** The joint shard *)

Section JointShard.

Context {base : Type}.
Implicit Types self : MDSWriter.t base.

(** Every offset is, modulo [2^32], the start of the data plus the length
    of the samples before. *)
Lemma joint_shard_offsets_spec self :
  MDSWriter.joint_shard_offsets self
  = map (fun k : nat =>
           np.uint32 (data_start self
                      + len (concat (take k (MDSWriter.new_samples self)))))
        (seq 0 (S (length (MDSWriter.new_samples self)))).
Proof.
  unfold MDSWriter.joint_shard_offsets, np.iadd, np.cumsum.
  rewrite cumsum_from_uint32, !len_tobytes.
  rewrite len_map. cbn [length]. rewrite length_map.
  replace (len [np.uint32 (len (MDSWriter.new_samples self))]) with 1
    by reflexivity.
  rewrite map_map. apply map_ext. intros k.
  rewrite uint32_uint32_add.
  change (take (S k) (0 :: map len (MDSWriter.new_samples self)))
    with (0 :: take k (map len (MDSWriter.new_samples self))).
  cbn [sumZ foldr]. fold (sumZ (take k (map len (MDSWriter.new_samples self)))).
  rewrite firstn_map, sumZ_lens. unfold data_start. f_equal.
  unfold len. rewrite length_seq. lia.
Qed.

Lemma joint_shard_offsets_length self :
  length (MDSWriter.joint_shard_offsets self)
  = S (length (MDSWriter.new_samples self)).
Proof. rewrite joint_shard_offsets_spec, length_map, length_seq. reflexivity. Qed.

Lemma joint_shard_offsets_lookup self (k : nat) :
  (k <= length (MDSWriter.new_samples self))%nat ->
  MDSWriter.joint_shard_offsets self !! k
  = Some (np.uint32 (data_start self
                     + len (concat (take k (MDSWriter.new_samples self))))).
Proof.
  intros Hk. rewrite joint_shard_offsets_spec.
  change (map ?f ?l) with (f <$> l).
  rewrite list_lookup_fmap, lookup_seq_lt by lia. reflexivity.
Qed.

Lemma len_encode_joint_shard self :
  len (MDSWriter.encode_joint_shard self)
  = data_start self + len (concat (MDSWriter.new_samples self)).
Proof.
  unfold MDSWriter.encode_joint_shard. cbv zeta.
  rewrite !len_app, !len_tobytes.
  replace (len (MDSWriter.joint_shard_offsets self))
    with (len (MDSWriter.new_samples self) + 1)
    by (unfold len; rewrite joint_shard_offsets_length; lia).
  replace (len [np.uint32 (len (MDSWriter.new_samples self))]) with 1
    by reflexivity.
  unfold data_start. lia.
Qed.

Lemma len_concat_take_le (samples : list bytes) (k : nat) :
  0 <= len (concat (take k samples)) <= len (concat samples).
Proof.
  split; [apply len_nonneg|].
  rewrite <- (take_drop k samples) at 2. rewrite concat_app, len_app.
  pose proof (len_nonneg (concat (drop k samples))). lia.
Qed.

Lemma len_concat_take_S (samples : list bytes) (k : nat) (sample : bytes) :
  samples !! k = Some sample ->
  len (concat (take (S k) samples))
  = len (concat (take k samples)) + len sample.
Proof.
  intros Hk. rewrite (take_S_r _ _ _ Hk), concat_app, len_app.
  cbn [concat]. rewrite app_nil_r. reflexivity.
Qed.

End JointShard.

Section JointShardLayout.

Context {base : Type}.
Implicit Types self : MDSWriter.t base.

Lemma offset_in_file self (k : nat) :
  0 <= data_start self + len (concat (take k (MDSWriter.new_samples self)))
    <= len (MDSWriter.encode_joint_shard self).
Proof.
  rewrite len_encode_joint_shard.
  pose proof (len_concat_take_le (MDSWriter.new_samples self) k).
  pose proof (len_nonneg (MDSWriter.new_samples self)).
  pose proof (len_nonneg (MDSWriter.config_data self)).
  unfold data_start. lia.
Qed.

Lemma count_in_file self :
  0 <= len (MDSWriter.new_samples self) <= len (MDSWriter.encode_joint_shard self).
Proof.
  rewrite len_encode_joint_shard.
  pose proof (len_nonneg (MDSWriter.new_samples self)).
  pose proof (len_nonneg (MDSWriter.config_data self)).
  pose proof (len_nonneg (concat (MDSWriter.new_samples self))).
  unfold data_start. lia.
Qed.

Lemma joint_shard_offsets_exact self (k : nat) :
  len (MDSWriter.encode_joint_shard self) < 2 ^ 32 ->
  (k <= length (MDSWriter.new_samples self))%nat ->
  MDSWriter.joint_shard_offsets self !! k
  = Some (data_start self + len (concat (take k (MDSWriter.new_samples self)))).
Proof.
  intros Hfile Hk. rewrite joint_shard_offsets_lookup by exact Hk.
  rewrite uint32_small; [reflexivity|].
  pose proof (offset_in_file self k). lia.
Qed.

(** A file shorter than [2^32] bytes has the layout that is claimed, with
    the array that the code computes. *)
Lemma offset_table_of_short_file self :
  len (MDSWriter.encode_joint_shard self) < 2 ^ 32 ->
  offset_table_correct self (MDSWriter.joint_shard_offsets self).
Proof.
  intros Hfile. unfold offset_table_correct. cbv zeta.
  pose proof (count_in_file self) as Hn.
  repeat split.
  - unfold len. rewrite joint_shard_offsets_length. lia.
  - constructor; [lia|].
    rewrite joint_shard_offsets_spec. apply Forall_forall. intros o Ho.
    apply list_elem_of_In, in_map_iff in Ho as (k & <- & _). apply uint32_range.
  - unfold MDSWriter.encode_joint_shard. cbv zeta.
    rewrite uint32_small by lia. reflexivity.
  - rewrite joint_shard_offsets_exact by (exact Hfile || lia).
    f_equal. change (take 0 (MDSWriter.new_samples self)) with (@nil bytes).
    unfold data_start, len. cbn [concat length]. lia.
  - intros k sample Hk.
    pose proof (lookup_lt_Some _ _ _ Hk) as Hlt.
    exists (data_start self + len (concat (take k (MDSWriter.new_samples self)))).
    exists (data_start self + len (concat (take (S k) (MDSWriter.new_samples self)))).
    rewrite !joint_shard_offsets_exact by (exact Hfile || lia).
    repeat split. rewrite (len_concat_take_S _ _ _ Hk). lia.
  - rewrite joint_shard_offsets_exact by (exact Hfile || lia).
    rewrite firstn_all, len_encode_joint_shard. reflexivity.
Qed.

(** No array of [uint32] offsets describes a file of [2^32] bytes or
    more. *)
Lemma no_offset_table_of_long_file self :
  2 ^ 32 <= len (MDSWriter.encode_joint_shard self) ->
  ~ exists offsets, offset_table_correct self offsets.
Proof.
  intros Hfile (offsets & _ & Hrange & _ & _ & _ & Hlast).
  apply Forall_cons in Hrange as [_ Hrange].
  rewrite Forall_forall in Hrange.
  apply list_elem_of_lookup_2, Hrange in Hlast. lia.
Qed.

End JointShardLayout.

Section JointShardScenarios.

Context {base : Type}.
Implicit Types self : MDSWriter.t base.

Lemma offsets_of_two_samples self (s1 s2 : bytes) :
  MDSWriter.new_samples self = [s1; s2] ->
  len s1 = 10 -> len s2 = 8 -> len (MDSWriter.config_data self) = 50 ->
  MDSWriter.joint_shard_offsets self = [66; 76; 84]
  /\ len (MDSWriter.encode_joint_shard self) = 84.
Proof.
  intros Hs H1 H2 Hcfg.
  rewrite len_encode_joint_shard, joint_shard_offsets_spec.
  unfold data_start. rewrite Hs, Hcfg.
  cbn [length seq map firstn concat].
  rewrite !len_app, H1, H2.
  change (len (@nil byte)) with 0. change (len [s1; s2]) with 2.
  split; reflexivity.
Qed.

(** With one sample of [2^32] bytes the second offset wraps around to the
    first one. *)
Lemma offsets_of_one_large_sample self (s : bytes) :
  MDSWriter.new_samples self = [s] ->
  len s = 2 ^ 32 -> len (MDSWriter.config_data self) = 2 ->
  MDSWriter.joint_shard_offsets self = [14; 14]
  /\ len (MDSWriter.encode_joint_shard self) = 14 + 2 ^ 32.
Proof.
  intros Hs Hlen Hcfg.
  rewrite len_encode_joint_shard, joint_shard_offsets_spec.
  unfold data_start. rewrite Hs, Hcfg.
  cbn [length seq map firstn concat].
  rewrite !len_app, Hlen.
  change (len (@nil byte)) with 0. change (len [s]) with 1.
  split; reflexivity.
Qed.

End JointShardScenarios.

Lemma len_large_sample : len (repeat Byte.x00 (Z.to_nat (2 ^ 32))) = 2 ^ 32.
Proof. unfold len. rewrite repeat_length. apply Z2Nat.id. lia. Qed.

(** C1, as amended: for every buffer of samples whose shard file is shorter
    than [2^32] bytes, [encode_joint_shard] returns the [uint32] count [n],
    then [n + 1] [uint32] offsets, then the metadata, then the samples one
    after the other; the first offset is [4 + 4 * (n + 1)] plus the length
    of the metadata, offsets [k] and [k + 1] are apart by the length of
    sample [k], and the last offset is the length of the file. With two
    samples of 10 and 8 bytes and 50 bytes of metadata the offsets are
    [66, 76, 84] and the file has 84 bytes. *)
Theorem encode_joint_shard_offset_table :
  (forall (base : Type) (self : MDSWriter.t base),
      len (MDSWriter.encode_joint_shard self) < 2 ^ 32 ->
      offset_table_correct self (MDSWriter.joint_shard_offsets self))
  /\ (forall (base : Type) (self : MDSWriter.t base) (s1 s2 : bytes),
        MDSWriter.new_samples self = [s1; s2] ->
        len s1 = 10 -> len s2 = 8 -> len (MDSWriter.config_data self) = 50 ->
        MDSWriter.joint_shard_offsets self = [66; 76; 84]
        /\ len (MDSWriter.encode_joint_shard self) = 84).
Proof.
  split.
  - intros base self. apply offset_table_of_short_file.
  - intros base self. apply offsets_of_two_samples.
Qed.

Lemma encode_joint_shard_offset_table_witness :
  offset_table_correct writer_with_two_samples
    (MDSWriter.joint_shard_offsets writer_with_two_samples)
  /\ MDSWriter.joint_shard_offsets writer_with_two_samples = [66; 76; 84]
  /\ len (MDSWriter.encode_joint_shard writer_with_two_samples) = 84.
Proof.
  split.
  - apply (proj1 encode_joint_shard_offset_table unit writer_with_two_samples).
    vm_compute. reflexivity.
  - apply (proj2 encode_joint_shard_offset_table unit writer_with_two_samples
             (repeat Byte.x01 10) (repeat Byte.x02 8)); reflexivity.
Defined.

(** C1, as it is stated, fails for a buffer that holds one sample of
    [2^32] bytes: no array of [uint32] offsets ends with the length of that
    file, and the two offsets that the code writes are both 14. *)
Lemma encode_joint_shard_offset_table_counterexample :
  (~ exists offsets, offset_table_correct writer_with_a_large_sample offsets)
  /\ MDSWriter.joint_shard_offsets writer_with_a_large_sample = [14; 14].
Proof.
  destruct (offsets_of_one_large_sample writer_with_a_large_sample
              (repeat Byte.x00 (Z.to_nat (2 ^ 32))) eq_refl len_large_sample eq_refl)
    as [Hoffsets Hfile].
  split; [|exact Hoffsets].
  apply no_offset_table_of_long_file. rewrite Hfile. lia.
Qed.

(** ** The encoding of a sample *)

Section EncodeSample.

Variable mds_encode : string -> pyval -> option bytes.

Abbreviation cols_t := (list (string * string * option Z)).

Lemma encode_columns_ok (sample : sample_dict) (cols : cols_t) (data : list bytes) :
  Forall2 (encodes_column mds_encode sample) cols data ->
  forall sizes acc,
    MDSWriter.encode_columns mds_encode cols sample sizes acc
    = Ok (sizes ++ variable_lengths cols data, acc ++ data).
Proof.
  induction 1 as [|[[key encoding] size] datum cols data Hcol _ IH];
    intros sizes acc.
  - cbn. rewrite !app_nil_r. reflexivity.
  - destruct Hcol as (value & Hkey & Henc & Hsize).
    cbn [MDSWriter.encode_columns]. rewrite Hkey, Henc. cbn [collaborator bind].
    destruct size as [s|].
    + rewrite (Hsize s eq_refl), Z.eqb_refl. cbn [negb].
      rewrite IH, <- app_assoc. reflexivity.
    + rewrite IH, <- !app_assoc. reflexivity.
Qed.

Lemma encode_columns_inv (sample : sample_dict) (cols : cols_t) :
  forall sizes acc sizes' data',
    MDSWriter.encode_columns mds_encode cols sample sizes acc = Ok (sizes', data') ->
    exists data,
      Forall2 (encodes_column mds_encode sample) cols data
      /\ sizes' = sizes ++ variable_lengths cols data
      /\ data' = acc ++ data.
Proof.
  induction cols as [|[[key encoding] size] cols IH];
    intros sizes acc sizes' data' Hrun.
  - cbn in Hrun. injection Hrun as <- <-. exists [].
    rewrite !app_nil_r. repeat split. constructor.
  - cbn [MDSWriter.encode_columns] in Hrun.
    destruct (sample !! key) as [value|] eqn:Hkey; [|discriminate].
    destruct (mds_encode encoding value) as [datum|] eqn:Henc; [|discriminate].
    cbn [collaborator bind] in Hrun.
    destruct size as [s|].
    + destruct (s =? len datum) eqn:Hs; [|discriminate].
      cbn [negb] in Hrun. apply Z.eqb_eq in Hs.
      apply IH in Hrun as (data & Hdata & -> & ->).
      exists (datum :: data). rewrite <- app_assoc. repeat split.
      constructor; [|exact Hdata].
      exists value. repeat split; [exact Hkey|exact Henc|].
      intros s' [= <-]. exact Hs.
    + apply IH in Hrun as (data & Hdata & -> & ->).
      exists (datum :: data). rewrite <- !app_assoc. repeat split.
      constructor; [|exact Hdata].
      exists value. repeat split; [exact Hkey|exact Henc|].
      intros s' [=].
Qed.

(** The columns before are fine and this one has the wrong length: the
    size error of this column is raised. *)
Lemma encode_columns_mismatch (sample : sample_dict)
    (pre : cols_t) (data : list bytes) (key encoding : string)
    (size : option Z) (post : cols_t) :
  Forall2 (encodes_column mds_encode sample) pre data ->
  mismatched_column mds_encode sample (key, encoding, size) ->
  forall sizes acc,
    MDSWriter.encode_columns mds_encode (pre ++ (key, encoding, size) :: post)
      sample sizes acc
    = Raise (KeyError_unexpected_data_size encoding).
Proof.
  intros Hpre (value & datum & s & Hkey & Henc & -> & Hs).
  induction Hpre as [|[[key' encoding'] size'] datum' pre data Hcol _ IH];
    intros sizes acc.
  - cbn [app MDSWriter.encode_columns]. rewrite Hkey, Henc.
    cbn [collaborator bind].
    destruct (s =? len datum) eqn:E; [apply Z.eqb_eq in E; contradiction|].
    reflexivity.
  - destruct Hcol as (value' & Hkey' & Henc' & Hsize').
    cbn [app MDSWriter.encode_columns]. rewrite Hkey', Henc'.
    cbn [collaborator bind].
    destruct size' as [s'|].
    + rewrite (Hsize' s' eq_refl), Z.eqb_refl. cbn [negb]. apply IH.
    + apply IH.
Qed.

(** The size error is only raised for a column of the wrong length. *)
Lemma encode_columns_size_error (sample : sample_dict) (cols : cols_t)
    (encoding : string) :
  forall sizes acc,
    MDSWriter.encode_columns mds_encode cols sample sizes acc
    = Raise (KeyError_unexpected_data_size encoding) ->
    exists key size,
      In (key, encoding, size) cols
      /\ mismatched_column mds_encode sample (key, encoding, size).
Proof.
  induction cols as [|[[key' encoding'] size'] cols IH]; intros sizes acc Hrun.
  - discriminate.
  - cbn [MDSWriter.encode_columns] in Hrun.
    destruct (sample !! key') as [value|] eqn:Hkey; [|discriminate].
    destruct (mds_encode encoding' value) as [datum|] eqn:Henc; [|discriminate].
    cbn [collaborator bind] in Hrun.
    destruct size' as [s|].
    + destruct (s =? len datum) eqn:Hs; cbn [negb] in Hrun.
      * apply IH in Hrun as (key & size & Hin & Hbad).
        exists key, size. split; [right; exact Hin|exact Hbad].
      * injection Hrun as ->. apply Z.eqb_neq in Hs.
        exists key', (Some s). split; [left; reflexivity|].
        exists value, datum, s. repeat split; assumption.
    + apply IH in Hrun as (key & size & Hin & Hbad).
      exists key, size. split; [right; exact Hin|exact Hbad].
Qed.

(** No column has the wrong length when the loop ends well. *)
Lemma encodes_column_not_mismatched (sample : sample_dict)
    (col : string * string * option Z) (datum : bytes) :
  encodes_column mds_encode sample col datum ->
  ~ mismatched_column mds_encode sample col.
Proof.
  destruct col as [[key encoding] size].
  intros (value & Hkey & Henc & Hsize) (value' & datum' & s & Hkey' & Henc' & -> & Hs).
  rewrite Hkey in Hkey'. injection Hkey' as <-.
  rewrite Henc in Henc'. injection Henc' as <-.
  apply Hs, Hsize. reflexivity.
Qed.

Lemma encode_columns_mismatch_raises (sample : sample_dict) (cols : cols_t)
    (col : string * string * option Z) :
  In col cols -> mismatched_column mds_encode sample col ->
  forall sizes acc,
    exists e, MDSWriter.encode_columns mds_encode cols sample sizes acc = Raise e.
Proof.
  intros Hin Hbad sizes acc.
  destruct (MDSWriter.encode_columns mds_encode cols sample sizes acc)
    as [[sizes' data']|e] eqn:Hrun; [|exists e; reflexivity].
  exfalso. apply encode_columns_inv in Hrun as (data & Hdata & _ & _).
  clear sizes acc sizes' data'.
  induction Hdata as [|col' datum cols data Hcol _ IH]; [destruct Hin|].
  destruct Hin as [->|Hin]; [|exact (IH Hin)].
  exact (encodes_column_not_mismatched _ _ _ Hcol Hbad).
Qed.

End EncodeSample.

Lemma demo_init_a_b :
  demo.new_writer demo.columns_a_b demo.no_args = Ok demo.writer_a_b.
Proof. vm_compute. reflexivity. Qed.

Lemma demo_zip_columns_a_b :
  MDSWriter.zip_columns demo.writer_a_b
  = [("a"%string, "uint32"%string, Some 4); ("b"%string, "str"%string, None)].
Proof. reflexivity. Qed.

(** C4: in [encode_sample], a column of a fixed size whose encoded field
    has another length makes the call raise, and no bytes are returned;
    when the columns before it are fine, what is raised is the size error
    of line 98 for that column. When no column of a fixed size has an
    encoded field of another length, this error is not raised. *)
Theorem encode_sample_size_check
    (mds_encode : string -> pyval -> option bytes) (base : Type)
    (self : MDSWriter.t base) (sample : sample_dict) :
  (forall col,
      In col (MDSWriter.zip_columns self) ->
      mismatched_column mds_encode sample col ->
      exists e, MDSWriter.encode_sample mds_encode self sample = Raise e)
  /\ (forall pre data key encoding size post,
        MDSWriter.zip_columns self = pre ++ (key, encoding, size) :: post ->
        Forall2 (encodes_column mds_encode sample) pre data ->
        mismatched_column mds_encode sample (key, encoding, size) ->
        MDSWriter.encode_sample mds_encode self sample
        = Raise (KeyError_unexpected_data_size encoding))
  /\ ((forall col,
         In col (MDSWriter.zip_columns self) ->
         ~ mismatched_column mds_encode sample col) ->
      forall encoding,
        MDSWriter.encode_sample mds_encode self sample
        <> Raise (KeyError_unexpected_data_size encoding)).
Proof.
  split; [|split].
  - intros col Hin Hbad.
    destruct (encode_columns_mismatch_raises mds_encode sample _ col Hin Hbad [] [])
      as [e He].
    exists e. unfold MDSWriter.encode_sample. rewrite He. reflexivity.
  - intros pre data key encoding size post Hcols Hpre Hbad.
    unfold MDSWriter.encode_sample. rewrite Hcols.
    rewrite (encode_columns_mismatch mds_encode sample pre data key encoding
               size post Hpre Hbad).
    reflexivity.
  - intros Hfine encoding Hrun.
    unfold MDSWriter.encode_sample in Hrun.
    destruct (MDSWriter.encode_columns mds_encode (MDSWriter.zip_columns self)
                sample [] []) as [[sizes data]|e] eqn:Hcols; [discriminate|].
    cbn [bind] in Hrun. injection Hrun as ->.
    apply encode_columns_size_error in Hcols as (key & size & Hin & Hbad).
    exact (Hfine _ Hin Hbad).
Qed.

Lemma encode_sample_size_check_witness :
  (exists e, MDSWriter.encode_sample demo.mds_encode demo.writer_a_b
               demo.sample_list_hi = Raise e)
  /\ MDSWriter.encode_sample demo.mds_encode demo.writer_a_b demo.sample_list_hi
     = Raise (KeyError_unexpected_data_size "uint32")
  /\ MDSWriter.encode_sample demo.mds_encode demo.writer_a_b demo.sample_7_hi
     <> Raise (KeyError_unexpected_data_size "uint32").
Proof.
  assert (Hbad : mismatched_column demo.mds_encode demo.sample_list_hi
                   ("a"%string, "uint32"%string, Some 4)).
  { exists (PyList [7; 8]), (np.tobytes [7; 8]), 4.
    repeat split. vm_compute. discriminate. }
  split; [|split].
  - apply (proj1 (encode_sample_size_check demo.mds_encode unit demo.writer_a_b
                    demo.sample_list_hi)
             ("a"%string, "uint32"%string, Some 4)).
    + left. reflexivity.
    + exact Hbad.
  - apply (proj1 (proj2 (encode_sample_size_check demo.mds_encode unit
                           demo.writer_a_b demo.sample_list_hi))
             [] [] "a"%string "uint32"%string (Some 4)
             [("b"%string, "str"%string, None)]).
    + reflexivity.
    + constructor.
    + exact Hbad.
  - apply (proj2 (proj2 (encode_sample_size_check demo.mds_encode unit
                           demo.writer_a_b demo.sample_7_hi))).
    intros col [<-|[<-|[]]] (value & datum & s & Hkey & Henc & Hs & Hne).
    + vm_compute in Hkey. injection Hkey as <-.
      vm_compute in Henc. injection Henc as <-.
      injection Hs as <-. apply Hne. reflexivity.
    + discriminate Hs.
Defined.

(** ** The construction of a writer *)

Section Init.

Variable is_mds_encoding : string -> bool.
Variable get_mds_encoded_size : string -> option Z.

Abbreviation init_columns :=
  (MDSWriter.init_columns is_mds_encoding get_mds_encoded_size).

(** The sorted names are the keys of the mapping. *)
Lemma in_sorted (columns : gmap string string) (name : string) :
  In name (MDSWriter.sorted columns) <-> is_Some (columns !! name).
Proof.
  unfold MDSWriter.sorted.
  rewrite <- list_elem_of_In, merge_sort_Permutation, list_elem_of_In, in_map_iff.
  split.
  - intros ([name' encoding] & <- & Hin).
    apply list_elem_of_In, elem_of_map_to_list in Hin. exists encoding. exact Hin.
  - intros [encoding Hname]. exists (name, encoding). split; [reflexivity|].
    apply list_elem_of_In, elem_of_map_to_list. exact Hname.
Qed.

(** Every name left has a registered encoding: the loop ends well and adds
    the names, their encodings and the sizes of these. *)
Lemma init_columns_ok (columns : gmap string string) (names : list string) :
  (forall name, In name names ->
     exists encoding,
       columns !! name = Some encoding /\ is_mds_encoding encoding = true) ->
  forall ns es ss,
    exists es',
      init_columns columns names (ns, es, ss)
      = Ok (ns ++ names, es ++ es', ss ++ map get_mds_encoded_size es')
      /\ Forall2 (fun name encoding => columns !! name = Some encoding)
           names es'.
Proof.
  induction names as [|name names IH]; intros Hall ns es ss.
  - exists []. cbn. rewrite !app_nil_r. split; [reflexivity|constructor].
  - destruct (Hall name (or_introl eq_refl)) as (encoding & Hname & Hreg).
    destruct (IH (fun n Hn => Hall n (or_intror Hn))
                (ns ++ [name]) (es ++ [encoding])
                (ss ++ [get_mds_encoded_size encoding])) as (es' & Hrun & Hes).
    exists (encoding :: es').
    cbn [MDSWriter.init_columns map]. rewrite Hname, Hreg. cbn [negb].
    rewrite Hrun, <- !app_assoc. split; [reflexivity|].
    constructor; assumption.
Qed.

(** What the loop returns holds registered encodings only, when it started
    with such. *)
Lemma init_columns_registered (columns : gmap string string) (names : list string) :
  forall ns es ss ns' es' ss',
    init_columns columns names (ns, es, ss) = Ok (ns', es', ss') ->
    Forall (fun encoding => is_mds_encoding encoding = true) es ->
    Forall (fun encoding => is_mds_encoding encoding = true) es'.
Proof.
  induction names as [|name names IH]; intros ns es ss ns' es' ss' Hrun Hes.
  - cbn in Hrun. injection Hrun as <- <- <-. exact Hes.
  - cbn [MDSWriter.init_columns] in Hrun.
    destruct (columns !! name) as [encoding|]; [|discriminate].
    destruct (is_mds_encoding encoding) eqn:Hreg; [|discriminate].
    cbn [negb] in Hrun. apply IH in Hrun; [exact Hrun|].
    apply Forall_app. split; [exact Hes|]. constructor; [exact Hreg|constructor].
Qed.

(** A name left has an encoding that is not registered, and all the names
    left are keys: the loop raises the [TypeError] of line 65, for a column
    whose encoding is not registered. *)
Lemma init_columns_unsupported (columns : gmap string string) (names : list string)
    (name encoding : string) :
  (forall n, In n names -> is_Some (columns !! n)) ->
  In name names ->
  columns !! name = Some encoding -> is_mds_encoding encoding = false ->
  forall acc,
    exists name' encoding',
      init_columns columns names acc
      = Raise (TypeError_unsupported_encoding name' encoding')
      /\ columns !! name' = Some encoding'
      /\ is_mds_encoding encoding' = false.
Proof.
  intros Hkeys Hin Hname Hreg.
  induction names as [|n names IH]; intros acc; [destruct Hin|].
  cbn [MDSWriter.init_columns].
  destruct (Hkeys n (or_introl eq_refl)) as [e He]. rewrite He.
  destruct (is_mds_encoding e) eqn:Hreg'; cbn [negb].
  - destruct acc as [[ns es] ss].
    destruct Hin as [->|Hin]; [congruence|].
    apply IH; [|exact Hin]. intros n' Hn'. apply Hkeys. right. exact Hn'.
  - exists n, e. repeat split; assumption.
Qed.

(** The [TypeError] of line 65 is only raised for a column whose encoding
    is not registered. *)
Lemma init_columns_unsupported_inv (columns : gmap string string)
    (names : list string) (name encoding : string) :
  forall acc,
    init_columns columns names acc
    = Raise (TypeError_unsupported_encoding name encoding) ->
    columns !! name = Some encoding /\ is_mds_encoding encoding = false.
Proof.
  induction names as [|n names IH]; intros acc Hrun; [discriminate|].
  cbn [MDSWriter.init_columns] in Hrun.
  destruct (columns !! n) as [e|] eqn:He; [|discriminate].
  destruct (is_mds_encoding e) eqn:Hreg; cbn [negb] in Hrun.
  - destruct acc as [[ns es] ss]. exact (IH _ Hrun).
  - injection Hrun as <- <-. split; assumption.
Qed.

(** What the loop returns when it ends well: the names that were left,
    in their order, with their encodings and the sizes of these. *)
Lemma init_columns_inv (columns : gmap string string) (names : list string) :
  forall ns0 es0 ss0 ns es ss,
    init_columns columns names (ns0, es0, ss0) = Ok (ns, es, ss) ->
    exists es',
      ns = ns0 ++ names /\ es = es0 ++ es'
      /\ ss = ss0 ++ map get_mds_encoded_size es'
      /\ Forall2 (fun name encoding => columns !! name = Some encoding)
           names es'.
Proof.
  induction names as [|name names IH]; intros ns0 es0 ss0 ns es ss Hrun.
  - cbn in Hrun. injection Hrun as <- <- <-. exists [].
    rewrite !app_nil_r. repeat split. constructor.
  - cbn [MDSWriter.init_columns] in Hrun.
    destruct (columns !! name) as [encoding|] eqn:Hname; [|discriminate].
    destruct (is_mds_encoding encoding); [|discriminate].
    cbn [negb] in Hrun.
    apply IH in Hrun as (es' & -> & -> & -> & Hes).
    exists (encoding :: es'). rewrite <- !app_assoc. repeat split.
    constructor; assumption.
Qed.

Lemma zip_columns_of_names (columns : gmap string string)
    (names es : list string) :
  Forall2 (fun name encoding => columns !! name = Some encoding) names es ->
  Forall2 (fun name col =>
             exists encoding,
               columns !! name = Some encoding
               /\ col = (name, encoding, get_mds_encoded_size encoding))
    names (zip (zip names es) (map get_mds_encoded_size es)).
Proof.
  induction 1 as [|name encoding names es Hname _ IH]; [constructor|].
  cbn. constructor; [|exact IH]. exists encoding. split; [exact Hname|reflexivity].
Qed.

Lemma sorted_Sorted (columns : gmap string string) :
  Sorted String.leb (MDSWriter.sorted columns).
Proof.
  unfold MDSWriter.sorted. apply Sorted_merge_sort.
  intros x y. destruct (String.leb_total x y) as [H|H]; [left|right];
    rewrite H; exact I.
Qed.

End Init.

Section Construction.

Variable is_mds_encoding : string -> bool.
Variable get_mds_encoded_size : string -> option Z.
Variable mds_encode : string -> pyval -> option bytes.
Variable base : Type.
Variable JointWriter_init : MDSWriter.args -> Z -> option base.
Variable dumps_config :
  base -> list string -> list string -> list (option Z) -> bytes.

Abbreviation init :=
  (MDSWriter.__init__ is_mds_encoding get_mds_encoded_size base JointWriter_init
     dumps_config).

Lemma encode_columns_no_encoding_error (cols : list (string * string * option Z))
    (sample : sample_dict) (name encoding : string) :
  forall sizes acc,
    MDSWriter.encode_columns mds_encode cols sample sizes acc
    <> Raise (TypeError_unsupported_encoding name encoding).
Proof.
  induction cols as [|[[key enc] size] cols IH]; intros sizes acc; [discriminate|].
  cbn [MDSWriter.encode_columns].
  destruct (sample !! key) as [value|]; [|discriminate].
  destruct (mds_encode enc value) as [datum|]; [|discriminate].
  cbn [collaborator bind].
  destruct size as [s|]; [|apply IH].
  destruct (negb (s =? len datum)); [discriminate|apply IH].
Qed.

Lemma init_ok_inv (columns : gmap string string) (a : MDSWriter.args)
    (self : MDSWriter.t base) :
  init columns a = Ok self ->
  exists b,
    JointWriter_init a MDSWriter.extra_bytes_per_sample = Some b
    /\ MDSWriter.init_columns is_mds_encoding get_mds_encoded_size columns
         (MDSWriter.sorted columns) ([], [], [])
       = Ok (MDSWriter.column_names self, MDSWriter.column_encodings self,
             MDSWriter.column_sizes self).
Proof.
  unfold MDSWriter.__init__. intros Hinit.
  destruct (JointWriter_init a MDSWriter.extra_bytes_per_sample) as [b|];
    [|discriminate].
  cbn [collaborator bind] in Hinit.
  destruct (MDSWriter.init_columns _ _ _ _ _) as [[[ns es] ss]|e]; [|discriminate].
  cbn [bind] in Hinit. injection Hinit as <-. exists b. split; reflexivity.
Qed.

(** The columns of a writer that [__init__] built are the names of the
    mapping in increasing order, each with its encoding and the size of
    this encoding. *)
Lemma init_schema_order (columns : gmap string string) (a : MDSWriter.args)
    (self : MDSWriter.t base) :
  init columns a = Ok self ->
  MDSWriter.column_names self = MDSWriter.sorted columns
  /\ Sorted String.leb (MDSWriter.column_names self)
  /\ Forall2 (fun name col =>
                exists encoding,
                  columns !! name = Some encoding
                  /\ col = (name, encoding, get_mds_encoded_size encoding))
       (MDSWriter.column_names self) (MDSWriter.zip_columns self).
Proof.
  intros Hinit. apply init_ok_inv in Hinit as (b & _ & Hcols).
  apply init_columns_inv in Hcols as (es & Hns & Hes & Hss & Hlookup).
  cbn [app] in Hns, Hes, Hss. unfold MDSWriter.zip_columns.
  rewrite Hns, Hes, Hss. split; [reflexivity|]. split; [apply sorted_Sorted|].
  apply zip_columns_of_names. exact Hlookup.
Qed.

(** C8: when some column of the mapping has an encoding that is not
    registered, [MDSWriter.__init__] raises and builds no writer, so that
    no sample is encoded; if the base class raised nothing, what is raised
    is the [TypeError] of line 65, for a column whose encoding is not
    registered. When every column has a registered encoding this error is
    not raised, and the writer is built, with the sorted names, as soon as
    the base class raises nothing. Every writer that is built holds
    registered encodings only, and [encode_sample] never raises the
    error. *)
Theorem init_validates_encodings
    (columns : gmap string string) (a : MDSWriter.args) :
  (forall name encoding,
      columns !! name = Some encoding -> is_mds_encoding encoding = false ->
      exists e,
        init columns a = Raise e
        /\ (is_Some (JointWriter_init a MDSWriter.extra_bytes_per_sample) ->
            exists name' encoding',
              e = TypeError_unsupported_encoding name' encoding'
              /\ columns !! name' = Some encoding'
              /\ is_mds_encoding encoding' = false))
  /\ ((forall name encoding,
         columns !! name = Some encoding -> is_mds_encoding encoding = true) ->
      (forall name encoding,
          init columns a <> Raise (TypeError_unsupported_encoding name encoding))
      /\ (is_Some (JointWriter_init a MDSWriter.extra_bytes_per_sample) ->
          exists self,
            init columns a = Ok self
            /\ MDSWriter.column_names self = MDSWriter.sorted columns))
  /\ (forall self,
        init columns a = Ok self ->
        Forall (fun encoding => is_mds_encoding encoding = true)
          (MDSWriter.column_encodings self))
  /\ (forall (self : MDSWriter.t base) sample name encoding,
        MDSWriter.encode_sample mds_encode self sample
        <> Raise (TypeError_unsupported_encoding name encoding)).
Proof.
  split; [|split; [|split]].
  - intros name encoding Hname Hreg.
    destruct (init_columns_unsupported is_mds_encoding get_mds_encoded_size
                columns (MDSWriter.sorted columns) name encoding
                (fun n Hn => proj1 (in_sorted columns n) Hn)
                (proj2 (in_sorted columns name) (ex_intro _ _ Hname))
                Hname Hreg ([], [], []))
      as (name' & encoding' & Hrun & Hname' & Hreg').
    unfold MDSWriter.__init__.
    destruct (JointWriter_init a MDSWriter.extra_bytes_per_sample) as [b|].
    + cbn [collaborator bind]. rewrite Hrun. cbn [bind].
      eexists. split; [reflexivity|]. intros _.
      exists name', encoding'. repeat split; assumption.
    + cbn [collaborator bind]. eexists. split; [reflexivity|].
      intros [b Hb]. discriminate.
  - intros Hall. split.
    + intros name encoding Hrun. unfold MDSWriter.__init__ in Hrun.
      destruct (JointWriter_init a MDSWriter.extra_bytes_per_sample) as [b|];
        [|discriminate].
      cbn [collaborator bind] in Hrun.
      destruct (MDSWriter.init_columns _ _ _ _ _) as [[[ns es] ss]|e] eqn:Hcols;
        [discriminate|].
      cbn [bind] in Hrun. injection Hrun as ->.
      apply init_columns_unsupported_inv in Hcols as [Hname Hreg].
      rewrite (Hall _ _ Hname) in Hreg. discriminate.
    + intros [b Hb].
      destruct (init_columns_ok is_mds_encoding get_mds_encoded_size columns
                  (MDSWriter.sorted columns)) with (ns := @nil string)
                  (es := @nil string) (ss := @nil (option Z))
        as (es' & Hrun & _).
      { intros name Hin. apply in_sorted in Hin as [encoding Hname].
        exists encoding. split; [exact Hname|exact (Hall _ _ Hname)]. }
      unfold MDSWriter.__init__. rewrite Hb. cbn [collaborator bind].
      rewrite Hrun. cbn [bind app].
      eexists. split; reflexivity.
  - intros self Hinit. apply init_ok_inv in Hinit as (b & _ & Hcols).
    apply init_columns_registered in Hcols; [exact Hcols|constructor].
  - intros self sample name encoding Hrun.
    unfold MDSWriter.encode_sample in Hrun.
    destruct (MDSWriter.encode_columns mds_encode (MDSWriter.zip_columns self)
                sample [] []) as [[sizes data]|e] eqn:Hcols; [discriminate|].
    cbn [bind] in Hrun. injection Hrun as ->.
    exact (encode_columns_no_encoding_error _ _ _ _ _ _ Hcols).
Qed.

End Construction.

Lemma init_validates_encodings_witness :
  (exists e, demo.new_writer demo.columns_a_zzz demo.no_args = Raise e)
  /\ (exists self,
        demo.new_writer demo.columns_a_b demo.no_args = Ok self
        /\ MDSWriter.column_names self = MDSWriter.sorted demo.columns_a_b)
  /\ Forall (fun encoding => demo.is_mds_encoding encoding = true)
       (MDSWriter.column_encodings demo.writer_a_b).
Proof.
  split; [|split].
  - destruct (proj1 (init_validates_encodings demo.is_mds_encoding
                       demo.get_mds_encoded_size demo.mds_encode unit
                       demo.JointWriter_init demo.dumps_config
                       demo.columns_a_zzz demo.no_args)
                "b"%string "zzz"%string) as (e & He & _).
    + vm_compute. reflexivity.
    + reflexivity.
    + exists e. exact He.
  - apply (proj1 (proj2 (init_validates_encodings demo.is_mds_encoding
                           demo.get_mds_encoded_size demo.mds_encode unit
                           demo.JointWriter_init demo.dumps_config
                           demo.columns_a_b demo.no_args))).
    + intros name encoding Hname.
      destruct (decide (name = "a"%string)) as [->|Ha].
      * vm_compute in Hname. injection Hname as <-. reflexivity.
      * destruct (decide (name = "b"%string)) as [->|Hb].
        -- vm_compute in Hname. injection Hname as <-. reflexivity.
        -- unfold demo.columns_a_b in Hname.
           rewrite lookup_insert_ne, lookup_singleton_ne in Hname
             by congruence.
           discriminate.
    + exists tt. reflexivity.
  - apply (proj1 (proj2 (proj2 (init_validates_encodings demo.is_mds_encoding
                                  demo.get_mds_encoded_size demo.mds_encode unit
                                  demo.JointWriter_init demo.dumps_config
                                  demo.columns_a_b demo.no_args)))).
    exact demo_init_a_b.
Defined.

(** C2: with the columns [{a: uint32 on 4 bytes, b: UTF-8 text}],
    [encode_sample({a: 7, b: "hi"})] returns the 10 bytes
    [02 00 00 00], [07 00 00 00], [68 69]: the size of the one column of
    variable size, the 4 bytes of [a], the 2 bytes of [b]. In general,
    whenever every field is present and encoded, with the declared size
    where there is one, [encode_sample] returns the [uint32] table of the
    sizes of the columns of variable size, in the order of the schema,
    followed by the bytes of every column in the order of the schema; and
    all it ever returns is of this form. The order of the schema is the
    increasing order of the names: such are the columns of every writer
    that [__init__] builds. *)
Theorem encode_sample_layout :
  (demo.new_writer demo.columns_a_b demo.no_args = Ok demo.writer_a_b
   /\ MDSWriter.column_names demo.writer_a_b
      = MDSWriter.sorted demo.columns_a_b
   /\ MDSWriter.encode_sample demo.mds_encode demo.writer_a_b demo.sample_7_hi
      = Ok [Byte.x02; Byte.x00; Byte.x00; Byte.x00;
            Byte.x07; Byte.x00; Byte.x00; Byte.x00;
            Byte.x68; Byte.x69])
  /\ (forall (mds_encode : string -> pyval -> option bytes) (base : Type)
             (self : MDSWriter.t base) (sample : sample_dict)
             (data : list bytes),
        Forall2 (encodes_column mds_encode sample)
          (MDSWriter.zip_columns self) data ->
        MDSWriter.encode_sample mds_encode self sample
        = Ok (sample_bytes (MDSWriter.zip_columns self) data))
  /\ (forall (mds_encode : string -> pyval -> option bytes) (base : Type)
             (self : MDSWriter.t base) (sample : sample_dict) (out : bytes),
        MDSWriter.encode_sample mds_encode self sample = Ok out ->
        exists data,
          Forall2 (encodes_column mds_encode sample)
            (MDSWriter.zip_columns self) data
          /\ out = sample_bytes (MDSWriter.zip_columns self) data)
  /\ (forall (is_mds_encoding : string -> bool)
             (get_mds_encoded_size : string -> option Z) (base : Type)
             (JointWriter_init : MDSWriter.args -> Z -> option base)
             (dumps_config : base -> list string -> list string ->
                             list (option Z) -> bytes)
             (columns : gmap string string) (a : MDSWriter.args)
             (self : MDSWriter.t base),
        MDSWriter.__init__ is_mds_encoding get_mds_encoded_size base
          JointWriter_init dumps_config columns a = Ok self ->
        MDSWriter.column_names self = MDSWriter.sorted columns
        /\ Sorted String.leb (MDSWriter.column_names self)
        /\ Forall2 (fun name col =>
                      exists encoding,
                        columns !! name = Some encoding
                        /\ col = (name, encoding, get_mds_encoded_size encoding))
             (MDSWriter.column_names self) (MDSWriter.zip_columns self)).
Proof.
  split; [|split; [|split]]; [| | |exact init_schema_order].
  - split; [exact demo_init_a_b|]. split; vm_compute; reflexivity.
  - intros mds_encode base self sample data Hdata.
    unfold MDSWriter.encode_sample.
    rewrite (encode_columns_ok _ _ _ _ Hdata). reflexivity.
  - intros mds_encode base self sample out Hrun.
    unfold MDSWriter.encode_sample in Hrun.
    destruct (MDSWriter.encode_columns mds_encode (MDSWriter.zip_columns self)
                sample [] []) as [[sizes data]|e] eqn:Hcols; [|discriminate].
    cbn [bind] in Hrun. injection Hrun as <-.
    apply encode_columns_inv in Hcols as (data' & Hdata & -> & ->).
    exists data'. split; [exact Hdata|reflexivity].
Qed.

Lemma encode_sample_layout_witness :
  MDSWriter.encode_sample demo.mds_encode demo.writer_a_b demo.sample_7_hi
  = Ok (sample_bytes (MDSWriter.zip_columns demo.writer_a_b)
          [np.tobytes [7]; list_byte_of_string "hi"])
  /\ exists data,
       Forall2 (encodes_column demo.mds_encode demo.sample_7_hi)
         (MDSWriter.zip_columns demo.writer_a_b) data
       /\ [Byte.x02; Byte.x00; Byte.x00; Byte.x00;
           Byte.x07; Byte.x00; Byte.x00; Byte.x00;
           Byte.x68; Byte.x69]
          = sample_bytes (MDSWriter.zip_columns demo.writer_a_b) data.
Proof.
  destruct encode_sample_layout as (_ & Hgeneral & Honly & _).
  split.
  - apply Hgeneral. rewrite demo_zip_columns_a_b.
    constructor; [|constructor; [|constructor]].
    + exists (PyInt 7). repeat split. intros s [= <-]. reflexivity.
    + exists (PyStr "hi"). repeat split. intros s [=].
  - apply Honly. vm_compute. reflexivity.
Defined.

(** ** The dataset classes *)

Lemma emitted_app (w : world) (fs : gmap string bytes) (trace : list event) :
  emitted w {| files := fs; log := log w ++ trace |} = trace.
Proof. unfold emitted. cbn [log]. apply drop_app_length. Qed.

Lemma unset_extra_roots (self : dataset) :
  unset (extra_local self) \/ unset (extra_remote self) ->
  extra_roots self = None.
Proof.
  unfold extra_roots, unset. intros H.
  destruct (extra_local self) as [l|]; [|reflexivity].
  destruct (extra_remote self) as [r|]; [|reflexivity].
  destruct H as [[H|H]|[H|H]]; try discriminate; injection H as ->; cbn;
    rewrite ?andb_false_r; reflexivity.
Qed.

Section WebVidMethods.

Variable find_sample : Z -> Z * Z.
Variable base_sample : Z -> option sample_dict.
Variable remote_content : string -> option bytes.

Abbreviation GI_getitem :=
  (StreamingOutsideGIWebVid.__getitem__ base_sample remote_content).
Abbreviation DT_getitem :=
  (StreamingOutsideDTWebVid.__getitem__ base_sample remote_content).
Abbreviation predownload_sample' :=
  (predownload_sample find_sample base_sample remote_content).
Abbreviation loop_body' := (loop_body find_sample base_sample remote_content).
Abbreviation loop_iteration' :=
  (loop_iteration find_sample base_sample remote_content).
Abbreviation thread_step' := (thread_step find_sample base_sample remote_content).
Abbreviation run' := (run find_sample base_sample remote_content).

Lemma super_getitem_run (idx : Z) (w : world) :
  super_getitem base_sample idx w
  = (collaborator "StreamingDataset.__getitem__" (base_sample idx),
     {| files := files w; log := log w ++ [BaseGetItem idx] |}).
Proof. reflexivity. Qed.

(** The two [__getitem__] are the same code. *)
Lemma GI_getitem_DT_getitem : GI_getitem = DT_getitem.
Proof. reflexivity. Qed.

Lemma getitem_no_roots (self : dataset) (idx : Z) (w : world) :
  extra_roots self = None ->
  GI_getitem self idx w = super_getitem base_sample idx w.
Proof.
  intros Hroots. unfold StreamingOutsideGIWebVid.__getitem__, io_bind.
  rewrite Hroots, super_getitem_run.
  destruct (base_sample idx); reflexivity.
Qed.

Lemma predownload_sample_no_roots (self : dataset) (sample_id : Z) (w : world) :
  extra_roots self = None ->
  predownload_sample' self sample_id w
  = (match base_sample sample_id with
     | Some _ => Ok tt
     | None => Raise (Raised_by_collaborator "StreamingDataset.__getitem__")
     end,
     {| files := files w;
        log := log w ++ [FindSample sample_id;
                         DownloadOrSkipShard (fst (find_sample sample_id)) false;
                         BaseGetItem sample_id] |}).
Proof.
  intros Hroots. unfold predownload_sample, io_bind.
  destruct (find_sample sample_id) as [shard_id place].
  rewrite Hroots. cbn. rewrite <- !app_assoc.
  destruct (base_sample sample_id); reflexivity.
Qed.

(** C10: when [extra_local] or [extra_remote] is unset, [None] or empty,
    [__getitem__] of [StreamingOutsideGIWebVid] and of
    [StreamingOutsideDTWebVid] is the base retrieval and nothing more: it
    returns the sample of the base retrieval as it is, or raises what the
    base retrieval raises; the files are left as they are and the one call
    made is the base retrieval, with no test of a local path and no
    download. The download thread then makes no such test or download
    either. *)
Theorem getitem_without_extra_roots (self : dataset) (idx : Z) (w : world) :
  unset (extra_local self) \/ unset (extra_remote self) ->
  let base := (collaborator "StreamingDataset.__getitem__" (base_sample idx),
               {| files := files w; log := log w ++ [BaseGetItem idx] |}) in
  GI_getitem self idx w = base
  /\ DT_getitem self idx w = base
  /\ emitted w (snd (GI_getitem self idx w)) = [BaseGetItem idx]
  /\ emitted w (snd (DT_getitem self idx w)) = [BaseGetItem idx]
  /\ files (snd (predownload_sample' self idx w)) = files w
  /\ emitted w (snd (predownload_sample' self idx w))
     = [FindSample idx; DownloadOrSkipShard (fst (find_sample idx)) false;
        BaseGetItem idx].
Proof.
  intros Hunset. apply unset_extra_roots in Hunset. cbv zeta.
  rewrite <- GI_getitem_DT_getitem.
  rewrite (getitem_no_roots self idx w Hunset), super_getitem_run.
  rewrite (predownload_sample_no_roots self idx w Hunset).
  cbn [snd files]. rewrite !emitted_app. repeat split.
Qed.

(** *** The body of the loop *)

Lemma loop_body_sentinel (self : dataset) (state : PartitionState) (w : world) :
  array_getitem (sample_ids state) (download_index state) = Ok (-1) ->
  loop_body' self state w = (Ok (advance_download_index state), w).
Proof.
  intros Hslot. unfold loop_body, io_bind, lift. rewrite Hslot. reflexivity.
Qed.

Lemma loop_body_sample (self : dataset) (state : PartitionState) (w : world)
    (sample_id : Z) :
  array_getitem (sample_ids state) (download_index state) = Ok sample_id ->
  sample_id <> -1 ->
  loop_body' self state w
  = match predownload_sample' self sample_id w with
    | (Ok _, w') => (Ok (advance_download_index state), w')
    | (Raise e, w') => (Raise e, w')
    end.
Proof.
  intros Hslot Hid. unfold loop_body, io_bind at 1, lift. rewrite Hslot.
  apply Z.eqb_neq in Hid. rewrite Hid. unfold io_bind at 1.
  destruct (predownload_sample' self sample_id w) as [[[]|e] w']; reflexivity.
Qed.

(** The body advances the cursor by one when it ends well, and changes
    nothing else of the partition state. *)
Lemma loop_body_advances (self : dataset) (state state' : PartitionState)
    (w w' : world) :
  loop_body' self state w = (Ok state', w') ->
  state' = advance_download_index state.
Proof.
  intros Hrun.
  destruct (array_getitem (sample_ids state) (download_index state))
    as [sample_id|e] eqn:Hslot.
  - destruct (Z.eq_dec sample_id (-1)) as [->|Hid].
    + rewrite (loop_body_sentinel self state w Hslot) in Hrun. congruence.
    + rewrite (loop_body_sample self state w sample_id Hslot Hid) in Hrun.
      destruct (predownload_sample' self sample_id w) as [[[]|e] w'']; congruence.
  - unfold loop_body, io_bind, lift in Hrun. rewrite Hslot in Hrun. discriminate.
Qed.

(** C6: when the slot at [download_index] holds the sentinel [-1], the
    body of the loop advances [download_index] by one and does nothing
    else: the world is left as it is, so that no call is made (no index
    lookup, no shard download, no test of a path, no download), and the
    other fields of the partition state keep their values. So does the
    whole turn of the loop that reaches the slot, and so does the thread
    next to the consumer. *)
Theorem sentinel_slot_is_skipped (self : dataset) (state : PartitionState)
    (w : world) :
  array_getitem (sample_ids state) (download_index state) = Ok (-1) ->
  loop_body' self state w = (Ok (advance_download_index state), w)
  /\ (loop_guard self state = Proceed ->
      loop_iteration' self state w
      = (Ok (Continue, advance_download_index state), w))
  /\ thread_step' self {| at_pc := InBody; shared := state; env := w |}
     = {| at_pc := AtLoopTop; shared := advance_download_index state; env := w |}
  /\ download_index (advance_download_index state) = download_index state + 1
  /\ sample_ids (advance_download_index state) = sample_ids state
  /\ total (advance_download_index state) = total state
  /\ yield_index (advance_download_index state) = yield_index state
  /\ is_stopped (advance_download_index state) = is_stopped state.
Proof.
  intros Hslot. pose proof (loop_body_sentinel self state w Hslot) as Hbody.
  split; [exact Hbody|]. split; [|split; [|repeat split]].
  - intros Hguard. unfold loop_iteration, io_bind. rewrite Hguard, Hbody.
    reflexivity.
  - unfold thread_step. cbn [at_pc shared env]. rewrite Hbody. reflexivity.
Qed.

(** *** The thread next to the consumer *)

Lemma loop_guard_proceed (self : dataset) (state : PartitionState) (w : Z) :
  predownload self = Some w ->
  loop_guard self state = Proceed ->
  is_stopped state = false
  /\ download_index state <> total state
  /\ download_index state - yield_index state < w.
Proof.
  intros Hw. unfold loop_guard. rewrite Hw.
  destruct (is_stopped state); [discriminate|].
  destruct (download_index state =? total state) eqn:Htotal; [discriminate|].
  destruct (w <=? download_index state - yield_index state) eqn:Hahead;
    [discriminate|].
  intros _. apply Z.eqb_neq in Htotal. apply Z.leb_gt in Hahead.
  repeat split; assumption.
Qed.

Lemma loop_guard_wait (self : dataset) (state : PartitionState) (w : Z) :
  predownload self = Some w ->
  is_stopped state = false ->
  download_index state <> total state ->
  w <= download_index state - yield_index state ->
  loop_guard self state = Wait.
Proof.
  intros Hw Hstop Htotal Hahead. unfold loop_guard. rewrite Hw, Hstop.
  apply Z.eqb_neq in Htotal. rewrite Htotal.
  apply Z.leb_le in Hahead. rewrite Hahead. reflexivity.
Qed.

Lemma loop_guard_stopped (self : dataset) (state : PartitionState) :
  is_stopped state = true -> loop_guard self state = Break.
Proof. intros Hstop. unfold loop_guard. rewrite Hstop. reflexivity. Qed.

(** A step of the thread moves the cursor by one, from the body of the
    loop, or leaves it where it is; it leaves the rest of the partition
    state as it is. *)
Lemma thread_step_shared (self : dataset) (m : machine) :
  shared (thread_step' self m) = shared m
  \/ (at_pc m = InBody /\ at_pc (thread_step' self m) = AtLoopTop
      /\ shared (thread_step' self m) = advance_download_index (shared m)).
Proof.
  unfold thread_step. destruct (at_pc m) eqn:Hpc.
  - destruct (loop_guard self (shared m)); left; reflexivity.
  - destruct (loop_body' self (shared m) (env m)) as [[state'|e] w'] eqn:Hbody.
    + right. apply loop_body_advances in Hbody. subst state'. repeat split.
    + left. reflexivity.
  - left. reflexivity.
  - left. reflexivity.
Qed.

Lemma thread_step_window (self : dataset) (w : Z) (m : machine) :
  predownload self = Some w ->
  window_invariant w m -> window_invariant w (thread_step' self m).
Proof.
  intros Hw [Hbound Hroom]. unfold window_invariant, within_window in *.
  destruct (thread_step_shared self m) as [Hsame|(Hpc & Hpc' & Hadv)].
  - rewrite Hsame. split; [exact Hbound|].
    unfold thread_step. destruct (at_pc m) eqn:Hpc.
    + destruct (loop_guard self (shared m)) eqn:Hguard; cbn [at_pc]; try discriminate.
      intros _. apply (loop_guard_proceed self (shared m) w Hw Hguard).
    + destruct (loop_body' self (shared m) (env m)) as [[state'|e] w'];
        cbn [at_pc]; discriminate.
    + rewrite Hpc. discriminate.
    + rewrite Hpc. discriminate.
  - rewrite Hadv, Hpc'. cbn [download_index yield_index advance_download_index].
    specialize (Hroom Hpc). split; [lia|discriminate].
Qed.

Lemma others_step_window (w : Z) (m m' : machine) :
  others_step m m' -> window_invariant w m -> window_invariant w m'.
Proof.
  intros [Hpc _ _ Hd Hy _ _] [Hbound Hroom].
  unfold window_invariant, within_window in *. rewrite Hpc, Hd.
  split; [lia|]. intros Hbody. specialize (Hroom Hbody). lia.
Qed.

Lemma run_window (self : dataset) (w : Z) (n : nat) (m m' : machine) :
  predownload self = Some w ->
  run' self n m m' -> window_invariant w m -> window_invariant w m'.
Proof.
  intros Hw Hrun. induction Hrun as [m|n m m' _ _ IH|n m1 m2 m' Hothers _ IH];
    intros Hinv.
  - exact Hinv.
  - apply IH, thread_step_window; assumption.
  - apply IH. exact (others_step_window w m1 m2 Hothers Hinv).
Qed.

(** Left alone, the thread goes through a turn of the loop in one step,
    when it leaves the loop or waits, or in two, the tests and the body. *)
Lemma thread_steps_of_iteration (self : dataset) (state : PartitionState)
    (w : world) :
  let m := {| at_pc := AtLoopTop; shared := state; env := w |} in
  match loop_iteration' self state w with
  | (Ok (LeaveLoop, state'), w') =>
      thread_step' self m = {| at_pc := Exited; shared := state'; env := w' |}
  | (Ok (Continue, state'), w') =>
      (loop_guard self state = Wait
       /\ thread_step' self m
          = {| at_pc := AtLoopTop; shared := state'; env := w' |})
      \/ (loop_guard self state = Proceed
          /\ thread_step' self (thread_step' self m)
             = {| at_pc := AtLoopTop; shared := state'; env := w' |})
  | (Raise e, w') =>
      thread_step' self (thread_step' self m)
      = {| at_pc := Died e; shared := state; env := w' |}
  end.
Proof.
  cbv zeta. unfold loop_iteration, thread_step, io_bind.
  cbn [at_pc shared env].
  destruct (loop_guard self state) eqn:Hguard; cbn [ret emit at_pc shared env snd].
  - reflexivity.
  - left. split; reflexivity.
  - destruct (loop_body' self state w) as [[state'|e] w']; cbn [ret].
    + right. split; reflexivity.
    + reflexivity.
Qed.

(** C3: with a window [w] configured, every step of the download thread
    and every step of the rest of the process keep
    [download_index - yield_index <= w]. A turn of the loop that finds the
    thread [w] samples ahead or more sleeps and leaves the partition state
    as it is; the cursor only moves by one, from the body of the loop,
    which is entered after the test of the window has passed. So, from the
    top of the loop with [download_index = yield_index] and a window that
    is not negative, the bound holds in every state that is reached,
    however the consumer moves [yield_index] forward in between. *)
Theorem window_bound_is_invariant (self : dataset) (w : Z) :
  predownload self = Some w ->
  (forall m, window_invariant w m -> window_invariant w (thread_step' self m))
  /\ (forall m m', others_step m m' -> window_invariant w m -> window_invariant w m')
  /\ (forall state world,
        is_stopped state = false -> download_index state <> total state ->
        w <= download_index state - yield_index state ->
        loop_iteration' self state world
        = (Ok (Continue, state),
           {| files := files world; log := log world ++ [Sleep] |}))
  /\ (forall m,
        download_index (shared (thread_step' self m)) = download_index (shared m)
        \/ (at_pc m = InBody
            /\ download_index (shared (thread_step' self m))
               = download_index (shared m) + 1))
  /\ (forall n m m',
        at_pc m = AtLoopTop ->
        download_index (shared m) = yield_index (shared m) ->
        0 <= w ->
        run' self n m m' ->
        within_window w (shared m')).
Proof.
  intros Hw. split; [|split; [|split; [|split]]].
  - intros m. apply thread_step_window. exact Hw.
  - intros m m'. apply others_step_window.
  - intros state world Hstop Htotal Hahead. unfold loop_iteration.
    rewrite (loop_guard_wait self state w Hw Hstop Htotal Hahead). reflexivity.
  - intros m. destruct (thread_step_shared self m) as [->|(Hpc & _ & ->)].
    + left. reflexivity.
    + right. split; [exact Hpc|reflexivity].
  - intros n m m' Hpc Hstart Hwindow Hrun.
    apply (run_window self w n m m' Hw Hrun).
    split; [unfold within_window; lia|]. rewrite Hpc. discriminate.
Qed.

Lemma thread_step_stopped (self : dataset) (m : machine) :
  is_stopped (shared m) = true ->
  is_stopped (shared (thread_step' self m)) = true.
Proof.
  intros Hstop. destruct (thread_step_shared self m) as [->|(_ & _ & ->)];
    exact Hstop.
Qed.

Lemma thread_step_at_top_stopped (self : dataset) (m : machine) :
  at_pc m = AtLoopTop -> is_stopped (shared m) = true ->
  thread_step' self m = {| at_pc := Exited; shared := shared m; env := env m |}.
Proof.
  intros Hpc Hstop. unfold thread_step.
  rewrite Hpc, (loop_guard_stopped self _ Hstop). reflexivity.
Qed.

Lemma thread_step_steps_left (self : dataset) (m : machine) :
  is_stopped (shared m) = true -> running m = true ->
  (S (steps_left (thread_step' self m)) <= steps_left m)%nat
  /\ download_index (shared (thread_step' self m))
     + Z.of_nat (steps_left (thread_step' self m) - 1)
     <= download_index (shared m) + Z.of_nat (steps_left m - 1).
Proof.
  intros Hstop Hrun. unfold running in Hrun.
  destruct (at_pc m) eqn:Hpc; try discriminate.
  - rewrite (thread_step_at_top_stopped self m Hpc Hstop).
    unfold steps_left. rewrite Hpc. cbn. split; lia.
  - destruct (thread_step_shared self m) as [Hsame|(_ & Hpc' & Hadv)].
    + rewrite Hsame. unfold steps_left at 2 4. rewrite Hpc.
      unfold thread_step, steps_left. rewrite Hpc.
      destruct (loop_body' self (shared m) (env m)) as [[state'|e] w'];
        cbn; split; lia.
    + rewrite Hadv. unfold steps_left. rewrite Hpc, Hpc'. cbn. split; lia.
Qed.

Lemma run_stopped (self : dataset) (n : nat) (m m' : machine) :
  run' self n m m' ->
  is_stopped (shared m) = true ->
  (n + steps_left m' <= steps_left m)%nat
  /\ download_index (shared m') + Z.of_nat (steps_left m' - 1)
     <= download_index (shared m) + Z.of_nat (steps_left m - 1)
  /\ is_stopped (shared m') = true.
Proof.
  induction 1 as [m|n m m' Hrunning _ IH|n m1 m2 m' Hothers _ IH]; intros Hstop.
  - repeat split; [lia|lia|exact Hstop].
  - destruct (IH (thread_step_stopped self m Hstop)) as (Hn & Hd & Hstop').
    destruct (thread_step_steps_left self m Hstop Hrunning) as [Hn' Hd'].
    repeat split; [lia|lia|exact Hstop'].
  - destruct Hothers as [Hpc _ _ Hd _ Hs _].
    destruct (IH (Hs Hstop)) as (Hn & Hd' & Hstop').
    unfold steps_left in *. rewrite Hpc, Hd in *.
    repeat split; [lia|lia|exact Hstop'].
Qed.

(** C7: the stop flag is tested first at the top of the loop, and the
    thread that finds it set leaves the loop at once, with nothing else
    done, whatever the window and the cursors are. From any state in which
    the flag is set, the thread takes at most two more steps, the body of
    the turn it is in and the test at the top that follows, whatever the
    rest of the process does in between; it moves the cursor by one at
    most; after these steps it has ended, and run alone it ends. *)
Theorem stop_ends_the_thread (self : dataset) :
  (forall m,
      at_pc m = AtLoopTop -> is_stopped (shared m) = true ->
      thread_step' self m
      = {| at_pc := Exited; shared := shared m; env := env m |})
  /\ (forall n m m',
        is_stopped (shared m) = true -> run' self n m m' ->
        (n <= 2)%nat
        /\ (n = steps_left m -> ended m')
        /\ download_index (shared m') <= download_index (shared m) + 1
        /\ is_stopped (shared m') = true)
  /\ (forall m,
        is_stopped (shared m) = true ->
        ended (thread_step' self (thread_step' self m)))
  /\ (forall fuel state w,
        is_stopped state = true ->
        _download_thread find_sample base_sample remote_content (S fuel) self
          state w
        = (Ok (Some state), w)).
Proof.
  split; [|split; [|split]].
  - apply thread_step_at_top_stopped.
  - intros n m m' Hstop Hrun.
    destruct (run_stopped self n m m' Hrun Hstop) as (Hn & Hd & Hstop').
    assert (Hle : (steps_left m <= 2)%nat)
      by (unfold steps_left; destruct (at_pc m); lia).
    repeat split.
    + lia.
    + intros ->. assert (Hzero : steps_left m' = 0%nat) by lia.
      unfold ended, running. unfold steps_left in Hzero.
      destruct (at_pc m'); [discriminate|discriminate|reflexivity|reflexivity].
    + lia.
    + exact Hstop'.
  - intros m Hstop. unfold ended. unfold running at 1.
    destruct (at_pc m) eqn:Hpc.
    + rewrite (thread_step_at_top_stopped self m Hpc Hstop). reflexivity.
    + pose proof (thread_step_stopped self m Hstop) as Hstop'.
      destruct (at_pc (thread_step' self m)) eqn:Hpc'.
      * rewrite (thread_step_at_top_stopped self _ Hpc' Hstop'). reflexivity.
      * exfalso. revert Hpc'. unfold thread_step. rewrite Hpc.
        destruct (loop_body' self (shared m) (env m)) as [[state'|e] w'];
          discriminate.
      * unfold thread_step at 1. rewrite Hpc'. rewrite Hpc'. reflexivity.
      * unfold thread_step at 1. rewrite Hpc'. rewrite Hpc'. reflexivity.
    + unfold thread_step. rewrite Hpc. cbn. rewrite Hpc. rewrite Hpc. reflexivity.
    + unfold thread_step. rewrite Hpc. cbn. rewrite Hpc. rewrite Hpc. reflexivity.
  - intros fuel state w Hstop. cbn [_download_thread].
    unfold loop_iteration, io_bind. rewrite (loop_guard_stopped self state Hstop).
    reflexivity.
Qed.

(** *** The side asset of a sample *)

Section SideAsset.

Variable self : dataset.
Variable idx : Z.
Variable obj : sample_dict.
Variables extra_local_root extra_remote_root rel_path : string.

Hypothesis Hroots : extra_roots self = Some (extra_local_root, extra_remote_root).
Hypothesis Hobj : base_sample idx = Some obj.
Hypothesis Hpath : obj !! "content_path"%string = Some (PyStr rel_path).

Let local_path := os_path.join extra_local_root rel_path.
Let remote_path := os_path.join extra_remote_root rel_path.

Lemma getitem_present (w : world) (content : bytes) :
  files w !! local_path = Some content ->
  GI_getitem self idx w
  = (Ok (<["content"%string := PyBytes content]> obj),
     {| files := files w;
        log := log w ++ [BaseGetItem idx; PathExists local_path;
                         ReadFile local_path] |}).
Proof.
  intros Hfile. unfold StreamingOutsideGIWebVid.__getitem__, io_bind.
  rewrite super_getitem_run, Hobj, Hroots. cbn [collaborator].
  unfold content_path. rewrite Hpath. cbn [ret].
  unfold os_path.exists_. cbn [files log]. fold local_path. rewrite Hfile.
  cbn [negb bool_decide decide_rel is_Some_dec ret].
  unfold read_file, io_bind, emit. cbn [files log]. rewrite Hfile.
  rewrite <- !app_assoc. reflexivity.
Qed.

Lemma getitem_absent (w : world) (content : bytes) :
  files w !! local_path = None ->
  remote_content remote_path = Some content ->
  GI_getitem self idx w
  = (Ok (<["content"%string := PyBytes content]> obj),
     {| files := <[local_path := content]> (files w);
        log := log w ++ [BaseGetItem idx; PathExists local_path;
                         Download remote_path local_path (download_timeout self);
                         ReadFile local_path] |}).
Proof.
  intros Hfile Hremote. unfold StreamingOutsideGIWebVid.__getitem__, io_bind.
  rewrite super_getitem_run, Hobj, Hroots. cbn [collaborator].
  unfold content_path. rewrite Hpath. cbn [ret].
  unfold os_path.exists_. cbn [files log]. fold local_path remote_path.
  rewrite Hfile.
  cbn [negb bool_decide decide_rel is_Some_dec].
  unfold download, io_bind, emit. cbn [files log]. rewrite Hremote.
  unfold read_file, io_bind, emit. cbn [files log]. rewrite lookup_insert_eq.
  rewrite <- !app_assoc. reflexivity.
Qed.

Lemma getitem_absent_fails (w : world) :
  files w !! local_path = None ->
  remote_content remote_path = None ->
  exists e w', GI_getitem self idx w = (Raise e, w').
Proof.
  intros Hfile Hremote. unfold StreamingOutsideGIWebVid.__getitem__, io_bind.
  rewrite super_getitem_run, Hobj, Hroots. cbn [collaborator].
  unfold content_path. rewrite Hpath. cbn [ret].
  unfold os_path.exists_. cbn [files log]. fold local_path remote_path.
  rewrite Hfile.
  cbn [negb bool_decide decide_rel is_Some_dec].
  unfold download, io_bind, emit. cbn [files log]. rewrite Hremote.
  eexists. eexists. reflexivity.
Qed.

Lemma predownload_present (w : world) (content : bytes) :
  files w !! local_path = Some content ->
  predownload_sample' self idx w
  = (Ok tt,
     {| files := files w;
        log := log w ++ [FindSample idx;
                         DownloadOrSkipShard (fst (find_sample idx)) false;
                         BaseGetItem idx; PathExists local_path] |}).
Proof.
  intros Hfile. unfold predownload_sample, io_bind.
  destruct (find_sample idx) as [shard_id place].
  unfold _download_or_skip_shard, emit at 1 2. cbn [files log fst].
  rewrite super_getitem_run, Hobj, Hroots. cbn [collaborator].
  unfold content_path. rewrite Hpath. cbn [ret].
  unfold os_path.exists_. cbn [files log]. fold local_path. rewrite Hfile.
  cbn [negb bool_decide decide_rel is_Some_dec ret].
  rewrite <- !app_assoc. reflexivity.
Qed.

Lemma predownload_absent (w : world) (content : bytes) :
  files w !! local_path = None ->
  remote_content remote_path = Some content ->
  predownload_sample' self idx w
  = (Ok tt,
     {| files := <[local_path := content]> (files w);
        log := log w ++ [FindSample idx;
                         DownloadOrSkipShard (fst (find_sample idx)) false;
                         BaseGetItem idx; PathExists local_path;
                         Download remote_path local_path
                           (download_timeout self)] |}).
Proof.
  intros Hfile Hremote. unfold predownload_sample, io_bind.
  destruct (find_sample idx) as [shard_id place].
  unfold _download_or_skip_shard, emit at 1 2. cbn [files log fst].
  rewrite super_getitem_run, Hobj, Hroots. cbn [collaborator].
  unfold content_path. rewrite Hpath. cbn [ret].
  unfold os_path.exists_. cbn [files log]. fold local_path remote_path.
  rewrite Hfile.
  cbn [negb bool_decide decide_rel is_Some_dec].
  unfold download, io_bind, emit. cbn [files log]. rewrite Hremote.
  rewrite <- !app_assoc. reflexivity.
Qed.

Lemma predownload_absent_fails (w : world) :
  files w !! local_path = None ->
  remote_content remote_path = None ->
  exists e w', predownload_sample' self idx w = (Raise e, w').
Proof.
  intros Hfile Hremote. unfold predownload_sample, io_bind.
  destruct (find_sample idx) as [shard_id place].
  unfold _download_or_skip_shard, emit at 1 2. cbn [files log fst].
  rewrite super_getitem_run, Hobj, Hroots. cbn [collaborator].
  unfold content_path. rewrite Hpath. cbn [ret].
  unfold os_path.exists_. cbn [files log]. fold local_path remote_path.
  rewrite Hfile.
  cbn [negb bool_decide decide_rel is_Some_dec].
  unfold download, io_bind, emit. cbn [files log]. rewrite Hremote.
  eexists. eexists. reflexivity.
Qed.

End SideAsset.

Ltac trace_cases H :=
  cbn [files log]; rewrite <- ?app_assoc, ?emitted_app; cbn [app];
  intros H; repeat (destruct H as [H|H]; [try discriminate H|]);
  try contradiction.

Ltac trace_done := let H := fresh in solve [trace_cases H].

(** A download is only called for a local path that is missing. *)
Lemma getitem_downloads_missing (self : dataset) (idx : Z) (w : world)
    (remote local : string) (timeout : Z) :
  In (Download remote local timeout) (emitted w (snd (GI_getitem self idx w))) ->
  files w !! local = None.
Proof.
  unfold StreamingOutsideGIWebVid.__getitem__, io_bind.
  rewrite super_getitem_run.
  destruct (base_sample idx) as [obj|]; cbn [collaborator snd]; [|trace_done].
  destruct (extra_roots self) as [[l r]|]; cbn [ret snd]; [|trace_done].
  unfold content_path.
  destruct (obj !! "content_path"%string) as [[z|p|b|ll]|];
    cbn [ret raise snd]; try trace_done.
  unfold os_path.exists_. cbn [files log].
  destruct (files w !! os_path.join l p) as [content|] eqn:Hfile;
    cbn [negb bool_decide decide_rel is_Some_dec ret].
  - unfold read_file, io_bind, emit, ret. cbn [files log]. rewrite Hfile.
    cbn [snd]. trace_done.
  - unfold download, io_bind, emit. cbn [files log].
    destruct (remote_content (os_path.join r p)) as [content|]; cbn [snd].
    + unfold read_file, io_bind, emit, ret. cbn [files log].
      rewrite lookup_insert_eq. cbn [snd].
      trace_cases H. injection H as <- <- <-. exact Hfile.
    + trace_cases H. injection H as <- <- <-. exact Hfile.
Qed.

Lemma predownload_downloads_missing (self : dataset) (idx : Z) (w : world)
    (remote local : string) (timeout : Z) :
  In (Download remote local timeout)
    (emitted w (snd (predownload_sample' self idx w))) ->
  files w !! local = None.
Proof.
  unfold predownload_sample, io_bind.
  destruct (find_sample idx) as [shard_id place].
  unfold _download_or_skip_shard, emit at 1 2. cbn [files log].
  rewrite super_getitem_run.
  destruct (base_sample idx) as [obj|]; cbn [collaborator snd]; [|trace_done].
  destruct (extra_roots self) as [[l r]|]; cbn [ret snd]; [|trace_done].
  unfold content_path.
  destruct (obj !! "content_path"%string) as [[z|p|b|ll]|];
    cbn [ret raise snd]; try trace_done.
  unfold os_path.exists_. cbn [files log].
  destruct (files w !! os_path.join l p) as [content|] eqn:Hfile;
    cbn [negb bool_decide decide_rel is_Some_dec ret snd].
  - trace_done.
  - unfold download, io_bind, emit. cbn [files log].
    destruct (remote_content (os_path.join r p)) as [content|]; cbn [snd];
      trace_cases H; injection H as <- <- <-; exact Hfile.
Qed.

Lemma getitem_ok_inv (self : dataset) (idx : Z) (w w1 : world)
    (sample : sample_dict) (l r : string) :
  extra_roots self = Some (l, r) ->
  GI_getitem self idx w = (Ok sample, w1) ->
  exists obj p,
    base_sample idx = Some obj
    /\ obj !! "content_path"%string = Some (PyStr p).
Proof.
  intros Hroots. unfold StreamingOutsideGIWebVid.__getitem__, io_bind.
  rewrite super_getitem_run, Hroots.
  destruct (base_sample idx) as [obj|]; cbn [collaborator]; [|discriminate].
  unfold content_path.
  destruct (obj !! "content_path"%string) as [[z|p|b|ll]|] eqn:Hpath;
    cbn [ret raise]; try discriminate.
  intros _. exists obj, p. split; [reflexivity|exact Hpath].
Qed.

Lemma predownload_ok_inv (self : dataset) (idx : Z) (w w1 : world) (l r : string) :
  extra_roots self = Some (l, r) ->
  predownload_sample' self idx w = (Ok tt, w1) ->
  exists obj p,
    base_sample idx = Some obj
    /\ obj !! "content_path"%string = Some (PyStr p).
Proof.
  intros Hroots. unfold predownload_sample, io_bind.
  destruct (find_sample idx) as [shard_id place].
  unfold _download_or_skip_shard, emit at 1 2. cbn [files log].
  rewrite super_getitem_run, Hroots.
  destruct (base_sample idx) as [obj|]; cbn [collaborator]; [|discriminate].
  unfold content_path.
  destruct (obj !! "content_path"%string) as [[z|p|b|ll]|] eqn:Hpath;
    cbn [ret raise]; try discriminate.
  intros _. exists obj, p. split; [reflexivity|exact Hpath].
Qed.

(** A [__getitem__] that ended well made one transfer at most, and the
    same call right after it reads the local file. *)
Lemma getitem_again (self : dataset) (idx : Z) (w w1 : world)
    (sample : sample_dict) :
  GI_getitem self idx w = (Ok sample, w1) ->
  (count_downloads (emitted w w1) <= 1)%nat
  /\ exists w2,
       GI_getitem self idx w1 = (Ok sample, w2)
       /\ files w2 = files w1
       /\ count_downloads (emitted w1 w2) = 0%nat.
Proof.
  intros Hrun. destruct (extra_roots self) as [[l r]|] eqn:Hroots.
  - destruct (getitem_ok_inv self idx w w1 sample l r Hroots Hrun)
      as (obj & p & Hobj & Hpath).
    destruct (files w !! os_path.join l p) as [content|] eqn:Hfile.
    + rewrite (getitem_present self idx obj l r p Hroots Hobj Hpath w content Hfile)
        in Hrun.
      injection Hrun as <- <-. rewrite emitted_app. split; [cbn; lia|].
      eexists. split; [|split].
      * apply (getitem_present self idx obj l r p Hroots Hobj Hpath).
        cbn [files]. exact Hfile.
      * reflexivity.
      * rewrite emitted_app. reflexivity.
    + destruct (remote_content (os_path.join r p)) as [content|] eqn:Hremote.
      * rewrite (getitem_absent self idx obj l r p Hroots Hobj Hpath w content
                   Hfile Hremote) in Hrun.
        injection Hrun as <- <-. rewrite emitted_app. split; [cbn; lia|].
        eexists. split; [|split].
        -- apply (getitem_present self idx obj l r p Hroots Hobj Hpath).
           cbn [files]. apply lookup_insert_eq.
        -- reflexivity.
        -- rewrite emitted_app. reflexivity.
      * destruct (getitem_absent_fails self idx obj l r p Hroots Hobj Hpath w
                    Hfile Hremote) as (e & w' & Hfail).
        rewrite Hfail in Hrun. discriminate.
  - rewrite (getitem_no_roots self idx w Hroots), super_getitem_run in Hrun.
    injection Hrun as Hsample <-. rewrite emitted_app. split; [cbn; lia|].
    eexists. split; [|split].
    + rewrite (getitem_no_roots self idx _ Hroots), super_getitem_run, Hsample.
      reflexivity.
    + reflexivity.
    + rewrite emitted_app. reflexivity.
Qed.

(** The same for the download of a sample by the thread, which the
    [__getitem__] of the same class may follow. *)
Lemma predownload_again (self : dataset) (idx : Z) (w w1 : world) :
  predownload_sample' self idx w = (Ok tt, w1) ->
  (count_downloads (emitted w w1) <= 1)%nat
  /\ (exists w2,
        predownload_sample' self idx w1 = (Ok tt, w2)
        /\ files w2 = files w1
        /\ count_downloads (emitted w1 w2) = 0%nat)
  /\ (exists sample w2,
        DT_getitem self idx w1 = (Ok sample, w2)
        /\ files w2 = files w1
        /\ count_downloads (emitted w1 w2) = 0%nat).
Proof.
  intros Hrun. rewrite <- GI_getitem_DT_getitem.
  destruct (extra_roots self) as [[l r]|] eqn:Hroots.
  - destruct (predownload_ok_inv self idx w w1 l r Hroots Hrun)
      as (obj & p & Hobj & Hpath).
    assert (Hafter : exists content, files w1 !! os_path.join l p = Some content
                       /\ (count_downloads (emitted w w1) <= 1)%nat).
    { destruct (files w !! os_path.join l p) as [content|] eqn:Hfile.
      - rewrite (predownload_present self idx obj l r p Hroots Hobj Hpath w
                   content Hfile) in Hrun.
        injection Hrun as <-. exists content. rewrite emitted_app.
        split; [exact Hfile|cbn; lia].
      - destruct (remote_content (os_path.join r p)) as [content|] eqn:Hremote.
        + rewrite (predownload_absent self idx obj l r p Hroots Hobj Hpath w
                     content Hfile Hremote) in Hrun.
          injection Hrun as <-. exists content. rewrite emitted_app.
          split; [apply lookup_insert_eq|cbn; lia].
        + destruct (predownload_absent_fails self idx obj l r p Hroots Hobj
                      Hpath w Hfile Hremote) as (e & w' & Hfail).
          rewrite Hfail in Hrun. discriminate. }
    destruct Hafter as (content & Hfile1 & Hcount).
    split; [exact Hcount|]. split.
    + eexists. split; [|split].
      * apply (predownload_present self idx obj l r p Hroots Hobj Hpath w1
                 content Hfile1).
      * reflexivity.
      * rewrite emitted_app. reflexivity.
    + eexists. eexists. split; [|split].
      * apply (getitem_present self idx obj l r p Hroots Hobj Hpath w1
                 content Hfile1).
      * reflexivity.
      * rewrite emitted_app. reflexivity.
  - rewrite (predownload_sample_no_roots self idx w Hroots) in Hrun.
    destruct (base_sample idx) as [obj|] eqn:Hobj; [|discriminate].
    injection Hrun as <-. rewrite emitted_app. split; [cbn; lia|]. split.
    + eexists. split; [|split].
      * rewrite (predownload_sample_no_roots self idx _ Hroots), Hobj.
        reflexivity.
      * reflexivity.
      * rewrite emitted_app. reflexivity.
    + eexists. eexists. split; [|split].
      * rewrite (getitem_no_roots self idx _ Hroots), super_getitem_run, Hobj.
        reflexivity.
      * reflexivity.
      * rewrite emitted_app. reflexivity.
Qed.

(** C9: fetching a side asset is idempotent with respect to the local
    files, at access time ([__getitem__] of [StreamingOutsideGIWebVid] and
    of [StreamingOutsideDTWebVid]) and at prefetch time (the download
    thread): [download] is only called for a local path that does not
    exist; a fetch that ends well makes one transfer at most; the same
    fetch right after it makes none, leaves the files as they are and
    answers the same; and after the thread predownloaded a sample,
    [__getitem__] reads the local file with no transfer. *)
Theorem side_asset_is_fetched_once (self : dataset) (idx : Z) (w : world) :
  idempotent_fetch (GI_getitem self idx) w
  /\ idempotent_fetch (DT_getitem self idx) w
  /\ idempotent_fetch (predownload_sample' self idx) w
  /\ (forall w1,
        predownload_sample' self idx w = (Ok tt, w1) ->
        exists sample w2,
          DT_getitem self idx w1 = (Ok sample, w2)
          /\ files w2 = files w1
          /\ count_downloads (emitted w1 w2) = 0%nat).
Proof.
  assert (Hget : idempotent_fetch (GI_getitem self idx) w).
  { split.
    - intros remote local timeout. apply getitem_downloads_missing.
    - intros sample w1. apply getitem_again. }
  split; [exact Hget|]. split; [exact Hget|]. split.
  - split.
    + intros remote local timeout. apply predownload_downloads_missing.
    + intros [] w1 Hrun. destruct (predownload_again self idx w w1 Hrun)
        as (Hcount & Hsame & _).
      split; [exact Hcount|exact Hsame].
  - intros w1 Hrun. apply (predownload_again self idx w w1 Hrun).
Qed.

End WebVidMethods.

(** *** The download of a sample when its collaborators may raise *)

Section FallibleDownload.

Variable find_sample : Z -> option (Z * Z).
Variable ensure_local : Z -> bool -> option bool.
Variable base_sample : Z -> option sample_dict.
Variable remote_content : string -> option bytes.

Local Abbreviation predownload_sample' :=
  (fallible.predownload_sample find_sample ensure_local base_sample remote_content).
Local Abbreviation loop_body' :=
  (fallible.loop_body find_sample ensure_local base_sample remote_content).
Local Abbreviation loop_iteration' :=
  (fallible.loop_iteration find_sample ensure_local base_sample remote_content).

Lemma fallible_find_sample_run (sample_id : Z) (w : world) :
  fallible.index_find_sample find_sample sample_id w
  = (collaborator "find_sample" (find_sample sample_id),
     {| files := files w; log := log w ++ [FindSample sample_id] |}).
Proof. reflexivity. Qed.

(** The download of a sample, call by call: each call that raises ends
    it, and what follows base retrieval is the test of the local path and
    the transfer. *)
Lemma fallible_predownload_cases (self : dataset) (sample_id : Z) (w : world) :
  (find_sample sample_id = None
   /\ predownload_sample' self sample_id w
      = (Raise (Raised_by_collaborator "find_sample"),
         {| files := files w; log := log w ++ [FindSample sample_id] |}))
  \/ (exists shard_id place,
        find_sample sample_id = Some (shard_id, place)
        /\ ensure_local shard_id false = None
        /\ predownload_sample' self sample_id w
           = (Raise (Raised_by_collaborator "_download_or_skip_shard"),
              {| files := files w;
                 log := log w ++ [FindSample sample_id;
                                  DownloadOrSkipShard shard_id false] |}))
  \/ (exists shard_id place present,
        find_sample sample_id = Some (shard_id, place)
        /\ ensure_local shard_id false = Some present
        /\ ensure_local shard_id true = None
        /\ predownload_sample' self sample_id w
           = (Raise (Raised_by_collaborator "_download_or_skip_shard"),
              {| files := files w;
                 log := log w ++ calls_up_to_base_retrieval sample_id shard_id |}))
  \/ (exists shard_id place present present',
        find_sample sample_id = Some (shard_id, place)
        /\ ensure_local shard_id false = Some present
        /\ ensure_local shard_id true = Some present'
        /\ base_sample sample_id = None
        /\ predownload_sample' self sample_id w
           = (Raise (Raised_by_collaborator "StreamingDataset.__getitem__"),
              {| files := files w;
                 log := log w ++ calls_up_to_base_retrieval sample_id shard_id |}))
  \/ (exists shard_id place present present' obj r w' rest,
        find_sample sample_id = Some (shard_id, place)
        /\ ensure_local shard_id false = Some present
        /\ ensure_local shard_id true = Some present'
        /\ base_sample sample_id = Some obj
        /\ predownload_sample' self sample_id w = (r, w')
        /\ log w' = log w ++ calls_up_to_base_retrieval sample_id shard_id ++ rest
        /\ (extra_roots self = None -> r = Ok tt /\ rest = [] /\ files w' = files w)
        /\ forall shard_id' flag, ~ In (DownloadOrSkipShard shard_id' flag) rest).
Proof.
  unfold fallible.predownload_sample, fallible.super_getitem,
    fallible._download_or_skip_shard, fallible.index_find_sample, io_bind,
    emit, lift, calls_up_to_base_retrieval.
  destruct (find_sample sample_id) as [[shard_id place]|] eqn:Hfind; cbn.
  2:{ left. split; reflexivity. }
  right.
  destruct (ensure_local shard_id false) as [present|] eqn:Hfirst; cbn.
  2:{ left. exists shard_id, place. rewrite <- !app_assoc. repeat split; assumption. }
  right.
  destruct (ensure_local shard_id true) as [present'|] eqn:Hblocking; cbn.
  2:{ left. exists shard_id, place, present. rewrite <- !app_assoc.
      repeat split; assumption. }
  right.
  destruct (base_sample sample_id) as [obj|] eqn:Hbase; cbn.
  2:{ left. exists shard_id, place, present, present'. rewrite <- !app_assoc.
      repeat split; assumption. }
  right. exists shard_id, place, present, present', obj.
  destruct (extra_roots self) as [[l r]|]; cbn.
  2:{ eexists _, _, []. repeat split; try eassumption; try reflexivity.
      - cbn. rewrite <- !app_assoc. reflexivity.
      - intros ? ? []. }
  unfold content_path.
  destruct (obj !! "content_path"%string) as [[z|p|b|ll]|]; cbn;
    try (eexists _, _, []; repeat split; try eassumption; try reflexivity;
         [cbn; rewrite <- !app_assoc; reflexivity
         |discriminate|intros ? ? []]).
  destruct (bool_decide _); cbn.
  - eexists _, _, [_]. repeat split; try eassumption; try reflexivity;
      try discriminate.
    + cbn. rewrite <- !app_assoc. reflexivity.
    + intros ? ? [H|[]]. discriminate.
  - unfold download, io_bind, emit. cbn.
    destruct (remote_content _); cbn;
      (eexists _, _, [_; _]; repeat split; try eassumption; try reflexivity;
       try discriminate;
       [cbn; rewrite <- !app_assoc; reflexivity
       |intros ? ? [H|[H|[]]]; discriminate]).
Qed.

Lemma fallible_loop_body_sample (self : dataset) (state : PartitionState)
    (w : world) (sample_id : Z) :
  array_getitem (sample_ids state) (download_index state) = Ok sample_id ->
  sample_id <> -1 ->
  loop_body' self state w
  = (match fst (predownload_sample' self sample_id w) with
     | Ok _ => Ok (advance_download_index state)
     | Raise e => Raise e
     end, snd (predownload_sample' self sample_id w)).
Proof.
  intros Hslot Hid. unfold fallible.loop_body, io_bind, lift. rewrite Hslot.
  destruct (Z.eqb_spec sample_id (-1)) as [|_]; [contradiction|].
  destruct (predownload_sample' self sample_id w) as [[[]|e] w']; reflexivity.
Qed.

Lemma emitted_of_log (w w' : world) (trace : list event) :
  log w' = log w ++ trace -> emitted w w' = trace.
Proof.
  intros Hlog. unfold emitted. rewrite Hlog. apply drop_app_length.
Qed.

(** C5: in a turn of the loop that reaches a sample id that is not the
    sentinel, the thread looks up the shard of the sample (line 265) and
    calls the shard acquisition for this shard, first on its own with the
    flag [False] (line 266) and then, in blocking mode, through base
    retrieval (line 269), which blocks until the shard is locally
    available. The download cursor is advanced after these calls, by one,
    and only when none of them raised: a lookup, an acquisition or a
    decoding that raises ends the turn with its exception. When they all
    return and no extra root is set the turn ends well, with these five
    calls and no other. *)
Theorem non_sentinel_slot_acquires_its_shard (self : dataset)
    (state : PartitionState) (w : world) (sample_id : Z) :
  array_getitem (sample_ids state) (download_index state) = Ok sample_id ->
  sample_id <> -1 ->
  (forall state' w',
     loop_body' self state w = (Ok state', w') ->
     state' = advance_download_index state
     /\ (loop_guard self state = Proceed ->
         loop_iteration' self state w = (Ok (Continue, state'), w'))
     /\ exists shard_id place rest,
          find_sample sample_id = Some (shard_id, place)
          /\ emitted w w' = calls_up_to_base_retrieval sample_id shard_id ++ rest
          /\ (forall shard_id' flag, ~ In (DownloadOrSkipShard shard_id' flag) rest)
          /\ acquires_blocking (emitted w w'))
  /\ (find_sample sample_id = None ->
      loop_body' self state w
      = (Raise (Raised_by_collaborator "find_sample"),
         {| files := files w; log := log w ++ [FindSample sample_id] |}))
  /\ (forall shard_id place,
        find_sample sample_id = Some (shard_id, place) ->
        ensure_local shard_id false = None ->
        loop_body' self state w
        = (Raise (Raised_by_collaborator "_download_or_skip_shard"),
           {| files := files w;
              log := log w ++ [FindSample sample_id;
                               DownloadOrSkipShard shard_id false] |}))
  /\ (forall shard_id place present,
        find_sample sample_id = Some (shard_id, place) ->
        ensure_local shard_id false = Some present ->
        ensure_local shard_id true = None ->
        loop_body' self state w
        = (Raise (Raised_by_collaborator "_download_or_skip_shard"),
           {| files := files w;
              log := log w ++ calls_up_to_base_retrieval sample_id shard_id |}))
  /\ (forall shard_id place present present',
        find_sample sample_id = Some (shard_id, place) ->
        ensure_local shard_id false = Some present ->
        ensure_local shard_id true = Some present' ->
        base_sample sample_id = None ->
        loop_body' self state w
        = (Raise (Raised_by_collaborator "StreamingDataset.__getitem__"),
           {| files := files w;
              log := log w ++ calls_up_to_base_retrieval sample_id shard_id |}))
  /\ (forall shard_id place present present' obj,
        find_sample sample_id = Some (shard_id, place) ->
        ensure_local shard_id false = Some present ->
        ensure_local shard_id true = Some present' ->
        base_sample sample_id = Some obj ->
        extra_roots self = None ->
        loop_body' self state w
        = (Ok (advance_download_index state),
           {| files := files w;
              log := log w ++ calls_up_to_base_retrieval sample_id shard_id |})).
Proof.
  intros Hslot Hid.
  rewrite (fallible_loop_body_sample self state w sample_id Hslot Hid).
  pose proof (fallible_predownload_cases self sample_id w) as Hcases.
  destruct Hcases
    as [(Hfind & Hrun)
       |[(shard & place & Hfind & Hfirst & Hrun)
        |[(shard & place & present & Hfind & Hfirst & Hblocking & Hrun)
         |[(shard & place & present & present' & Hfind & Hfirst & Hblocking
            & Hbase & Hrun)
          |(shard & place & present & present' & obj & r & w1 & rest & Hfind
            & Hfirst & Hblocking & Hbase & Hrun & Hlog & Hnone & Hrest)]]]];
    rewrite Hrun; cbn [fst snd].
  - repeat split; intros; congruence.
  - repeat split; intros; congruence.
  - repeat split; intros; congruence.
  - repeat split; intros; congruence.
  - split; [|repeat split; intros; try congruence].
    + intros state' w' Hturn. destruct r as [[]|e]; [|discriminate].
      injection Hturn as <- <-. split; [reflexivity|]. split.
      * intros Hguard. unfold fallible.loop_iteration, io_bind.
        rewrite Hguard.
        rewrite (fallible_loop_body_sample self state w sample_id Hslot Hid).
        rewrite Hrun. reflexivity.
      * exists shard, place, rest. rewrite (emitted_of_log w w1 _ Hlog).
        repeat split; [exact Hfind|exact Hrest|].
        exists shard. apply in_or_app. left. cbn. auto 10.
    + destruct (Hnone ltac:(assumption)) as (-> & -> & Hfiles).
      rewrite app_nil_r in Hlog. destruct w1 as [fs lg]. cbn in Hlog, Hfiles.
      subst. f_equal. f_equal; congruence.
Qed.

End FallibleDownload.

(** With an index lookup and a shard acquisition that return, the download
    of a sample ends as the one of the methods above does, on the same
    files; its calls are the same ones, with the lookup and the blocking
    acquisition of base retrieval written out. *)
Lemma fallible_download_when_calls_return (find_sample : Z -> Z * Z)
    (ensure_local : Z -> bool -> option bool)
    (base_sample : Z -> option sample_dict)
    (remote_content : string -> option bytes)
    (self : dataset) (sample_id : Z) (w : world) :
  (forall shard_id flag, ensure_local shard_id flag <> None) ->
  let old := predownload_sample find_sample base_sample remote_content
               self sample_id w in
  let new := fallible.predownload_sample (fun i => Some (find_sample i))
               ensure_local base_sample remote_content self sample_id w in
  fst new = fst old
  /\ files (snd new) = files (snd old)
  /\ exists rest,
       log (snd old)
       = log w ++ [FindSample sample_id;
                   DownloadOrSkipShard (fst (find_sample sample_id)) false;
                   BaseGetItem sample_id] ++ rest
       /\ log (snd new)
          = log w
            ++ calls_up_to_base_retrieval sample_id (fst (find_sample sample_id))
            ++ rest.
Proof.
  intros Hreturns. cbv zeta.
  unfold fallible.predownload_sample, fallible.super_getitem,
    fallible._download_or_skip_shard, fallible.index_find_sample,
    predownload_sample, super_getitem, _download_or_skip_shard, io_bind,
    emit, lift, calls_up_to_base_retrieval.
  destruct (find_sample sample_id) as [shard_id place]. cbn.
  destruct (ensure_local shard_id false) as [present|] eqn:Hfirst;
    [|destruct (Hreturns _ _ Hfirst)].
  destruct (ensure_local shard_id true) as [present'|] eqn:Hblocking;
    [|destruct (Hreturns _ _ Hblocking)].
  cbn.
  destruct (base_sample sample_id) as [obj|]; cbn.
  2:{ repeat split. exists []. rewrite <- ?app_assoc. split; reflexivity. }
  destruct (extra_roots self) as [[l r]|]; cbn.
  2:{ repeat split. exists []. rewrite <- ?app_assoc. split; reflexivity. }
  unfold content_path.
  destruct (obj !! "content_path"%string) as [[z|p|b|ll]|]; cbn;
    try (repeat split; exists []; rewrite <- ?app_assoc; split; reflexivity).
  destruct (bool_decide _); cbn.
  - repeat split. exists [PathExists (os_path.join l p)].
    rewrite <- ?app_assoc. split; reflexivity.
  - unfold download, io_bind, emit. cbn.
    destruct (remote_content _); cbn;
      (repeat split; eexists [_; _]; rewrite <- ?app_assoc; split; reflexivity).
Qed.

(** A turn on the first slot of a fresh partition, with the video to
    fetch, and a turn on a slot whose shard cannot be had: the first one
    advances the cursor after the blocking acquisition, the second one
    raises before base retrieval is called. *)
Example turn_with_collaborators_that_may_raise :
  fallible.loop_body demo_fallible.find_sample demo_fallible.ensure_local
    demo_webvid.base_sample demo_webvid.remote_content demo_webvid.outside
    demo_webvid.fresh_state demo_webvid.empty_world
  = (Ok (advance_download_index demo_webvid.fresh_state),
     {| files := {[ "/tmp/videos/v.mp4"%string := [Byte.x01; Byte.x02] ]};
        log := [FindSample 10; DownloadOrSkipShard 1 false; BaseGetItem 10;
                FindSample 10; DownloadOrSkipShard 1 true;
                PathExists "/tmp/videos/v.mp4";
                Download "s3://videos/v.mp4" "/tmp/videos/v.mp4" 60] |})
  /\ fallible.loop_body demo_fallible.find_sample demo_fallible.ensure_local
       demo_webvid.base_sample demo_webvid.remote_content demo_webvid.outside
       demo_fallible.state_on_shard_9 demo_webvid.empty_world
     = (Raise (Raised_by_collaborator "_download_or_skip_shard"),
        {| files := ∅;
           log := [FindSample 95; DownloadOrSkipShard 9 false] |}).
Proof. split; vm_compute; reflexivity. Qed.



Lemma getitem_without_extra_roots_witness :
  StreamingOutsideGIWebVid.__getitem__ demo_webvid.base_sample
    demo_webvid.remote_content demo_webvid.inside_only 3 demo_webvid.empty_world
  = (collaborator "StreamingDataset.__getitem__" (demo_webvid.base_sample 3),
     {| files := ∅; log := [BaseGetItem 3] |}).
Proof.
  apply (getitem_without_extra_roots demo_webvid.find_sample
           demo_webvid.base_sample demo_webvid.remote_content
           demo_webvid.inside_only 3 demo_webvid.empty_world).
  left. left. reflexivity.
Defined.

Lemma sentinel_slot_is_skipped_witness :
  loop_body demo_webvid.find_sample demo_webvid.base_sample
    demo_webvid.remote_content demo_webvid.outside demo_webvid.at_padding
    demo_webvid.empty_world
  = (Ok (advance_download_index demo_webvid.at_padding), demo_webvid.empty_world).
Proof.
  apply (sentinel_slot_is_skipped demo_webvid.find_sample
           demo_webvid.base_sample demo_webvid.remote_content
           demo_webvid.outside demo_webvid.at_padding demo_webvid.empty_world).
  reflexivity.
Defined.

Lemma non_sentinel_slot_acquires_its_shard_witness :
  let turn := fallible.loop_body demo_fallible.find_sample
                demo_fallible.ensure_local demo_webvid.base_sample
                demo_webvid.remote_content demo_webvid.outside
                demo_webvid.fresh_state demo_webvid.empty_world in
  array_getitem (sample_ids demo_webvid.fresh_state)
    (download_index demo_webvid.fresh_state) = Ok 10
  /\ 10 <> -1
  /\ fst turn = Ok (advance_download_index demo_webvid.fresh_state)
  /\ (exists rest,
        emitted demo_webvid.empty_world (snd turn)
        = calls_up_to_base_retrieval 10 1 ++ rest)
  /\ acquires_blocking (emitted demo_webvid.empty_world (snd turn)).
Proof.
  cbv zeta.
  assert (Hslot : array_getitem (sample_ids demo_webvid.fresh_state)
                    (download_index demo_webvid.fresh_state) = Ok 10)
    by reflexivity.
  assert (Hid : 10 <> -1) by discriminate.
  split; [exact Hslot|]. split; [exact Hid|].
  split; [vm_compute; reflexivity|].
  destruct (non_sentinel_slot_acquires_its_shard demo_fallible.find_sample
              demo_fallible.ensure_local demo_webvid.base_sample
              demo_webvid.remote_content demo_webvid.outside
              demo_webvid.fresh_state demo_webvid.empty_world 10 Hslot Hid)
    as [Hok _].
  destruct (Hok (advance_download_index demo_webvid.fresh_state)
              (snd (fallible.loop_body demo_fallible.find_sample
                      demo_fallible.ensure_local demo_webvid.base_sample
                      demo_webvid.remote_content demo_webvid.outside
                      demo_webvid.fresh_state demo_webvid.empty_world)))
    as (_ & _ & shard_id & place & rest & Hfind & Hcalls & _ & Hblocking).
  - vm_compute. reflexivity.
  - split; [|exact Hblocking].
    vm_compute in Hfind. injection Hfind as <- <-.
    exists rest. exact Hcalls.
Defined.

Lemma window_bound_is_invariant_witness :
  within_window 2 (shared (demo_webvid.step (demo_webvid.step demo_webvid.start))).
Proof.
  apply (proj2 (proj2 (proj2 (proj2
           (window_bound_is_invariant demo_webvid.find_sample
              demo_webvid.base_sample demo_webvid.remote_content
              demo_webvid.outside 2 eq_refl))))
           2%nat demo_webvid.start).
  - reflexivity.
  - reflexivity.
  - lia.
  - apply run_thread; [reflexivity|].
    apply run_thread; [reflexivity|].
    apply run_refl.
Defined.

Lemma stop_ends_the_thread_witness :
  ended (demo_webvid.step (demo_webvid.step demo_webvid.stopped_in_body)).
Proof.
  assert (Hrun : run demo_webvid.find_sample demo_webvid.base_sample
                   demo_webvid.remote_content demo_webvid.outside 2
                   demo_webvid.stopped_in_body
                   (demo_webvid.step (demo_webvid.step demo_webvid.stopped_in_body))).
  { apply run_thread; [reflexivity|].
    apply run_thread; [reflexivity|].
    apply run_refl. }
  apply (proj1 (proj2 (proj1 (proj2
           (stop_ends_the_thread demo_webvid.find_sample
              demo_webvid.base_sample demo_webvid.remote_content
              demo_webvid.outside))
           2%nat demo_webvid.stopped_in_body _ eq_refl Hrun))).
  reflexivity.
Defined.

Lemma side_asset_is_fetched_once_witness :
  (count_downloads (emitted demo_webvid.empty_world (snd demo_webvid.first_fetch))
   <= 1)%nat
  /\ exists w2,
       StreamingOutsideGIWebVid.__getitem__ demo_webvid.base_sample
         demo_webvid.remote_content demo_webvid.outside 3
         (snd demo_webvid.first_fetch)
       = (Ok demo_webvid.fetched_sample, w2)
       /\ files w2 = files (snd demo_webvid.first_fetch)
       /\ count_downloads (emitted (snd demo_webvid.first_fetch) w2) = 0%nat.
Proof.
  assert (Hfirst : demo_webvid.first_fetch
                   = (Ok demo_webvid.fetched_sample, snd demo_webvid.first_fetch))
    by (vm_compute; reflexivity).
  exact (proj2 (proj1 (side_asset_is_fetched_once demo_webvid.find_sample
                         demo_webvid.base_sample demo_webvid.remote_content
                         demo_webvid.outside 3 demo_webvid.empty_world))
           demo_webvid.fetched_sample (snd demo_webvid.first_fetch) Hfirst).
Defined.

(** * More of the writer *)

(** ** Reading a joint shard back *)

Lemma tobytes_app (a b : list Z) : np.tobytes (a ++ b) = np.tobytes a ++ np.tobytes b.
Proof. unfold np.tobytes. rewrite map_app, concat_app. reflexivity. Qed.

Lemma read_uint32_tobytes (a : list Z) (k : nat) (x : Z) (rest : bytes) :
  a !! k = Some x ->
  read_uint32 (np.tobytes a ++ rest) (4 * Z.of_nat k) = np.uint32 x.
Proof.
  unfold read_uint32. replace (Z.to_nat (4 * Z.of_nat k)) with (4 * k)%nat by lia.
  revert k. induction a as [|y a IH]; intros k Hk; [discriminate|].
  change (np.tobytes (y :: a)) with (le_split 4 y ++ np.tobytes a).
  rewrite <- app_assoc. destruct k as [|k].
  - injection Hk as ->. change (4 * 0)%nat with 0%nat. rewrite drop_0.
    rewrite take_app_length' by (symmetry; apply length_le_split).
    rewrite le_combine_split. reflexivity.
  - replace (4 * S k)%nat with (length (le_split 4 y) + 4 * k)%nat
      by (rewrite length_le_split; lia).
    rewrite drop_app_add. apply IH. exact Hk.
Qed.

Lemma slice_app (header data : bytes) (p q : nat) :
  slice (header ++ data) (len header + Z.of_nat p) (len header + Z.of_nat p + Z.of_nat q)
  = take q (drop p data).
Proof.
  unfold slice, len.
  replace (Z.to_nat (Z.of_nat (length header) + Z.of_nat p + Z.of_nat q
                     - (Z.of_nat (length header) + Z.of_nat p))) with q by lia.
  replace (Z.to_nat (Z.of_nat (length header) + Z.of_nat p))
    with (length header + p)%nat by lia.
  rewrite drop_app_add. reflexivity.
Qed.

Section ReadBack.

Context {base : Type}.
Implicit Types self : MDSWriter.t base.

(** The file is a header of [data_start] bytes, that ends with the
    metadata, and then the samples. *)
Lemma encode_joint_shard_header self :
  MDSWriter.encode_joint_shard self
  = (np.tobytes (np.uint32 (len (MDSWriter.new_samples self))
                 :: MDSWriter.joint_shard_offsets self)
     ++ MDSWriter.config_data self)
    ++ concat (MDSWriter.new_samples self).
Proof.
  unfold MDSWriter.encode_joint_shard. cbv zeta.
  change (np.tobytes (?x :: ?a)) with (np.tobytes ([x] ++ a)).
  rewrite tobytes_app, <- !app_assoc. reflexivity.
Qed.

Lemma len_header self :
  len (np.tobytes (np.uint32 (len (MDSWriter.new_samples self))
                   :: MDSWriter.joint_shard_offsets self)
       ++ MDSWriter.config_data self)
  = data_start self.
Proof.
  rewrite len_app, len_tobytes. unfold len at 1. cbn [length].
  rewrite joint_shard_offsets_length. unfold data_start, len. lia.
Qed.

(** The offset that the file holds for sample [k], read back. *)
Lemma read_offset self (k : nat) :
  (k <= length (MDSWriter.new_samples self))%nat ->
  read_uint32 (MDSWriter.encode_joint_shard self) (4 + 4 * Z.of_nat k)
  = np.uint32 (data_start self
               + len (concat (take k (MDSWriter.new_samples self)))).
Proof.
  intros Hk. rewrite encode_joint_shard_header, <- !app_assoc.
  replace (4 + 4 * Z.of_nat k) with (4 * Z.of_nat (S k)) by lia.
  rewrite (read_uint32_tobytes _ (S k)
             (np.uint32 (data_start self
                         + len (concat (take k (MDSWriter.new_samples self)))))).
  - unfold np.uint32. apply Z.mod_mod. lia.
  - cbn [lookup list_lookup]. apply joint_shard_offsets_lookup. exact Hk.
Qed.

End ReadBack.

Section ReadBackTheorems.

Context {base : Type}.
Implicit Types self : MDSWriter.t base.

(** X1: in a joint shard shorter than [2^32] bytes, the bytes of the file
    between the offset read for sample [k] and the offset read after it are
    the sample [k] of the buffer, for every [k]: the samples are read back
    by random access. *)
Theorem joint_shard_sample_read_back self (k : nat) (sample : bytes) :
  len (MDSWriter.encode_joint_shard self) < 2 ^ 32 ->
  MDSWriter.new_samples self !! k = Some sample ->
  let file := MDSWriter.encode_joint_shard self in
  slice file (read_uint32 file (4 + 4 * Z.of_nat k))
    (read_uint32 file (4 + 4 * Z.of_nat (S k)))
  = sample.
Proof.
  intros Hfile Hk. cbv zeta.
  pose proof (lookup_lt_Some _ _ _ Hk) as Hlt.
  rewrite !read_offset by lia.
  pose proof (offset_in_file self k). pose proof (offset_in_file self (S k)).
  rewrite !uint32_small by lia.
  rewrite (len_concat_take_S _ _ _ Hk).
  rewrite encode_joint_shard_header, <- len_header.
  set (header := np.tobytes _ ++ MDSWriter.config_data self).
  pose proof (slice_app header (concat (MDSWriter.new_samples self))
                (length (concat (take k (MDSWriter.new_samples self))))
                (length sample)) as Hslice.
  unfold len in *. rewrite Z.add_assoc, Hslice.
  rewrite <- (take_drop_middle _ _ _ Hk) at 2.
  rewrite concat_app. cbn [concat].
  rewrite drop_app_length, take_app_length. reflexivity.
Qed.

(** X2: in a joint shard shorter than [2^32] bytes, the first four bytes
    read back as the number of samples, and the metadata are the bytes from
    the end of the offsets up to the first offset. *)
Theorem joint_shard_header_read_back self :
  len (MDSWriter.encode_joint_shard self) < 2 ^ 32 ->
  let file := MDSWriter.encode_joint_shard self in
  let n := len (MDSWriter.new_samples self) in
  read_uint32 file 0 = n
  /\ slice file (4 + 4 * (n + 1)) (read_uint32 file 4)
     = MDSWriter.config_data self.
Proof.
  intros Hfile. cbv zeta. pose proof (count_in_file self) as Hn. split.
  - rewrite encode_joint_shard_header, <- !app_assoc.
    rewrite (read_uint32_tobytes _ 0 (np.uint32 (len (MDSWriter.new_samples self))))
      by reflexivity.
    rewrite !uint32_small; [reflexivity|lia|].
    rewrite uint32_small by lia. lia.
  - change 4 with (4 + 4 * Z.of_nat 0) at 3. rewrite read_offset by lia.
    pose proof (offset_in_file self 0).
    rewrite uint32_small by lia.
    change (take 0 (MDSWriter.new_samples self)) with (@nil bytes).
    cbn [concat]. change (len (@nil byte)) with 0. rewrite Z.add_0_r.
    unfold MDSWriter.encode_joint_shard. cbv zeta.
    rewrite app_assoc.
    set (header := np.tobytes _ ++ np.tobytes _).
    assert (Hheader : len header = 4 + 4 * (len (MDSWriter.new_samples self) + 1)).
    { unfold header. rewrite len_app, !len_tobytes.
      replace (len (MDSWriter.joint_shard_offsets self))
        with (len (MDSWriter.new_samples self) + 1)
        by (unfold len; rewrite joint_shard_offsets_length; lia).
      replace (len [np.uint32 (len (MDSWriter.new_samples self))]) with 1
        by reflexivity.
      lia. }
    unfold data_start. rewrite <- Hheader.
    pose proof (slice_app header
                  (MDSWriter.config_data self ++ concat (MDSWriter.new_samples self))
                  0 (length (MDSWriter.config_data self))) as Hslice.
    rewrite Z.add_0_r in Hslice. fold (len (MDSWriter.config_data self)) in Hslice.
    rewrite Hslice, drop_0, take_app_length. reflexivity.
Qed.

(** X3: the length of a joint shard is the sum that the attributes of the
    writer announce: [extra_bytes_per_shard], as [__init__] sets it, plus,
    for every sample of the buffer, its length and
    [extra_bytes_per_sample]. *)
Theorem joint_shard_length_accounting self :
  MDSWriter.extra_bytes_per_shard self = 4 + 4 + len (MDSWriter.config_data self) ->
  len (MDSWriter.encode_joint_shard self)
  = MDSWriter.extra_bytes_per_shard self
    + sumZ (map (fun sample => len sample + MDSWriter.extra_bytes_per_sample)
              (MDSWriter.new_samples self)).
Proof.
  intros ->. rewrite len_encode_joint_shard. unfold data_start.
  assert (Hsum : forall samples : list bytes,
             sumZ (map (fun sample => len sample + MDSWriter.extra_bytes_per_sample)
                     samples)
             = 4 * len samples + len (concat samples)).
  { induction samples as [|s samples IH]; [reflexivity|].
    cbn [map sumZ foldr concat].
    fold (sumZ (map (fun sample => len sample + MDSWriter.extra_bytes_per_sample)
                  samples)).
    rewrite IH, len_app. unfold MDSWriter.extra_bytes_per_sample, len.
    cbn [length]. lia. }
  rewrite Hsum. lia.
Qed.

(** X4: with an empty buffer, [encode_joint_shard] returns the count 0,
    one offset, the length of the file, and the metadata; the file has 8
    bytes more than the metadata. *)
Theorem joint_shard_of_empty_buffer self :
  MDSWriter.new_samples self = [] ->
  MDSWriter.encode_joint_shard self
  = np.tobytes [0; np.uint32 (8 + len (MDSWriter.config_data self))]
    ++ MDSWriter.config_data self
  /\ len (MDSWriter.encode_joint_shard self) = 8 + len (MDSWriter.config_data self).
Proof.
  intros Hempty. split.
  - rewrite encode_joint_shard_header, joint_shard_offsets_spec.
    unfold data_start. rewrite Hempty. cbn [length seq map concat firstn].
    change (len (@nil bytes)) with 0. change (len (@nil byte)) with 0.
    rewrite app_nil_r.
    replace (4 + 4 * (0 + 1) + len (MDSWriter.config_data self) + 0)
      with (8 + len (MDSWriter.config_data self)) by lia.
    reflexivity.
  - rewrite len_encode_joint_shard. unfold data_start. rewrite Hempty.
    change (len (@nil bytes)) with 0. cbn [concat].
    change (len (@nil byte)) with 0. lia.
Qed.

End ReadBackTheorems.

Lemma joint_shard_sample_read_back_witness :
  let file := MDSWriter.encode_joint_shard writer_with_three_samples in
  slice file (read_uint32 file (4 + 4 * 2)) (read_uint32 file (4 + 4 * 3))
  = [Byte.x03; Byte.x04; Byte.x05].
Proof.
  apply (joint_shard_sample_read_back writer_with_three_samples 2
           [Byte.x03; Byte.x04; Byte.x05]).
  - vm_compute. reflexivity.
  - reflexivity.
Defined.

Lemma joint_shard_header_read_back_witness :
  let file := MDSWriter.encode_joint_shard writer_with_three_samples in
  read_uint32 file 0 = 3
  /\ slice file (4 + 4 * (3 + 1)) (read_uint32 file 4)
     = list_byte_of_string "a,b".
Proof.
  apply (joint_shard_header_read_back writer_with_three_samples).
  vm_compute. reflexivity.
Defined.

Lemma joint_shard_length_accounting_witness :
  len (MDSWriter.encode_joint_shard writer_with_three_samples)
  = 11 + ((2 + 4) + (0 + 4) + (3 + 4)).
Proof.
  rewrite (joint_shard_length_accounting writer_with_three_samples eq_refl).
  reflexivity.
Defined.

Lemma joint_shard_of_empty_buffer_witness :
  len (MDSWriter.encode_joint_shard demo.writer_a_b) = 8 + 3.
Proof.
  apply (joint_shard_of_empty_buffer demo.writer_a_b). reflexivity.
Defined.

(** ** More of [encode_sample] *)

Section EncodeSampleMore.

Variable mds_encode : string -> pyval -> option bytes.

Abbreviation cols_t := (list (string * string * option Z)).

(** The loop over columns that are fine goes on with what is left, the
    sizes and the data of these columns added. *)
Lemma encode_columns_prefix (sample : sample_dict) (pre : cols_t)
    (data : list bytes) (rest : cols_t) :
  Forall2 (encodes_column mds_encode sample) pre data ->
  forall sizes acc,
    MDSWriter.encode_columns mds_encode (pre ++ rest) sample sizes acc
    = MDSWriter.encode_columns mds_encode rest sample
        (sizes ++ variable_lengths pre data) (acc ++ data).
Proof.
  induction 1 as [|[[key encoding] size] datum pre data Hcol _ IH];
    intros sizes acc.
  - cbn. rewrite !app_nil_r. reflexivity.
  - destruct Hcol as (value & Hkey & Henc & Hsize).
    cbn [app MDSWriter.encode_columns]. rewrite Hkey, Henc.
    cbn [collaborator bind].
    destruct size as [s|].
    + rewrite (Hsize s eq_refl), Z.eqb_refl. cbn [negb].
      rewrite IH, <- app_assoc. reflexivity.
    + rewrite IH, <- !app_assoc. reflexivity.
Qed.

Lemma encode_columns_agree (sample sample' : sample_dict) (cols : cols_t) :
  (forall key encoding size,
      In (key, encoding, size) cols -> sample !! key = sample' !! key) ->
  forall sizes acc,
    MDSWriter.encode_columns mds_encode cols sample sizes acc
    = MDSWriter.encode_columns mds_encode cols sample' sizes acc.
Proof.
  induction cols as [|[[key encoding] size] cols IH]; intros Hagree sizes acc;
    [reflexivity|].
  cbn [MDSWriter.encode_columns].
  rewrite <- (Hagree key encoding size (or_introl eq_refl)).
  destruct (sample !! key) as [value|]; [|reflexivity].
  destruct (mds_encode encoding value) as [datum|]; [|reflexivity].
  cbn [collaborator bind].
  assert (Hrest : forall k e s, In (k, e, s) cols -> sample !! k = sample' !! k)
    by (intros k e s Hin; apply (Hagree k e s); right; exact Hin).
  destruct size as [s|]; [destruct (negb (s =? len datum)); [reflexivity|]|];
    apply IH; exact Hrest.
Qed.

Lemma in_zip_columns_name {base} (self : MDSWriter.t base)
    (key encoding : string) (size : option Z) :
  In (key, encoding, size) (MDSWriter.zip_columns self) ->
  In key (MDSWriter.column_names self).
Proof.
  unfold MDSWriter.zip_columns.
  generalize (MDSWriter.column_encodings self), (MDSWriter.column_sizes self).
  induction (MDSWriter.column_names self) as [|name names IH];
    intros es ss Hin; [destruct Hin|].
  destruct es as [|e es]; [destruct Hin|].
  destruct ss as [|s ss]; [destruct Hin|].
  destruct Hin as [[= <- _ _]|Hin]; [left; reflexivity|].
  right. exact (IH es ss Hin).
Qed.

(** X5: [encode_sample] reads the fields of the sample that are named by
    the columns and no other: two samples with the same values under the
    names of the columns have the same encoding, or raise the same. *)
Theorem encode_sample_reads_columns_only {base} (self : MDSWriter.t base)
    (sample sample' : sample_dict) :
  (forall key, In key (MDSWriter.column_names self) ->
               sample !! key = sample' !! key) ->
  MDSWriter.encode_sample mds_encode self sample
  = MDSWriter.encode_sample mds_encode self sample'.
Proof.
  intros Hagree. unfold MDSWriter.encode_sample.
  rewrite (encode_columns_agree sample sample'); [reflexivity|].
  intros key encoding size Hin. apply Hagree.
  exact (in_zip_columns_name self key encoding size Hin).
Qed.

(** X6: the first column that fails decides what [encode_sample] raises.
    When the columns before are fine, a field that the sample does not
    have raises the [KeyError] of the lookup for this key, and a field
    that the encoder refuses raises what the encoder raised, whatever the
    columns after are. *)
Theorem encode_sample_first_failure {base} (self : MDSWriter.t base)
    (sample : sample_dict) (pre : cols_t) (data : list bytes)
    (key encoding : string) (size : option Z) (post : cols_t) :
  MDSWriter.zip_columns self = pre ++ (key, encoding, size) :: post ->
  Forall2 (encodes_column mds_encode sample) pre data ->
  (sample !! key = None ->
   MDSWriter.encode_sample mds_encode self sample = Raise (KeyError_missing key))
  /\ (forall value,
        sample !! key = Some value -> mds_encode encoding value = None ->
        MDSWriter.encode_sample mds_encode self sample
        = Raise (Raised_by_collaborator "mds_encode")).
Proof.
  intros Hcols Hpre. unfold MDSWriter.encode_sample.
  rewrite Hcols, (encode_columns_prefix sample pre data _ Hpre).
  cbn [MDSWriter.encode_columns]. split.
  - intros ->. reflexivity.
  - intros value -> ->. reflexivity.
Qed.

Lemma sumZ_cons (x : Z) (l : list Z) : sumZ (x :: l) = x + sumZ l.
Proof. reflexivity. Qed.

Lemma declared_sizes_cons (col : string * string * option Z) (cols : cols_t) :
  declared_sizes (col :: cols)
  = match snd col with
    | Some s => s :: declared_sizes cols
    | None => declared_sizes cols
    end.
Proof. unfold declared_sizes. cbn [flat_map]. destruct (snd col); reflexivity. Qed.

Lemma count_variable_cons (col : string * string * option Z) (cols : cols_t) :
  count_variable (col :: cols)
  = match snd col with
    | Some _ => count_variable cols
    | None => 1 + count_variable cols
    end.
Proof.
  unfold count_variable. cbn [List.filter].
  destruct (snd col); [reflexivity|]. unfold len. cbn [length]. lia.
Qed.

Lemma sizes_of_encoded_columns (sample : sample_dict) (cols : cols_t)
    (data : list bytes) :
  Forall2 (encodes_column mds_encode sample) cols data ->
  len (variable_lengths cols data) = count_variable cols
  /\ sumZ (map len data)
     = sumZ (declared_sizes cols) + sumZ (variable_lengths cols data).
Proof.
  induction 1 as [|[[key encoding] size] datum cols data Hcol _ [IHn IHs]].
  - split; reflexivity.
  - destruct Hcol as (value & _ & _ & Hsize).
    rewrite declared_sizes_cons, count_variable_cons. cbn [snd map].
    rewrite sumZ_cons, IHs. destruct size as [s|]; cbn [variable_lengths].
    + rewrite sumZ_cons, (Hsize s eq_refl). split; [exact IHn|lia].
    + rewrite sumZ_cons. split; [|lia].
      unfold len in *. cbn [length]. lia.
Qed.

(** X7: the bytes that [encode_sample] returns have four bytes for every
    column of variable size, then the declared size of every column of a
    fixed size and the length of the field of every column of variable
    size. With columns of a fixed size only, every sample of the schema has
    the same length, the sum of the declared sizes. *)
Theorem encode_sample_length {base} (self : MDSWriter.t base)
    (sample : sample_dict) (out : bytes) :
  MDSWriter.encode_sample mds_encode self sample = Ok out ->
  let cols := MDSWriter.zip_columns self in
  exists data,
    Forall2 (encodes_column mds_encode sample) cols data
    /\ len out = 4 * count_variable cols + sumZ (declared_sizes cols)
                 + sumZ (variable_lengths cols data)
    /\ (count_variable cols = 0 -> len out = sumZ (declared_sizes cols)).
Proof.
  intros Hrun. cbv zeta. unfold MDSWriter.encode_sample in Hrun.
  destruct (MDSWriter.encode_columns mds_encode (MDSWriter.zip_columns self)
              sample [] []) as [[sizes data]|e] eqn:Hcols; [|discriminate].
  cbn [bind] in Hrun. injection Hrun as <-.
  apply encode_columns_inv in Hcols as (data' & Hdata & -> & ->).
  destruct (sizes_of_encoded_columns sample _ data' Hdata) as [Hn Hs].
  cbn [app]. exists data'. split; [exact Hdata|].
  assert (Hlen : len (np.tobytes (map np.uint32
                        (variable_lengths (MDSWriter.zip_columns self) data'))
                      ++ concat data')
                 = 4 * count_variable (MDSWriter.zip_columns self)
                   + sumZ (declared_sizes (MDSWriter.zip_columns self))
                   + sumZ (variable_lengths (MDSWriter.zip_columns self) data')).
  { rewrite len_app, len_tobytes, len_map, Hn, <- sumZ_lens, Hs. lia. }
  split; [exact Hlen|].
  intros Hfixed. rewrite Hlen, Hfixed. rewrite Hfixed in Hn.
  destruct (variable_lengths (MDSWriter.zip_columns self) data');
    [cbn; lia|discriminate].
Qed.

Lemma tobytes_inj (a b : list Z) :
  Forall (fun x => 0 <= x < 2 ^ 32) a ->
  Forall (fun x => 0 <= x < 2 ^ 32) b ->
  length a = length b ->
  np.tobytes a = np.tobytes b -> a = b.
Proof.
  intros Ha. revert b. induction Ha as [|x a Hx _ IH]; intros b Hb Hlen Heq.
  - destruct b; [reflexivity|discriminate].
  - destruct Hb as [|y b Hy Hb]; [discriminate|].
    change (le_split 4 x ++ np.tobytes a = le_split 4 y ++ np.tobytes b) in Heq.
    apply app_inj_1 in Heq as [Hhead Htail];
      [|rewrite !length_le_split; reflexivity].
    apply (f_equal le_combine) in Hhead. rewrite !le_combine_split in Hhead.
    change (2 ^ (Z.of_nat 4 * 8)) with (2 ^ 32) in Hhead.
    rewrite !Z.mod_small in Hhead by assumption. subst y.
    f_equal. apply IH; [exact Hb|cbn in Hlen; lia|exact Htail].
Qed.

Lemma same_lengths_of_columns (sample sample' : sample_dict) (cols : cols_t)
    (data data' : list bytes) :
  Forall2 (encodes_column mds_encode sample) cols data ->
  Forall2 (encodes_column mds_encode sample') cols data' ->
  variable_lengths cols data = variable_lengths cols data' ->
  Forall2 (fun d d' : bytes => length d = length d') data data'.
Proof.
  intros Hdata. revert data'.
  induction Hdata as [|[[key encoding] size] datum cols data Hcol _ IH];
    intros data' Hdata' Hvar.
  - apply Forall2_nil_inv_l in Hdata'. subst. constructor.
  - apply Forall2_cons_inv_l in Hdata' as (datum' & data'' & Hcol' & Hdata' & ->).
    destruct Hcol as (_ & _ & _ & Hsize). destruct Hcol' as (_ & _ & _ & Hsize').
    destruct size as [s|].
    + constructor; [|exact (IH _ Hdata' Hvar)].
      pose proof (Hsize s eq_refl). pose proof (Hsize' s eq_refl).
      unfold len in *. lia.
    + cbn [variable_lengths] in Hvar. injection Hvar as Hlen Hvar.
      constructor; [unfold len in Hlen; lia|exact (IH _ Hdata' Hvar)].
Qed.

Lemma concat_inj_same_lengths (data data' : list bytes) :
  Forall2 (fun d d' : bytes => length d = length d') data data' ->
  concat data = concat data' -> data = data'.
Proof.
  induction 1 as [|d d' data data' Hlen _ IH]; intros Heq; [reflexivity|].
  cbn [concat] in Heq. apply app_inj_1 in Heq as [-> Htail]; [|exact Hlen].
  f_equal. exact (IH Htail).
Qed.

(** The bytes of a sample determine the bytes of each of its columns, for
    fields shorter than [2^32] bytes. *)
Lemma sample_bytes_inj (sample sample' : sample_dict) (cols : cols_t)
    (data data' : list bytes) :
  Forall2 (encodes_column mds_encode sample) cols data ->
  Forall2 (encodes_column mds_encode sample') cols data' ->
  Forall (fun d => len d < 2 ^ 32) data ->
  Forall (fun d => len d < 2 ^ 32) data' ->
  sample_bytes cols data = sample_bytes cols data' ->
  data = data'.
Proof.
  intros Hdata Hdata' Hshort Hshort' Heq. unfold sample_bytes in Heq.
  destruct (sizes_of_encoded_columns sample cols data Hdata) as [Hn _].
  destruct (sizes_of_encoded_columns sample' cols data' Hdata') as [Hn' _].
  assert (Hrange : forall (cs : cols_t) (ds : list bytes),
             Forall (fun d => len d < 2 ^ 32) ds ->
             Forall (fun x => 0 <= x < 2 ^ 32) (variable_lengths cs ds)).
  { induction cs as [|[[k e] [s|]] cs IH]; intros ds Hds;
      destruct ds as [|d ds]; cbn [variable_lengths]; try constructor.
    - apply IH. apply Forall_cons in Hds as [_ Hds]. exact Hds.
    - apply Forall_cons in Hds as [Hd _]. pose proof (len_nonneg d). lia.
    - apply IH. apply Forall_cons in Hds as [_ Hds]. exact Hds. }
  assert (Hsmall : forall l, Forall (fun x => 0 <= x < 2 ^ 32) l ->
                             map np.uint32 l = l).
  { induction 1 as [|x l Hx _ IH]; [reflexivity|].
    cbn [map]. rewrite IH, uint32_small by exact Hx. reflexivity. }
  rewrite !Hsmall in Heq by (apply Hrange; assumption).
  apply app_inj_1 in Heq as [Hhead Hbody].
  2:{ apply Nat2Z.inj. fold (len (np.tobytes (variable_lengths cols data))).
      fold (len (np.tobytes (variable_lengths cols data'))).
      rewrite !len_tobytes, Hn, Hn'. reflexivity. }
  apply tobytes_inj in Hhead; [| apply Hrange; assumption
                               | apply Hrange; assumption
                               | apply Nat2Z.inj; fold (len (variable_lengths cols data));
                                 fold (len (variable_lengths cols data'));
                                 rewrite Hn, Hn'; reflexivity].
  apply concat_inj_same_lengths; [|exact Hbody].
  exact (same_lengths_of_columns sample sample' cols data data' Hdata Hdata' Hhead).
Qed.


Lemma len_concat_bound (data : list bytes) :
  Forall (fun d => len d <= len (concat data)) data.
Proof.
  induction data as [|d data IH]; constructor.
  - cbn [concat]. rewrite len_app. pose proof (len_nonneg (concat data)). lia.
  - eapply Forall_impl; [exact IH|]. cbn beta. intros d' Hd'.
    cbn [concat]. rewrite len_app. pose proof (len_nonneg d). lia.
Qed.

(** X8: the bytes that [encode_sample] returns determine the bytes of
    every column. When [encode_sample] returns the same bytes, fewer than
    [2^32] of them, for two samples, the fields of the two samples are
    encoded to the same bytes, column by column: two samples that differ
    in the encoding of a field are never encoded to the same bytes. *)
Theorem encode_sample_injective {base} (self : MDSWriter.t base)
    (sample sample' : sample_dict) (out : bytes) :
  MDSWriter.encode_sample mds_encode self sample = Ok out ->
  MDSWriter.encode_sample mds_encode self sample' = Ok out ->
  len out < 2 ^ 32 ->
  exists data,
    Forall2 (encodes_column mds_encode sample) (MDSWriter.zip_columns self) data
    /\ Forall2 (encodes_column mds_encode sample') (MDSWriter.zip_columns self) data.
Proof.
  intros Hrun Hrun' Hshort. unfold MDSWriter.encode_sample in Hrun, Hrun'.
  destruct (MDSWriter.encode_columns mds_encode (MDSWriter.zip_columns self)
              sample [] []) as [[sizes data]|e] eqn:Hcols; [|discriminate].
  destruct (MDSWriter.encode_columns mds_encode (MDSWriter.zip_columns self)
              sample' [] []) as [[sizes' data']|e'] eqn:Hcols'; [|discriminate].
  cbn [bind] in Hrun, Hrun'. injection Hrun as Hout. injection Hrun' as Hout'.
  apply encode_columns_inv in Hcols as (columns & Hdata & -> & ->).
  apply encode_columns_inv in Hcols' as (columns' & Hdata' & -> & ->).
  cbn [app] in Hout, Hout'.
  assert (Hbound : forall sizes (ds : list bytes),
             np.tobytes sizes ++ concat ds = out ->
             Forall (fun d => len d < 2 ^ 32) ds).
  { intros sizes ds Heq. eapply Forall_impl; [apply len_concat_bound|].
    cbn beta. intros d Hd. apply (f_equal len) in Heq.
    rewrite len_app in Heq. pose proof (len_nonneg (np.tobytes sizes)). lia. }
  exists columns. split; [exact Hdata|].
  rewrite (sample_bytes_inj sample sample' (MDSWriter.zip_columns self)
             columns columns' Hdata Hdata' (Hbound _ _ Hout) (Hbound _ _ Hout')).
  - exact Hdata'.
  - unfold sample_bytes. rewrite Hout, Hout'. reflexivity.
Qed.

End EncodeSampleMore.

Lemma demo_columns_encoded :
  Forall2 (encodes_column demo.mds_encode demo.sample_7_hi)
    (MDSWriter.zip_columns demo.writer_a_b)
    [np.tobytes [7]; list_byte_of_string "hi"].
Proof.
  rewrite demo_zip_columns_a_b.
  constructor; [|constructor; [|constructor]].
  - exists (PyInt 7). repeat split. intros s [= <-]. reflexivity.
  - exists (PyStr "hi"). repeat split. intros s [=].
Qed.

Lemma encode_sample_reads_columns_only_witness :
  MDSWriter.encode_sample demo.mds_encode demo.writer_a_b demo.sample_7_hi
  = MDSWriter.encode_sample demo.mds_encode demo.writer_a_b sample_with_more.
Proof.
  apply (encode_sample_reads_columns_only demo.mds_encode demo.writer_a_b).
  intros key [<-|[<-|[]]]; vm_compute; reflexivity.
Defined.

Lemma encode_sample_first_failure_witness :
  MDSWriter.encode_sample demo.mds_encode demo.writer_a_b sample_only_a
  = Raise (KeyError_missing "b").
Proof.
  assert (Hpre : Forall2 (encodes_column demo.mds_encode sample_only_a)
                   [("a"%string, "uint32"%string, Some 4)] [np.tobytes [7]]).
  { constructor; [|constructor].
    exists (PyInt 7). repeat split. intros s [= <-]. reflexivity. }
  apply (proj1 (encode_sample_first_failure demo.mds_encode demo.writer_a_b
                  sample_only_a [("a"%string, "uint32"%string, Some 4)]
                  [np.tobytes [7]] "b"%string "str"%string None []
                  eq_refl Hpre)).
  reflexivity.
Defined.

Lemma encode_sample_length_witness :
  exists data,
    Forall2 (encodes_column demo.mds_encode demo.sample_7_hi)
      (MDSWriter.zip_columns demo.writer_a_b) data
    /\ 10 = 4 * count_variable (MDSWriter.zip_columns demo.writer_a_b)
            + sumZ (declared_sizes (MDSWriter.zip_columns demo.writer_a_b))
            + sumZ (variable_lengths (MDSWriter.zip_columns demo.writer_a_b) data)
    /\ (count_variable (MDSWriter.zip_columns demo.writer_a_b) = 0 ->
        10 = sumZ (declared_sizes (MDSWriter.zip_columns demo.writer_a_b))).
Proof.
  apply (encode_sample_length demo.mds_encode demo.writer_a_b demo.sample_7_hi
           [Byte.x02; Byte.x00; Byte.x00; Byte.x00;
            Byte.x07; Byte.x00; Byte.x00; Byte.x00; Byte.x68; Byte.x69]).
  vm_compute. reflexivity.
Defined.

Lemma encode_sample_injective_witness :
  exists data,
    Forall2 (encodes_column demo.mds_encode demo.sample_7_hi)
      (MDSWriter.zip_columns demo.writer_a_b) data
    /\ Forall2 (encodes_column demo.mds_encode sample_with_more)
         (MDSWriter.zip_columns demo.writer_a_b) data.
Proof.
  apply (encode_sample_injective demo.mds_encode demo.writer_a_b
           demo.sample_7_hi sample_with_more
           [Byte.x02; Byte.x00; Byte.x00; Byte.x00;
            Byte.x07; Byte.x00; Byte.x00; Byte.x00; Byte.x68; Byte.x69]).
  - vm_compute. reflexivity.
  - vm_compute. reflexivity.
  - vm_compute. reflexivity.
Defined.

(** ** More of [__init__] *)

Section ConstructionMore.

Variable is_mds_encoding : string -> bool.
Variable get_mds_encoded_size : string -> option Z.
Variable base : Type.
Variable JointWriter_init : MDSWriter.args -> Z -> option base.
Variable dumps_config :
  base -> list string -> list string -> list (option Z) -> bytes.

Abbreviation new_writer :=
  (MDSWriter.__init__ is_mds_encoding get_mds_encoded_size base
     JointWriter_init dumps_config).

Lemma sorted_NoDup (columns : gmap string string) :
  NoDup (MDSWriter.sorted columns)
  /\ length (MDSWriter.sorted columns) = size columns.
Proof.
  unfold MDSWriter.sorted.
  change (map fst (map_to_list columns)) with ((map_to_list columns).*1).
  rewrite merge_sort_Permutation. split.
  - apply NoDup_fst_map_to_list.
  - rewrite length_fmap. apply length_map_to_list.
Qed.

(** X9: the writer that [__init__] builds has one column for every key of
    the mapping and no other: the names are the keys, each once, the three
    lists have one entry for each key, so that zipping them drops no
    column, the sizes are those of the encodings in the registry, and
    [extra_bytes_per_shard] is 8 more than the length of the metadata; the
    buffer of samples is empty. *)
Theorem init_builds_one_column_per_key (columns : gmap string string)
    (a : MDSWriter.args) (self : MDSWriter.t base) :
  new_writer columns a = Ok self ->
  NoDup (MDSWriter.column_names self)
  /\ (forall name, In name (MDSWriter.column_names self)
                   <-> is_Some (columns !! name))
  /\ length (MDSWriter.column_names self) = size columns
  /\ length (MDSWriter.column_encodings self) = size columns
  /\ length (MDSWriter.column_sizes self) = size columns
  /\ length (MDSWriter.zip_columns self) = size columns
  /\ MDSWriter.column_sizes self
     = map get_mds_encoded_size (MDSWriter.column_encodings self)
  /\ MDSWriter.extra_bytes_per_shard self = 8 + len (MDSWriter.config_data self)
  /\ MDSWriter.new_samples self = [].
Proof.
  intros Hinit.
  assert (Hrest : MDSWriter.extra_bytes_per_shard self
                  = 8 + len (MDSWriter.config_data self)
                  /\ MDSWriter.new_samples self = []).
  { unfold MDSWriter.__init__ in Hinit.
    destruct (JointWriter_init a MDSWriter.extra_bytes_per_sample) as [b|];
      [|discriminate].
    cbn [collaborator bind] in Hinit.
    destruct (MDSWriter.init_columns _ _ _ _ _) as [[[ns es] ss]|e];
      [|discriminate].
    cbn [bind] in Hinit. injection Hinit as <-.
    cbn [MDSWriter.extra_bytes_per_shard MDSWriter.config_data
         MDSWriter.new_samples].
    split; [lia|reflexivity]. }
  apply init_ok_inv in Hinit as (b & _ & Hcols).
  apply init_columns_inv in Hcols as (es & Hns & Hes & Hss & Hlookup).
  cbn [app] in Hns, Hes, Hss.
  destruct (sorted_NoDup columns) as [Hnodup Hsize].
  pose proof (Forall2_length _ _ _ Hlookup) as Hlen.
  unfold MDSWriter.zip_columns. rewrite Hns, Hes, Hss.
  rewrite !length_zip_with, length_map, <- Hlen, Hsize.
  repeat split; try lia; try tauto.
  - apply in_sorted.
  - apply in_sorted.
Qed.

End ConstructionMore.

Lemma init_builds_one_column_per_key_witness :
  length (MDSWriter.zip_columns demo.writer_a_b) = size demo.columns_a_b.
Proof.
  apply (init_builds_one_column_per_key demo.is_mds_encoding
           demo.get_mds_encoded_size unit demo.JointWriter_init
           demo.dumps_config demo.columns_a_b demo.no_args demo.writer_a_b).
  exact demo_init_a_b.
Defined.

(** * More of the dataset classes *)

Section WebVidMore.

Variable find_sample : Z -> Z * Z.
Variable base_sample : Z -> option sample_dict.
Variable remote_content : string -> option bytes.

Abbreviation GI_getitem :=
  (StreamingOutsideGIWebVid.__getitem__ base_sample remote_content).
Abbreviation DT_getitem :=
  (StreamingOutsideDTWebVid.__getitem__ base_sample remote_content).
Abbreviation Inside_getitem := (StreamingInsideWebVid.__getitem__ base_sample).
Abbreviation predownload_sample' :=
  (predownload_sample find_sample base_sample remote_content).
Abbreviation loop_body' := (loop_body find_sample base_sample remote_content).
Abbreviation loop_iteration' :=
  (loop_iteration find_sample base_sample remote_content).
Abbreviation download_thread' :=
  (_download_thread find_sample base_sample remote_content).
Abbreviation thread_step' := (thread_step find_sample base_sample remote_content).
Abbreviation run' := (run find_sample base_sample remote_content).

(** The code of [__getitem__] has the outcomes listed. *)
Lemma getitem_is_outcome (self : dataset) (idx : Z) (w : world) :
  GI_getitem self idx w = getitem_outcome base_sample remote_content self idx w.
Proof.
  unfold StreamingOutsideGIWebVid.__getitem__, getitem_outcome, io_bind, after_calls.
  rewrite super_getitem_run.
  destruct (base_sample idx) as [obj|]; cbn [collaborator]; [|reflexivity].
  destruct (extra_roots self) as [[l r]|]; cbn [ret]; [|reflexivity].
  unfold content_path.
  destruct (obj !! "content_path"%string) as [[z|p|b|ll]|];
    cbn [ret raise]; try reflexivity.
  unfold os_path.exists_. cbn [files log].
  destruct (files w !! os_path.join l p) as [content|] eqn:Hfile;
    cbn [negb bool_decide decide_rel is_Some_dec ret].
  - unfold read_file, io_bind, emit, ret. cbn [files log]. rewrite Hfile.
    rewrite <- !app_assoc. reflexivity.
  - unfold download, io_bind, emit. cbn [files log].
    destruct (remote_content (os_path.join r p)) as [content|].
    + unfold read_file, io_bind, emit, ret. cbn [files log].
      rewrite lookup_insert_eq, <- !app_assoc. reflexivity.
    + rewrite <- !app_assoc. reflexivity.
Qed.

Lemma predownload_is_outcome (self : dataset) (sample_id : Z) (w : world) :
  predownload_sample' self sample_id w
  = predownload_outcome find_sample base_sample remote_content self sample_id w.
Proof.
  unfold predownload_sample, predownload_outcome, io_bind, after_calls.
  destruct (find_sample sample_id) as [shard_id place].
  unfold _download_or_skip_shard, emit at 1 2. cbn [files log fst].
  rewrite super_getitem_run.
  destruct (base_sample sample_id) as [obj|]; cbn [collaborator files log];
    [|rewrite <- !app_assoc; reflexivity].
  destruct (extra_roots self) as [[l r]|]; cbn [ret];
    [|rewrite <- !app_assoc; reflexivity].
  unfold content_path.
  destruct (obj !! "content_path"%string) as [[z|p|b|ll]|];
    cbn [ret raise]; try (rewrite <- !app_assoc; reflexivity).
  unfold os_path.exists_. cbn [files log].
  destruct (files w !! os_path.join l p) as [content|] eqn:Hfile;
    cbn [negb bool_decide decide_rel is_Some_dec ret].
  - rewrite <- !app_assoc. reflexivity.
  - unfold download, io_bind, emit. cbn [files log].
    destruct (remote_content (os_path.join r p)) as [content|];
      rewrite <- !app_assoc; reflexivity.
Qed.

(** X10: what [__getitem__] of the two classes with videos outside the
    shards returns, when it returns: the sample of the base retrieval, that
    is what [StreamingInsideWebVid.__getitem__] returns, and, when the two
    roots are set, with the field [content] set to the bytes that the local
    file of the video holds after the call. Every other field is the one of
    the base retrieval. *)
Theorem getitem_attaches_local_content (self : dataset) (idx : Z)
    (w w1 : world) (sample : sample_dict) :
  GI_getitem self idx w = (Ok sample, w1) ->
  DT_getitem self idx w = (Ok sample, w1)
  /\ exists obj,
       Inside_getitem idx w = (Ok obj, after_calls w [BaseGetItem idx])
       /\ (forall key, key <> "content"%string -> sample !! key = obj !! key)
       /\ match extra_roots self with
          | None => sample = obj /\ files w1 = files w
          | Some (l, r) =>
              exists p content,
                obj !! "content_path"%string = Some (PyStr p)
                /\ files w1 !! os_path.join l p = Some content
                /\ sample = <["content"%string := PyBytes content]> obj
          end.
Proof.
  intros Hrun. split; [exact Hrun|].
  rewrite getitem_is_outcome in Hrun. unfold getitem_outcome in Hrun.
  unfold StreamingInsideWebVid.__getitem__, io_bind.
  rewrite super_getitem_run.
  destruct (base_sample idx) as [obj|]; [|discriminate].
  exists obj. split; [reflexivity|].
  destruct (extra_roots self) as [[l r]|].
  - destruct (obj !! "content_path"%string) as [[z|p|b|ll]|] eqn:Hpath;
      try discriminate.
    cbv zeta in Hrun.
    destruct (files w !! os_path.join l p) as [content|] eqn:Hfile.
    + injection Hrun as <- <-. split.
      * intros key Hkey. apply lookup_insert_ne. congruence.
      * exists p, content. repeat split. exact Hfile.
    + destruct (remote_content (os_path.join r p)) as [content|];
        [|discriminate].
      injection Hrun as <- <-. split.
      * intros key Hkey. apply lookup_insert_ne. congruence.
      * exists p, content. repeat split. apply lookup_insert_eq.
  - injection Hrun as <- <-. repeat split.
Qed.

(** X11: a local file that is there is trusted. When the roots are set and
    the local path of the video exists, [__getitem__] returns the content
    of the local file and makes no transfer, whatever the remote store
    holds under the remote path, be it nothing or other bytes. *)
Theorem getitem_trusts_local_file (self : dataset) (idx : Z) (w : world)
    (obj : sample_dict) (l r p : string) (content : bytes) :
  extra_roots self = Some (l, r) ->
  base_sample idx = Some obj ->
  obj !! "content_path"%string = Some (PyStr p) ->
  files w !! os_path.join l p = Some content ->
  GI_getitem self idx w
  = (Ok (<["content"%string := PyBytes content]> obj),
     after_calls w [BaseGetItem idx; PathExists (os_path.join l p);
                    ReadFile (os_path.join l p)])
  /\ forall other_remote : string -> option bytes,
       StreamingOutsideGIWebVid.__getitem__ base_sample other_remote self idx w
       = GI_getitem self idx w.
Proof.
  intros Hroots Hobj Hpath Hfile.
  assert (Hany : forall rc : string -> option bytes,
             StreamingOutsideGIWebVid.__getitem__ base_sample rc self idx w
             = (Ok (<["content"%string := PyBytes content]> obj),
                after_calls w [BaseGetItem idx; PathExists (os_path.join l p);
                               ReadFile (os_path.join l p)])).
  { intros rc.
    exact (getitem_present base_sample rc self idx obj l r p Hroots Hobj Hpath
             w content Hfile). }
  split; [apply Hany|]. intros other_remote. rewrite !Hany. reflexivity.
Qed.

(** X12: a [content_path] that starts with [/] is taken as it is. Both
    roots are dropped by [os.path.join]: the path that is tested, written
    and read is the [content_path] itself, and it is also the remote path
    handed to [download]. *)
Theorem getitem_absolute_content_path (self : dataset) (idx : Z) (w : world)
    (obj : sample_dict) (l r p : string) (content : bytes) :
  extra_roots self = Some (l, r) ->
  base_sample idx = Some obj ->
  obj !! "content_path"%string = Some (PyStr p) ->
  os_path.startswith_sep p = true ->
  files w !! p = None ->
  remote_content p = Some content ->
  GI_getitem self idx w
  = (Ok (<["content"%string := PyBytes content]> obj),
     {| files := <[p := content]> (files w);
        log := log w ++ [BaseGetItem idx; PathExists p;
                         Download p p (download_timeout self); ReadFile p] |}).
Proof.
  intros Hroots Hobj Hpath Habs Hfile Hremote.
  rewrite getitem_is_outcome. unfold getitem_outcome.
  rewrite Hobj, Hroots, Hpath. cbv zeta.
  unfold os_path.join. rewrite Habs, Hfile, Hremote. reflexivity.
Qed.

(** X13: [__getitem__] of the two classes with videos outside the shards
    fails before any path is tested when base retrieval raises and, with
    the two roots set, when the sample has no field [content_path] (a
    [KeyError]) or has one that is not a string (the [TypeError] of
    [os.path.join]). In each of these cases the exception is raised right
    after base retrieval: no path is tested, nothing is downloaded,
    nothing is read, and the files are the ones from before. *)
Theorem getitem_fails_before_any_path_test (self : dataset) (idx : Z)
    (w : world) :
  (base_sample idx = None ->
   GI_getitem self idx w
   = (Raise (Raised_by_collaborator "StreamingDataset.__getitem__"),
      after_calls w [BaseGetItem idx]))
  /\ (forall obj l r,
        base_sample idx = Some obj ->
        extra_roots self = Some (l, r) ->
        obj !! "content_path"%string = None ->
        GI_getitem self idx w
        = (Raise (KeyError_missing "content_path"),
           after_calls w [BaseGetItem idx]))
  /\ (forall obj l r value,
        base_sample idx = Some obj ->
        extra_roots self = Some (l, r) ->
        obj !! "content_path"%string = Some value ->
        (forall p, value <> PyStr p) ->
        GI_getitem self idx w
        = (Raise (TypeError_not_a_path "content_path"),
           after_calls w [BaseGetItem idx]))
  /\ DT_getitem self idx w = GI_getitem self idx w.
Proof.
  clear find_sample.
  rewrite getitem_is_outcome. unfold getitem_outcome.
  split; [|split; [|split]].
  - intros ->. reflexivity.
  - intros obj l r -> -> ->. reflexivity.
  - intros obj l r value -> -> -> Hvalue.
    destruct value as [z|p|b|ll]; try reflexivity.
    destruct (Hvalue p eq_refl).
  - change (DT_getitem self idx w) with (GI_getitem self idx w).
    rewrite getitem_is_outcome. reflexivity.
Qed.

(** *** Files and cursors *)

Lemma predownload_keeps_files (self : dataset) (sample_id : Z) (w : world)
    (path : string) (content : bytes) :
  files w !! path = Some content ->
  files (snd (predownload_sample' self sample_id w)) !! path = Some content.
Proof.
  intros Hfile. rewrite predownload_is_outcome.
  unfold predownload_outcome, after_calls. cbv zeta.
  destruct (base_sample sample_id) as [obj|]; [|exact Hfile].
  destruct (extra_roots self) as [[l r]|]; [|exact Hfile].
  destruct (obj !! "content_path"%string) as [[z|p|b|ll]|]; try exact Hfile.
  destruct (files w !! os_path.join l p) as [c|] eqn:Hlocal; [exact Hfile|].
  destruct (remote_content (os_path.join r p)) as [c|]; [|exact Hfile].
  cbn [snd files]. rewrite lookup_insert_ne; [exact Hfile|congruence].
Qed.

Lemma getitem_keeps_files (self : dataset) (idx : Z) (w : world)
    (path : string) (content : bytes) :
  files w !! path = Some content ->
  files (snd (GI_getitem self idx w)) !! path = Some content.
Proof.
  intros Hfile. rewrite getitem_is_outcome.
  unfold getitem_outcome, after_calls.
  destruct (base_sample idx) as [obj|]; [|exact Hfile].
  destruct (extra_roots self) as [[l r]|]; [|exact Hfile].
  destruct (obj !! "content_path"%string) as [[z|p|b|ll]|]; try exact Hfile.
  cbv zeta.
  destruct (files w !! os_path.join l p) as [c|] eqn:Hlocal; [exact Hfile|].
  destruct (remote_content (os_path.join r p)) as [c|]; [|exact Hfile].
  cbn [snd files]. rewrite lookup_insert_ne; [exact Hfile|congruence].
Qed.

Lemma loop_body_keeps_files (self : dataset) (state : PartitionState) (w : world)
    (path : string) (content : bytes) :
  files w !! path = Some content ->
  files (snd (loop_body' self state w)) !! path = Some content.
Proof.
  intros Hfile. unfold loop_body, io_bind at 1, lift.
  destruct (array_getitem (sample_ids state) (download_index state))
    as [sample_id|e]; [|exact Hfile].
  destruct (sample_id =? -1); [exact Hfile|].
  unfold io_bind.
  pose proof (predownload_keeps_files self sample_id w path content Hfile) as Hkeep.
  destruct (predownload_sample' self sample_id w) as [[[]|e] w']; exact Hkeep.
Qed.

Lemma loop_iteration_keeps_files (self : dataset) (state : PartitionState)
    (w : world) (path : string) (content : bytes) :
  files w !! path = Some content ->
  files (snd (loop_iteration' self state w)) !! path = Some content.
Proof.
  intros Hfile. unfold loop_iteration.
  destruct (loop_guard self state); try exact Hfile.
  unfold io_bind.
  pose proof (loop_body_keeps_files self state w path content Hfile) as Hkeep.
  destruct (loop_body' self state w) as [[state'|e] w']; exact Hkeep.
Qed.

(** X14: the classes only add files. A local file that is there keeps its
    content through [__getitem__] of both classes and through any number
    of turns of the download thread, whether they end well or raise: no
    file is removed or written over. *)
Theorem local_files_are_kept (self : dataset) (w : world) (path : string)
    (content : bytes) :
  files w !! path = Some content ->
  (forall idx, files (snd (GI_getitem self idx w)) !! path = Some content)
  /\ (forall idx, files (snd (DT_getitem self idx w)) !! path = Some content)
  /\ (forall fuel state,
        files (snd (download_thread' fuel self state w)) !! path = Some content).
Proof.
  intros Hfile. split; [|split].
  - intros idx. apply getitem_keeps_files. exact Hfile.
  - intros idx. apply getitem_keeps_files. exact Hfile.
  - intros fuel. revert w Hfile.
    induction fuel as [|fuel IH]; intros w Hfile state; [exact Hfile|].
    cbn [_download_thread]. unfold io_bind.
    pose proof (loop_iteration_keeps_files self state w path content Hfile)
      as Hkeep.
    destruct (loop_iteration' self state w) as [[[[] state']|e] w'];
      cbn [snd] in Hkeep.
    + exact Hkeep.
    + apply IH. exact Hkeep.
    + exact Hkeep.
Qed.

Lemma loop_iteration_state (self : dataset) (state state' : PartitionState)
    (w w' : world) (c : control) :
  loop_iteration' self state w = (Ok (c, state'), w') ->
  state' = state \/ state' = advance_download_index state.
Proof.
  unfold loop_iteration.
  destruct (loop_guard self state).
  - intros [= _ <- _]. left. reflexivity.
  - intros [= _ <- _]. left. reflexivity.
  - unfold io_bind.
    destruct (loop_body' self state w) as [[s|e] w''] eqn:Hbody; [|discriminate].
    intros [= _ <- _]. right. exact (loop_body_advances find_sample base_sample remote_content self state s w w'' Hbody).
Qed.

(** X15: the download thread writes the download cursor and nothing else
    of the partition state, and only moves it forward, by one for a step
    at most. In any run, with the rest of the process in between, the
    sample ids and [total] stay and the cursor has moved forward by at most
    the number of steps of the thread; a step of the thread leaves
    [yield_index] and the stop flag as they are; and so does the thread run
    alone until it leaves the loop. *)
Theorem thread_writes_cursor_only (self : dataset) :
  (forall n m m',
      run' self n m m' ->
      sample_ids (shared m') = sample_ids (shared m)
      /\ total (shared m') = total (shared m)
      /\ download_index (shared m) <= download_index (shared m')
         <= download_index (shared m) + Z.of_nat n)
  /\ (forall m,
        sample_ids (shared (thread_step' self m)) = sample_ids (shared m)
        /\ total (shared (thread_step' self m)) = total (shared m)
        /\ yield_index (shared (thread_step' self m)) = yield_index (shared m)
        /\ is_stopped (shared (thread_step' self m)) = is_stopped (shared m))
  /\ (forall fuel state w state' w',
        download_thread' fuel self state w = (Ok (Some state'), w') ->
        sample_ids state' = sample_ids state
        /\ total state' = total state
        /\ yield_index state' = yield_index state
        /\ is_stopped state' = is_stopped state
        /\ download_index state <= download_index state').
Proof.
  assert (Hstep : forall m,
             sample_ids (shared (thread_step' self m)) = sample_ids (shared m)
             /\ total (shared (thread_step' self m)) = total (shared m)
             /\ yield_index (shared (thread_step' self m)) = yield_index (shared m)
             /\ is_stopped (shared (thread_step' self m)) = is_stopped (shared m)).
  { intros m.
    destruct (thread_step_shared find_sample base_sample remote_content self m) as [->|(_ & _ & ->)];
      repeat split. }
  split; [|split; [exact Hstep|]].
  - induction 1 as [m|n m m' _ _ IH|n m1 m2 m' Hothers _ IH].
    + repeat split; lia.
    + destruct IH as (Hids & Htotal & Hd).
      destruct (Hstep m) as (Hids' & Htotal' & _ & _).
      rewrite Hids, Htotal, Hids', Htotal'. repeat split.
      * destruct (thread_step_shared find_sample base_sample remote_content self m) as [Hs|(_ & _ & Hs)];
          rewrite Hs in Hd; cbn [download_index advance_download_index] in Hd; lia.
      * destruct (thread_step_shared find_sample base_sample remote_content self m) as [Hs|(_ & _ & Hs)];
          rewrite Hs in Hd; cbn [download_index advance_download_index] in Hd; lia.
    + destruct IH as (Hids & Htotal & Hd).
      destruct Hothers as [_ Hids' Htotal' Hd' _ _ _].
      rewrite Hids, Htotal, Hids', Htotal', <- Hd'. repeat split; lia.
  - induction fuel as [|fuel IH]; intros state w state' w' Hrun; [discriminate|].
    cbn [_download_thread] in Hrun. unfold io_bind in Hrun.
    destruct (loop_iteration' self state w) as [[[c s]|e] w1] eqn:Hturn;
      [|discriminate].
    pose proof (loop_iteration_state self state s w w1 c Hturn) as Hs.
    destruct c.
    + injection Hrun as <- <-.
      destruct Hs as [->| ->]; cbn; repeat split; lia.
    + apply IH in Hrun as (Hids & Htotal & Hy & Hstop & Hd).
      destruct Hs as [->| ->]; cbn in *; repeat split; try assumption; lia.
Qed.

(** *** The bounds of the partition *)

Lemma array_getitem_on_slot (state : PartitionState) :
  well_formed state -> download_index state <> total state ->
  exists sample_id,
    array_getitem (sample_ids state) (download_index state) = Ok sample_id
    /\ sample_ids state !! Z.to_nat (download_index state) = Some sample_id.
Proof.
  intros [Htotal Hd] Hend. unfold array_getitem.
  assert (Hlt : (Z.to_nat (download_index state) < length (sample_ids state))%nat)
    by (unfold len in Htotal; lia).
  destruct (lookup_lt_is_Some_2 _ _ Hlt) as [x Hx].
  exists x. split; [|exact Hx].
  destruct (download_index state <? 0) eqn:Hneg; [apply Z.ltb_lt in Hneg; lia|].
  rewrite Hx.
  replace (0 <=? download_index state) with true by (symmetry; apply Z.leb_le; lia).
  replace (download_index state <? len (sample_ids state)) with true
    by (symmetry; apply Z.ltb_lt; lia).
  reflexivity.
Qed.

Lemma loop_guard_proceed_on_slot (self : dataset) (state : PartitionState) :
  loop_guard self state = Proceed ->
  is_stopped state = false /\ download_index state <> total state.
Proof.
  unfold loop_guard. destruct (is_stopped state); [discriminate|].
  destruct (download_index state =? total state) eqn:Hend; [discriminate|].
  intros _. apply Z.eqb_neq in Hend. split; [reflexivity|exact Hend].
Qed.

Lemma predownload_never_index_error (self : dataset) (sample_id : Z)
    (w w' : world) (e : exn) (i : Z) :
  predownload_sample' self sample_id w = (Raise e, w') ->
  e <> IndexError_out_of_bounds i.
Proof.
  rewrite predownload_is_outcome. unfold predownload_outcome. cbv zeta.
  destruct (base_sample sample_id) as [obj|]; [|intros [= <- _]; discriminate].
  destruct (extra_roots self) as [[l r]|]; [|discriminate].
  destruct (obj !! "content_path"%string) as [[z|p|b|ll]|];
    try (intros [= <- _]; discriminate).
  destruct (files w !! os_path.join l p); [discriminate|].
  destruct (remote_content (os_path.join r p)); [discriminate|].
  intros [= <- _]. discriminate.
Qed.

Lemma loop_body_in_bounds (self : dataset) (state : PartitionState) (w : world) :
  well_formed state -> download_index state <> total state ->
  match loop_body' self state w with
  | (Ok state', _) => well_formed state'
  | (Raise e, _) => forall i, e <> IndexError_out_of_bounds i
  end.
Proof.
  intros Hwf Hend.
  destruct (array_getitem_on_slot state Hwf Hend) as (sample_id & Hslot & _).
  destruct (Z.eq_dec sample_id (-1)) as [->|Hid].
  - rewrite (loop_body_sentinel find_sample base_sample remote_content self
               state w Hslot).
    destruct Hwf as [Htotal Hd]. split; cbn; [exact Htotal|lia].
  - rewrite (loop_body_sample find_sample base_sample remote_content self
               state w sample_id Hslot Hid).
    destruct (predownload_sample' self sample_id w) as [[[]|e] w'] eqn:Hrun.
    + destruct Hwf as [Htotal Hd]. split; cbn; [exact Htotal|lia].
    + intros i. exact (predownload_never_index_error self sample_id w w' e i Hrun).
Qed.

Lemma thread_step_in_bounds (self : dataset) (m : machine) :
  in_bounds m -> in_bounds (thread_step' self m).
Proof.
  intros [Hwf Hpc]. unfold in_bounds, thread_step.
  destruct (at_pc m) eqn:Hat.
  - destruct (loop_guard self (shared m)) eqn:Hguard; cbn [at_pc shared];
      split; try exact Hwf; try exact I.
    apply (loop_guard_proceed_on_slot self _ Hguard).
  - pose proof (loop_body_in_bounds self (shared m) (env m) Hwf Hpc) as Hbody.
    destruct (loop_body' self (shared m) (env m)) as [[state'|e] w'];
      cbn [at_pc shared].
    + split; [exact Hbody|exact I].
    + split; [exact Hwf|]. destruct e; try exact I. exact (Hbody index eq_refl).
  - rewrite Hat. split; [exact Hwf|exact I].
  - rewrite Hat. split; [exact Hwf|exact Hpc].
Qed.

Lemma others_step_in_bounds (m m' : machine) :
  others_step m m' -> in_bounds m -> in_bounds m'.
Proof.
  intros [Hpc Hids Htotal Hd _ _ _] [[Hlen Hrange] Hat].
  unfold in_bounds, well_formed. rewrite Hpc, Hids, Htotal, Hd.
  split; [split; assumption|exact Hat].
Qed.

(** X16: the download thread stays within its partition. From a state
    with [total] slots and the cursor on a slot or at the end, every state
    that a run reaches, with the rest of the process in between, has the
    cursor between 0 and [total], and the thread never indexes the sample
    ids out of their bounds: no [IndexError] ends it. *)
Theorem thread_stays_in_bounds (self : dataset) (n : nat) (m m' : machine) :
  run' self n m m' ->
  in_bounds m ->
  in_bounds m'
  /\ 0 <= download_index (shared m') <= len (sample_ids (shared m'))
  /\ forall i, at_pc m' <> Died (IndexError_out_of_bounds i).
Proof.
  intros Hrun Hstart.
  assert (Hend : in_bounds m').
  { induction Hrun as [m|n m m' _ _ IH|n m1 m2 m' Hothers _ IH].
    - exact Hstart.
    - apply IH, thread_step_in_bounds. exact Hstart.
    - apply IH. exact (others_step_in_bounds m1 m2 Hothers Hstart). }
  split; [exact Hend|]. destruct Hend as [[Htotal Hd] Hpc]. split.
  - rewrite <- Htotal. exact Hd.
  - intros i Hdied. rewrite Hdied in Hpc. exact Hpc.
Qed.

(** *** The thread run alone *)

Lemma lookups_app (t1 t2 : list event) : lookups (t1 ++ t2) = lookups t1 ++ lookups t2.
Proof.
  induction t1 as [|e t1 IH]; [reflexivity|].
  destruct e; cbn [app lookups]; rewrite IH; reflexivity.
Qed.

Lemma predownload_lookups (self : dataset) (sample_id : Z) (w : world) :
  exists trace,
    log (snd (predownload_sample' self sample_id w)) = log w ++ trace
    /\ lookups trace = [sample_id].
Proof.
  rewrite predownload_is_outcome. unfold predownload_outcome, after_calls.
  cbv zeta.
  destruct (base_sample sample_id) as [obj|]; [|eexists; split; reflexivity].
  destruct (extra_roots self) as [[l r]|]; [|eexists; split; reflexivity].
  destruct (obj !! "content_path"%string) as [[z|p|b|ll]|];
    try (eexists; split; reflexivity).
  destruct (files w !! os_path.join l p); [eexists; split; reflexivity|].
  destruct (remote_content (os_path.join r p)); eexists; split; reflexivity.
Qed.

Lemma loop_guard_allows (self : dataset) (state : PartitionState) :
  is_stopped state = false -> download_index state < total state ->
  window_allows self state ->
  loop_guard self state = Proceed.
Proof.
  intros Hstop Hd Hwindow. unfold loop_guard, window_allows in *. rewrite Hstop.
  replace (download_index state =? total state) with false
    by (symmetry; apply Z.eqb_neq; lia).
  destruct (predownload self) as [w|]; [|reflexivity].
  replace (w <=? download_index state - yield_index state) with false
    by (symmetry; apply Z.leb_gt; lia).
  reflexivity.
Qed.

Lemma samples_from_slot (state : PartitionState) (sample_id : Z) :
  0 <= download_index state ->
  sample_ids state !! Z.to_nat (download_index state) = Some sample_id ->
  samples_from state (download_index state)
  = (if sample_id =? -1 then [] else [sample_id])
    ++ samples_from (advance_download_index state)
         (download_index (advance_download_index state)).
Proof.
  intros Hd Hslot. unfold samples_from. cbn [advance_download_index
  sample_ids download_index].
  replace (Z.to_nat (download_index state + 1))
    with (S (Z.to_nat (download_index state))) by lia.
  rewrite (drop_S _ _ _ Hslot). cbn [List.filter].
  destruct (sample_id =? -1); reflexivity.
Qed.

(** X17: run alone with room in the window, with the stop flag unset, and
    on samples whose download does not raise, the download thread goes
    through the slots that are left and leaves its loop with the cursor at
    [total], after as many turns as slots were left and one more. The
    sample ids it has looked up are the ids of these slots that are not the
    sentinel, each once and in the order of the slots: no sample is left
    out and none comes early. *)
Theorem thread_downloads_every_sample_in_order (self : dataset) (fuel : nat) :
  forall (state : PartitionState) (w : world),
    well_formed state ->
    is_stopped state = false ->
    window_allows self state ->
    (forall sample_id w0,
        In sample_id (samples_from state (download_index state)) ->
        exists w1, predownload_sample' self sample_id w0 = (Ok tt, w1)) ->
    (Z.to_nat (total state - download_index state) < fuel)%nat ->
    exists w' trace,
      download_thread' fuel self state w = (Ok (Some (at_the_end state)), w')
      /\ log w' = log w ++ trace
      /\ lookups trace = samples_from state (download_index state).
Proof.
  induction fuel as [|fuel IH]; intros state w Hwf Hstop Hwindow Hok Hfuel;
    [lia|].
  destruct Hwf as [Htotal Hd].
  cbn [_download_thread]. unfold io_bind at 1, loop_iteration.
  destruct (Z.eq_dec (download_index state) (total state)) as [Hend|Hend].
  - unfold loop_guard. rewrite Hstop.
    replace (download_index state =? total state) with true
      by (symmetry; apply Z.eqb_eq; exact Hend).
    cbn [ret]. exists w, []. rewrite app_nil_r. split; [|split].
    + do 3 f_equal. unfold at_the_end.
      destruct state as [ids t d y s]. cbn in Hend |- *. subst t. reflexivity.
    + reflexivity.
    + unfold samples_from. rewrite drop_ge; [reflexivity|].
      unfold len in Htotal. lia.
  - rewrite (loop_guard_allows self state Hstop) by (lia || exact Hwindow).
    destruct (array_getitem_on_slot state (conj Htotal Hd) Hend)
      as (sample_id & Hget & Hslot).
    pose proof (samples_from_slot state sample_id (proj1 Hd) Hslot) as Hfrom.
    assert (Hnext : forall w1,
               exists w' trace,
                 download_thread' fuel self (advance_download_index state) w1
                 = (Ok (Some (at_the_end state)), w')
                 /\ log w' = log w1 ++ trace
                 /\ lookups trace
                    = samples_from (advance_download_index state)
                        (download_index (advance_download_index state))).
    { intros w1.
      apply (IH (advance_download_index state) w1).
      - split; cbn; [exact Htotal|lia].
      - exact Hstop.
      - exact Hwindow.
      - intros id w0 Hin. apply Hok. rewrite Hfrom. apply in_or_app.
        right. exact Hin.
      - cbn. lia. }
    unfold io_bind at 1.
    destruct (Z.eq_dec sample_id (-1)) as [->|Hid].
    + rewrite (loop_body_sentinel find_sample base_sample remote_content self
                 state w Hget).
      cbn [ret]. destruct (Hnext w) as (w' & trace & Hrun & Hlog & Hlook).
      exists w', trace. rewrite Hfrom. repeat split; assumption.
    + rewrite (loop_body_sample find_sample base_sample remote_content self
                 state w sample_id Hget Hid).
      assert (Hin : In sample_id (samples_from state (download_index state))).
      { rewrite Hfrom. apply Z.eqb_neq in Hid. rewrite Hid. left. reflexivity. }
      destruct (Hok sample_id w Hin) as [w1 Hrun1].
      destruct (predownload_lookups self sample_id w) as (trace1 & Hlog1 & Hlook1).
      rewrite Hrun1 in Hlog1 |- *. cbn [snd ret] in *.
      destruct (Hnext w1) as (w' & trace & Hrun & Hlog & Hlook).
      exists w', (trace1 ++ trace). split; [exact Hrun|]. split.
      * rewrite Hlog, Hlog1, app_assoc. reflexivity.
      * rewrite lookups_app, Hlook1, Hlook, Hfrom.
        apply Z.eqb_neq in Hid. rewrite Hid. reflexivity.
Qed.

(** X18: as long as the thread is a window ahead of the consumer, or more,
    it only sleeps. Run alone from such a state, with slots left and the
    stop flag unset, every turn of its loop sleeps and leaves the partition
    state and the files as they are, so that the thread never leaves the
    loop; with a window of no sample it does so from the start. *)
Theorem thread_waits_for_the_consumer (self : dataset) (w : Z)
    (state : PartitionState) :
  predownload self = Some w ->
  is_stopped state = false ->
  download_index state <> total state ->
  w <= download_index state - yield_index state ->
  forall (fuel : nat) (world : world),
    download_thread' fuel self state world
    = (Ok None, after_calls world (repeat Sleep fuel)).
Proof.
  intros Hw Hstop Hend Hahead.
  induction fuel as [|fuel IH]; intros world.
  - unfold after_calls. cbn. rewrite app_nil_r. destruct world; reflexivity.
  - cbn [_download_thread]. unfold io_bind at 1, loop_iteration.
    rewrite (loop_guard_wait self state w Hw Hstop Hend Hahead).
    unfold io_bind, emit. cbn [ret]. rewrite IH.
    unfold after_calls. cbn [files log repeat].
    rewrite <- app_assoc. reflexivity.
Qed.

(** X19: an exception in the download of a sample ends the thread. When
    the turn of the loop reaches a sample whose download raises, the thread
    raises the same and is over, with the download cursor left on the slot
    of this sample: the slots after it are not downloaded by this
    thread. *)
Theorem failed_download_ends_the_thread (self : dataset)
    (state : PartitionState) (w w' : world) (sample_id : Z) (e : exn) :
  loop_guard self state = Proceed ->
  array_getitem (sample_ids state) (download_index state) = Ok sample_id ->
  sample_id <> -1 ->
  predownload_sample' self sample_id w = (Raise e, w') ->
  (forall fuel, download_thread' (S fuel) self state w = (Raise e, w'))
  /\ thread_step' self {| at_pc := InBody; shared := state; env := w |}
     = {| at_pc := Died e; shared := state; env := w' |}
  /\ running {| at_pc := Died e; shared := state; env := w' |} = false.
Proof.
  intros Hguard Hslot Hid Hrun.
  pose proof (loop_body_sample find_sample base_sample remote_content self
                state w sample_id Hslot Hid) as Hbody.
  rewrite Hrun in Hbody. split; [|split].
  - intros fuel. cbn [_download_thread].
    unfold io_bind at 1, loop_iteration. rewrite Hguard.
    unfold io_bind at 1. rewrite Hbody. reflexivity.
  - unfold thread_step. cbn [at_pc shared env]. rewrite Hbody. reflexivity.
  - reflexivity.
Qed.

(** *** The two places that fetch a video *)

(** X20: the download of a sample by the thread and [__getitem__] of the
    same class derive the same paths. When the download by the thread
    ends well, [__getitem__] from the same world tests the same local
    path, makes the same transfers, and leaves the same files. *)
Theorem predownload_fetches_what_getitem_fetches (self : dataset) (idx : Z)
    (w w1 : world) :
  predownload_sample' self idx w = (Ok tt, w1) ->
  let access := DT_getitem self idx w in
  files w1 = files (snd access)
  /\ transfers (emitted w w1) = transfers (emitted w (snd access))
  /\ path_tests (emitted w w1) = path_tests (emitted w (snd access)).
Proof.
  cbv zeta.
  change (DT_getitem self idx w) with (GI_getitem self idx w).
  rewrite predownload_is_outcome, getitem_is_outcome.
  unfold predownload_outcome, getitem_outcome, after_calls. cbv zeta.
  destruct (base_sample idx) as [obj|]; [|discriminate].
  destruct (extra_roots self) as [[l r]|].
  2:{ intros [= <-]. cbn [fst snd files]. rewrite !emitted_app. repeat split. }
  destruct (obj !! "content_path"%string) as [[z|p|b|ll]|]; try discriminate.
  destruct (files w !! os_path.join l p).
  { intros [= <-]. cbn [fst snd files]. rewrite !emitted_app. repeat split. }
  destruct (remote_content (os_path.join r p)); [|discriminate].
  intros [= <-]. cbn [fst snd files]. rewrite !emitted_app. repeat split.
Qed.

End WebVidMore.

Lemma getitem_attaches_local_content_witness :
  StreamingOutsideDTWebVid.__getitem__ demo_webvid.base_sample
    demo_webvid.remote_content demo_webvid.outside 3 demo_webvid.empty_world
  = (Ok demo_webvid.fetched_sample, snd demo_webvid.first_fetch).
Proof.
  assert (Hfirst : demo_webvid.first_fetch
                   = (Ok demo_webvid.fetched_sample, snd demo_webvid.first_fetch))
    by (vm_compute; reflexivity).
  exact (proj1 (getitem_attaches_local_content demo_webvid.base_sample
                  demo_webvid.remote_content demo_webvid.outside 3
                  demo_webvid.empty_world (snd demo_webvid.first_fetch)
                  demo_webvid.fetched_sample Hfirst)).
Defined.

Lemma getitem_trusts_local_file_witness :
  StreamingOutsideGIWebVid.__getitem__ demo_webvid.base_sample
    demo_webvid.remote_content demo_webvid.outside 3 world_with_old_video
  = (Ok (<["content"%string := PyBytes [Byte.xff]]>
           {[ "content_path"%string := PyStr "v.mp4";
              "caption"%string := PyStr "hi" ]}),
     after_calls world_with_old_video
       [BaseGetItem 3; PathExists (os_path.join "/tmp/videos" "v.mp4");
        ReadFile (os_path.join "/tmp/videos" "v.mp4")]).
Proof.
  apply (getitem_trusts_local_file demo_webvid.base_sample
           demo_webvid.remote_content demo_webvid.outside 3
           world_with_old_video
           {[ "content_path"%string := PyStr "v.mp4";
              "caption"%string := PyStr "hi" ]}
           "/tmp/videos" "s3://videos" "v.mp4" [Byte.xff]).
  - reflexivity.
  - reflexivity.
  - vm_compute. reflexivity.
  - vm_compute. reflexivity.
Defined.

Lemma getitem_absolute_content_path_witness :
  StreamingOutsideGIWebVid.__getitem__ absolute_sample absolute_remote
    demo_webvid.outside 3 demo_webvid.empty_world
  = (Ok (<["content"%string := PyBytes [Byte.x09]]>
           {[ "content_path"%string := PyStr "/etc/v.mp4" ]}),
     {| files := <["/etc/v.mp4"%string := [Byte.x09]]> ∅;
        log := [BaseGetItem 3; PathExists "/etc/v.mp4";
                Download "/etc/v.mp4" "/etc/v.mp4" 60;
                ReadFile "/etc/v.mp4"] |}).
Proof.
  apply (getitem_absolute_content_path absolute_sample absolute_remote
           demo_webvid.outside 3 demo_webvid.empty_world
           {[ "content_path"%string := PyStr "/etc/v.mp4" ]}
           "/tmp/videos" "s3://videos" "/etc/v.mp4" [Byte.x09]).
  - reflexivity.
  - reflexivity.
  - vm_compute. reflexivity.
  - reflexivity.
  - reflexivity.
  - reflexivity.
Defined.

Lemma getitem_fails_before_any_path_test_witness :
  StreamingOutsideGIWebVid.__getitem__ sample_without_path
    demo_webvid.remote_content demo_webvid.outside 3 demo_webvid.empty_world
  = (Raise (KeyError_missing "content_path"),
     after_calls demo_webvid.empty_world [BaseGetItem 3]).
Proof.
  apply (proj1 (proj2 (getitem_fails_before_any_path_test sample_without_path
                         demo_webvid.remote_content demo_webvid.outside 3
                         demo_webvid.empty_world))
           {[ "caption"%string := PyStr "hi" ]}
           "/tmp/videos"%string "s3://videos"%string).
  - reflexivity.
  - reflexivity.
  - reflexivity.
Defined.

Lemma local_files_are_kept_witness :
  files (snd (_download_thread demo_webvid.find_sample demo_webvid.base_sample
                demo_webvid.remote_content 5 outside_no_window
                demo_webvid.fresh_state world_with_old_video))
    !! "/tmp/videos/v.mp4"%string
  = Some [Byte.xff].
Proof.
  apply (local_files_are_kept demo_webvid.find_sample demo_webvid.base_sample
           demo_webvid.remote_content outside_no_window world_with_old_video
           "/tmp/videos/v.mp4" [Byte.xff]).
  vm_compute. reflexivity.
Defined.

Lemma thread_writes_cursor_only_witness :
  download_index (shared demo_webvid.start)
  <= download_index (shared (demo_webvid.step (demo_webvid.step demo_webvid.start)))
  <= download_index (shared demo_webvid.start) + 2.
Proof.
  assert (Hrun : run demo_webvid.find_sample demo_webvid.base_sample
                   demo_webvid.remote_content demo_webvid.outside 2
                   demo_webvid.start
                   (demo_webvid.step (demo_webvid.step demo_webvid.start))).
  { apply run_thread; [reflexivity|].
    apply run_thread; [reflexivity|].
    apply run_refl. }
  apply (proj1 (thread_writes_cursor_only demo_webvid.find_sample
                  demo_webvid.base_sample demo_webvid.remote_content
                  demo_webvid.outside) 2%nat _ _ Hrun).
Defined.

Lemma thread_stays_in_bounds_witness :
  in_bounds (demo_webvid.step (demo_webvid.step demo_webvid.start)).
Proof.
  assert (Hrun : run demo_webvid.find_sample demo_webvid.base_sample
                   demo_webvid.remote_content demo_webvid.outside 2
                   demo_webvid.start
                   (demo_webvid.step (demo_webvid.step demo_webvid.start))).
  { apply run_thread; [reflexivity|].
    apply run_thread; [reflexivity|].
    apply run_refl. }
  apply (thread_stays_in_bounds demo_webvid.find_sample
           demo_webvid.base_sample demo_webvid.remote_content
           demo_webvid.outside 2 _ _ Hrun).
  split; [split; [reflexivity|cbn; lia]|exact I].
Defined.

Lemma thread_downloads_every_sample_in_order_witness :
  exists w' trace,
    _download_thread demo_webvid.find_sample demo_webvid.base_sample
      demo_webvid.remote_content 5 outside_no_window demo_webvid.fresh_state
      demo_webvid.empty_world
    = (Ok (Some (at_the_end demo_webvid.fresh_state)), w')
    /\ log w' = log demo_webvid.empty_world ++ trace
    /\ lookups trace = [10; 11; 12].
Proof.
  apply (thread_downloads_every_sample_in_order demo_webvid.find_sample
           demo_webvid.base_sample demo_webvid.remote_content
           outside_no_window 5 demo_webvid.fresh_state demo_webvid.empty_world).
  - split; [reflexivity|cbn; lia].
  - reflexivity.
  - exact I.
  - intros sample_id w0 _. rewrite predownload_is_outcome.
    unfold predownload_outcome. cbv zeta.
    change (demo_webvid.base_sample sample_id)
      with (Some ({[ "content_path"%string := PyStr "v.mp4";
                     "caption"%string := PyStr "hi" ]} : sample_dict)).
    change (extra_roots outside_no_window)
      with (Some ("/tmp/videos"%string, "s3://videos"%string)).
    cbv iota beta.
    replace (({[ "content_path"%string := PyStr "v.mp4";
                 "caption"%string := PyStr "hi" ]} : sample_dict)
               !! "content_path"%string)
      with (Some (PyStr "v.mp4")) by (vm_compute; reflexivity).
    cbv iota beta.
    destruct (files w0 !! os_path.join "/tmp/videos" "v.mp4");
      [eexists; reflexivity|].
    change (demo_webvid.remote_content (os_path.join "s3://videos" "v.mp4"))
      with (Some [Byte.x01; Byte.x02]).
    eexists. reflexivity.
  - cbn. lia.
Defined.

Lemma thread_waits_for_the_consumer_witness :
  _download_thread demo_webvid.find_sample demo_webvid.base_sample
    demo_webvid.remote_content 3 outside_window_0 demo_webvid.fresh_state
    demo_webvid.empty_world
  = (Ok None, after_calls demo_webvid.empty_world [Sleep; Sleep; Sleep]).
Proof.
  apply (thread_waits_for_the_consumer demo_webvid.find_sample
           demo_webvid.base_sample demo_webvid.remote_content
           outside_window_0 0 demo_webvid.fresh_state).
  - reflexivity.
  - reflexivity.
  - discriminate.
  - cbn. lia.
Defined.

Lemma failed_download_ends_the_thread_witness :
  _download_thread demo_webvid.find_sample sample_without_path
    demo_webvid.remote_content 4 demo_webvid.outside demo_webvid.fresh_state
    demo_webvid.empty_world
  = (Raise (KeyError_missing "content_path"),
     after_calls demo_webvid.empty_world
       [FindSample 10; DownloadOrSkipShard 1 false; BaseGetItem 10]).
Proof.
  apply (proj1 (failed_download_ends_the_thread demo_webvid.find_sample
                  sample_without_path demo_webvid.remote_content
                  demo_webvid.outside demo_webvid.fresh_state
                  demo_webvid.empty_world
                  (after_calls demo_webvid.empty_world
                     [FindSample 10; DownloadOrSkipShard 1 false; BaseGetItem 10])
                  10 (KeyError_missing "content_path")
                  eq_refl eq_refl ltac:(discriminate)
                  ltac:(vm_compute; reflexivity))).
Defined.

Lemma predownload_fetches_what_getitem_fetches_witness :
  let thread := predownload_sample demo_webvid.find_sample
                  demo_webvid.base_sample demo_webvid.remote_content
                  demo_webvid.outside 3 demo_webvid.empty_world in
  let access := StreamingOutsideDTWebVid.__getitem__ demo_webvid.base_sample
                  demo_webvid.remote_content demo_webvid.outside 3
                  demo_webvid.empty_world in
  fst thread = Ok tt
  /\ files (snd thread) = files (snd access)
  /\ transfers (emitted demo_webvid.empty_world (snd thread))
     = transfers (emitted demo_webvid.empty_world (snd access))
  /\ path_tests (emitted demo_webvid.empty_world (snd thread))
     = path_tests (emitted demo_webvid.empty_world (snd access)).
Proof.
  cbv zeta. split; [vm_compute; reflexivity|].
  apply (predownload_fetches_what_getitem_fetches demo_webvid.find_sample
           demo_webvid.base_sample demo_webvid.remote_content
           demo_webvid.outside 3 demo_webvid.empty_world).
  vm_compute. reflexivity.
Defined.
